(** * pktwallet configuration resolution ([pktwallet/config.go])

    A shallow embedding of [loadConfig] and [cleanAndExpandPath].  The Go
    function reads the command line, two configuration files and the file
    system, prints to the standard streams and may leave through [os.Exit];
    here it is a function of a [World] (everything it reads from outside) into
    a small monad that records what it prints and how it leaves. *)

From Stdlib Require Import Ascii String ZArith.
From stdpp Require Import base option list strings gmap.

Local Open Scope string_scope.
Local Open Scope Z_scope.

(** ** Go strings *)

Module GoString.
(** [strings.HasPrefix] *)
Definition HasPrefix (s p : string) : bool := String.prefix p s.

(** [s[i:]] *)
Definition from (i : nat) (s : string) : string :=
  String.substring i (String.length s - i)%nat s.

(** [s[:i]] *)
Definition upto (i : nat) (s : string) : string := String.substring 0 i s.

Fixpoint mem (c : ascii) (chars : string) : bool :=
  match chars with
  | EmptyString => false
  | String d rest => if Ascii.eqb c d then true else mem c rest
  end.

(** [strings.IndexAny]: the first index of a byte of [chars] in [s];
    [None] stands for Go's -1. *)
Fixpoint IndexAny (s chars : string) : option nat :=
  match s with
  | EmptyString => None
  | String c rest =>
      if mem c chars then Some 0%nat else S <$> IndexAny rest chars
  end.

(** [strings.HasSuffix] and [strings.TrimSuffix] *)
Definition HasSuffix (s suf : string) : bool :=
  let n := String.length s in
  let k := String.length suf in
  (k <=? n)%nat && String.eqb (String.substring (n - k) k s) suf.

Definition TrimSuffix (s suf : string) : string :=
  if HasSuffix s suf then upto (String.length s - String.length suf) s else s.
End GoString.

(** ** Errors, output and control

    A Go [error] / [er.R] value: its text, and the two dynamic type tests the
    code makes on errors ([*os.PathError], and [*flags.Error] of type
    [flags.ErrHelp]).  [None : option goerr] is Go's [nil]. *)

Record goerr := GoErr {
  emsg : string;
  is_PathError : bool;
  is_ErrHelp : bool;
}.

(** [er.Errorf] with the format already applied *)
Definition Errorf (msg : string) : goerr := GoErr msg false false.

(** [er.E] turns an [error] into an [er.R]; both are [goerr] here and [nil]
    stays [nil]. *)
Definition er_E (e : option goerr) : option goerr := e.

(** The [ok] of a type assertion to [*os.PathError] on an interface value;
    it is false on [nil]. *)
Definition assert_PathError (e : option goerr) : bool :=
  match e with Some e => is_PathError e | None => false end.

(** What the function does to the outside, in order. *)
Inductive event :=
  | Stdout (line : string)            (* fmt.Println / Fprintln(os.Stdout, ..) *)
  | Stderr (line : string)            (* fmt.Fprintln / Fprintf(os.Stderr, ..) *)
  | WriteHelp                         (* parser.WriteHelp(os.Stderr) *)
  | Warnf (line : string)             (* log.Warnf *)
  | WroteDefaultConfig (path : string)(* pktconfig.CreateDefaultConfigFile *)
  | EnsuredDir (path : string)        (* checkCreateDir *)
  | RanCreateSimulationWallet         (* createSimulationWallet(&cfg) *)
  | RanCreateWallet                   (* createWallet(&cfg) *)
  | SelectedGlobalConfig (net : string) (* globalcfg.SelectConfig *)
  | TunedNeutrino (maxPeers banDuration banThreshold : Z).

(** How a part of [loadConfig] ends: it falls through to the next statement
    with a value, returns [nil, nil, err] to the caller, or stops the process
    with [os.Exit]. *)
Inductive result (A : Type) :=
  | Continue (a : A)
  | ReturnErr (err : option goerr)
  | OsExit (code : Z).
Arguments Continue {A} a.
Arguments ReturnErr {A} err.
Arguments OsExit {A} code.

Definition M (A : Type) : Type := list event * result A.

Definition emit (e : event) : M unit := ([e], Continue tt).
Definition returnErr {A} (err : option goerr) : M A := ([], ReturnErr err).
Definition osExit {A} (code : Z) : M A := ([], OsExit code).

#[global] Instance M_ret : MRet M := fun A a => ([], Continue a).
#[global] Instance M_bind : MBind M := fun A B f m =>
  match m with
  | (out, Continue a) => let '(out', r) := f a in ((out ++ out')%list, r)
  | (out, ReturnErr err) => (out, ReturnErr err)
  | (out, OsExit code) => (out, OsExit code)
  end.

Definition ret {A} (a : A) : M A := mret a.

(** lifting a Go [(value, err)] pair that is returned to the caller, after
    [report] has been run, when [err] is not nil *)
Definition orReturn {A} (r : A + goerr) (report : goerr -> M unit) : M A :=
  match r with
  | inl a => ret a
  | inr e => report e;; returnErr (Some e)
  end.

(** ** The configuration

    The fields of [struct config], indexed by field name and grouped by Go
    type, so that one setter serves every option of a type. *)

(** [bool] fields *)
Inductive BoolOpt :=
  | ShowVersion | Create | CreateTemp | TestNet3 | PktTestNet | BtcMainNet
  | PktMainNet | SimNet | NoInitialLoad | DisableClientTLS | ClientTLS
  | UseSPV | UseRPC | OneTimeTLSKey | DisableServerTLS.

(** [string] fields *)
Inductive StrOpt :=
  | Wallet | DebugLevel | LogDir | StatsViz | Profile | WalletPass
  | RPCConnect | BtcdUsername | BtcdPassword | Proxy | ProxyUser | ProxyPass
  | Username | Password | OldUsername | OldPassword.

(** [*cfgutil.ExplicitString] fields *)
Inductive ExplOpt := ConfigFile | AppDataDir | CAFile | RPCCert | RPCKey | DataDir.

(** [[]string] fields *)
Inductive ListOpt :=
  AddPeers | ConnectPeers | LegacyRPCListeners | ExperimentalRPCListeners.

(** numeric fields: [int], [int64], [uint32], [time.Duration] *)
Inductive NumOpt :=
  MaxPeers | BanDuration | BanThreshold | LegacyRPCMaxClients | LegacyRPCMaxWebsockets.

#[global] Instance BoolOpt_eq_dec : EqDecision BoolOpt.
Proof. solve_decision. Defined.
#[global] Instance StrOpt_eq_dec : EqDecision StrOpt.
Proof. solve_decision. Defined.
#[global] Instance ExplOpt_eq_dec : EqDecision ExplOpt.
Proof. solve_decision. Defined.
#[global] Instance ListOpt_eq_dec : EqDecision ListOpt.
Proof. solve_decision. Defined.
#[global] Instance NumOpt_eq_dec : EqDecision NumOpt.
Proof. solve_decision. Defined.

(** Modelled from the spec: [cfgutil.ExplicitString], the repository's
    "tracked value" (its file is not among the sources): a value together with
    a flag that records whether a parser assigned it.  [NewExplicitString]
    starts the flag at false; the parser's assignment ([UnmarshalFlag]) sets
    it.  Go code that writes the [Value] field directly leaves the flag. *)
Record ExplicitString := {
  Value : string;
  explicitlySet : bool;
}.

Definition NewExplicitString (s : string) : ExplicitString :=
  {| Value := s; explicitlySet := false |}.
Definition ExplicitlySet (e : ExplicitString) : bool := explicitlySet e.
Definition UnmarshalFlag (s : string) : ExplicitString :=
  {| Value := s; explicitlySet := true |}.
(** [e.Value = s] *)
Definition withValue (e : ExplicitString) (s : string) : ExplicitString :=
  {| Value := s; explicitlySet := explicitlySet e |}.

Record config := {
  bools : BoolOpt -> bool;
  strs : StrOpt -> string;
  expls : ExplOpt -> ExplicitString;
  lists : ListOpt -> list string;
  nums : NumOpt -> Z;
}.

(** field update at one index *)
Definition upd {K V} `{EqDecision K} (f : K -> V) (k : K) (v : V) : K -> V :=
  fun k' => if decide (k' = k) then v else f k'.

Definition setBool (o : BoolOpt) (b : bool) (c : config) : config :=
  {| bools := upd (bools c) o b; strs := strs c; expls := expls c;
     lists := lists c; nums := nums c |}.
Definition setStr (o : StrOpt) (s : string) (c : config) : config :=
  {| bools := bools c; strs := upd (strs c) o s; expls := expls c;
     lists := lists c; nums := nums c |}.
Definition setExpl (o : ExplOpt) (e : ExplicitString) (c : config) : config :=
  {| bools := bools c; strs := strs c; expls := upd (expls c) o e;
     lists := lists c; nums := nums c |}.
Definition setList (o : ListOpt) (l : list string) (c : config) : config :=
  {| bools := bools c; strs := strs c; expls := expls c;
     lists := upd (lists c) o l; nums := nums c |}.
Definition setNum (o : NumOpt) (n : Z) (c : config) : config :=
  {| bools := bools c; strs := strs c; expls := expls c;
     lists := lists c; nums := upd (nums c) o n |}.
(** [cfg.X.Value = s] for an [ExplicitString] field *)
Definition setValue (o : ExplOpt) (s : string) (c : config) : config :=
  setExpl o (withValue (expls c o) s) c.

(** ** The option parser (go-flags)

    go-flags is a library outside the repository.  What [loadConfig] relies
    on is that a parse (of the command line, or of an INI file) assigns the
    options it finds to the fields of the struct the parser was created on,
    and leaves the other fields alone.  A [layer] is the list of assignments
    one parse makes, in order; an assignment to a slice option carries the
    whole slice that parse produces. *)
Inductive setting :=
  | SetBool (o : BoolOpt) (b : bool)
  | SetStr (o : StrOpt) (s : string)
  | SetExpl (o : ExplOpt) (s : string)
  | SetList (o : ListOpt) (l : list string)
  | SetNum (o : NumOpt) (n : Z).

Definition layer := list setting.

Definition assign (c : config) (s : setting) : config :=
  match s with
  | SetBool o b => setBool o b c
  | SetStr o v => setStr o v c
  | SetExpl o v => setExpl o (UnmarshalFlag v) c
  | SetList o l => setList o l c
  | SetNum o n => setNum o n c
  end.

Definition applyLayer (l : layer) (c : config) : config := foldl assign c l.

(** [preCfg := cfg] copies the struct.  The [ExplicitString] fields are
    pointers, so the copy and the original share those six objects: what the
    pre-parse writes into them through [preCfg] is seen through [cfg]. *)
Definition sharingExplicit (cfg preCfg : config) : config :=
  {| bools := bools cfg; strs := strs cfg; expls := expls preCfg;
     lists := lists cfg; nums := nums cfg |}.

(** ** The world outside [config.go]

    [netparams.Params], as far as [loadConfig] reads it. *)
Record netParams := {
  Name : string;            (* activeNet.Params.Name *)
  RPCClientPort : string;
  RPCServerPort : string;
}.

(** Everything [loadConfig] takes from outside its file: the Go runtime and
    standard library, go-flags, the other packages of the repository, the
    process's arguments and the file system.  A Go [(v, err)] result is a sum;
    a lone [err] result is an [option goerr]. *)
Record World := {
  (* os, runtime, path/filepath, os/user, net *)
  os_Args0 : string;
  os_ExpandEnv : string -> string;
  os_PathSeparator : ascii;
  runtime_GOOS : string;
  filepath_Clean : string -> string;
  filepath_Join : string -> string -> string;
  filepath_Base : string -> string;
  filepath_Ext : string -> string;
  user_Current : option string;            (* the HomeDir of user.Current() *)
  user_Lookup : string -> option string;   (* the HomeDir of user.Lookup(name) *)
  net_JoinHostPort : string -> string -> string;
  net_SplitHostPort : string -> (string * string) + goerr;
  net_LookupHost : string -> list string + goerr;
  (* go-flags: the parse of os.Args against the struct's tags (what a failed
     parse prints is [flags_printError] below), and the parse of an INI file;
     [ini_ParseFile true] is the parse after this run has written the default
     file *)
  flags_Parse : goerr + (layer * list string);
  ini_ParseFile : bool -> string -> layer * option goerr;
  (* btcutil, version, wallet, neutrino, keystore, log *)
  btcutil_AppDataDir : string -> string;   (* btcutil.AppDataDir(name, false) *)
  version_Version : string;
  wallet_InsecurePubPassphrase : string;
  wallet_WalletDbPath : string -> string -> string;
  neutrino_MaxPeers : Z;
  neutrino_BanDuration : Z;
  neutrino_BanThreshold : Z;
  keystore_Filename : string;
  log_SetLogLevels : string -> option goerr;
  (* pktconfig, cfgutil *)
  pktconfig_ReadUserPass : string -> list string + goerr;
  pktconfig_CreateDefaultConfigFile : string -> option goerr;
  cfgutil_FileExists : string -> bool + goerr;
  cfgutil_NormalizeAddress : string -> string -> string + goerr;
  cfgutil_NormalizeAddresses : list string -> string -> list string + goerr;
  (* netparams and package main *)
  netparams_TestNet3Params : netParams;
  netparams_SimNetParams : netParams;
  netparams_PktTestNetParams : netParams;
  netparams_PktMainNetParams : netParams;
  netparams_MainNetParams : netParams;
  activeNet0 : netParams;                  (* the global activeNet on entry *)
  networkDir : string -> netParams -> string;
  checkCreateDir : string -> option goerr;
  createSimulationWallet : config -> option goerr;
  createWallet : config -> option goerr;
}.

Definition isEmpty (s : string) : bool := String.eqb s "".

Section LoadConfig.
Context (w : World).

(** *** The constants and package variables (lines 33-50) *)
Definition defaultCAFilename := "pktd.cert".
Definition defaultConfigFilename := "pktwallet.conf".
Definition defaultLogLevel := "info".
Definition defaultLogDirname := "logs".
Definition defaultRPCMaxClients := 10.
Definition defaultRPCMaxWebsockets := 25.

Definition pktdDefaultCAFile := filepath_Join w (btcutil_AppDataDir w "pktd") "rpc.cert".
Definition pktdDefaultConf := filepath_Join w (btcutil_AppDataDir w "pktd") "pktd.conf".
Definition defaultAppDataDir := btcutil_AppDataDir w "pktwallet".
Definition defaultConfigFile := filepath_Join w defaultAppDataDir defaultConfigFilename.
Definition defaultRPCKeyFile := filepath_Join w defaultAppDataDir "rpc.key".
Definition defaultRPCCertFile := filepath_Join w defaultAppDataDir "rpc.cert".
Definition defaultLogDir := filepath_Join w defaultAppDataDir defaultLogDirname.

(** *** [cleanAndExpandPath] (lines 127-174) *)
Definition cleanAndExpandPath (path : string) : string :=
  let path := os_ExpandEnv w path in
  if negb (GoString.HasPrefix path "~") then filepath_Clean w path else
  let path := GoString.from 1 path in
  let pathSeparators :=
    if String.eqb (runtime_GOOS w) "windows"
    then String (os_PathSeparator w) "/"
    else String (os_PathSeparator w) "" in
  let '(userName, path) :=
    match GoString.IndexAny path pathSeparators with
    | Some i => (GoString.upto i path, GoString.from i path)
    | None => ("", path)
    end in
  let u := if isEmpty userName then user_Current w else user_Lookup w userName in
  let homeDir := match u with Some home => home | None => "" end in
  let homeDir := if isEmpty homeDir then "." else homeDir in
  filepath_Join w homeDir path.

(** *** [validLogLevel] (lines 176-193) *)
Definition validLogLevel (logLevel : string) : bool :=
  if String.eqb logLevel "trace" then true
  else if String.eqb logLevel "debug" then true
  else if String.eqb logLevel "info" then true
  else if String.eqb logLevel "warn" then true
  else if String.eqb logLevel "error" then true
  else if String.eqb logLevel "critical" then true
  else false.

(** *** [loadConfig], lines 208-229: the default config *)
Definition defaultConfig : config := {|
  bools := fun _ => false;                 (* UseSPV, UseRPC: false *)
  strs := fun o =>
    match o with
    | DebugLevel => defaultLogLevel
    | Wallet => "wallet.db"
    | LogDir => defaultLogDir
    | WalletPass => wallet_InsecurePubPassphrase w
    | _ => ""
    end;
  expls := fun o =>
    NewExplicitString
      match o with
      | ConfigFile => defaultConfigFile
      | AppDataDir => defaultAppDataDir
      | CAFile => ""
      | RPCKey => defaultRPCKeyFile
      | RPCCert => defaultRPCCertFile
      | DataDir => defaultAppDataDir
      end;
  lists := fun _ => [];                    (* AddPeers, ConnectPeers: empty *)
  nums := fun o =>
    match o with
    | LegacyRPCMaxClients => defaultRPCMaxClients
    | LegacyRPCMaxWebsockets => defaultRPCMaxWebsockets
    | MaxPeers => neutrino_MaxPeers w
    | BanDuration => neutrino_BanDuration w
    | BanThreshold => neutrino_BanThreshold w
    end;
|}.

(** the test of lines 237 and 301: help is written unless the error is a
    [*flags.Error] of type [flags.ErrHelp] *)
Definition writeHelpUnlessHelp (e : goerr) : M unit :=
  if negb (is_ErrHelp e) then emit WriteHelp else ret tt.

(** [fmt.Fprintln(os.Stderr, err)] *)
Definition printErr (e : goerr) : M unit := emit (Stderr (emsg e)).

(** What [Parse] prints itself.  Both parsers are built with
    [flags.Default], which includes [PrintErrors]: go-flags then prints the
    error of a failed parse before returning it, on stdout when it is the
    help message (a [*flags.Error] of type [flags.ErrHelp]) and on stderr
    otherwise.  A successful parse prints nothing. *)
Definition flags_printError (e : goerr) : M unit :=
  if is_ErrHelp e then emit (Stdout (emsg e)) else printErr e.

(** lines 251-265: where the config file is looked for *)
Definition configFilePathOf (preCfg : config) : string :=
  let configFilePath := Value (expls preCfg ConfigFile) in
  if ExplicitlySet (expls preCfg ConfigFile) then
    cleanAndExpandPath configFilePath
  else
    let appDataDir := Value (expls preCfg AppDataDir) in
    let appDataDir :=
      if negb (ExplicitlySet (expls preCfg AppDataDir))
         && ExplicitlySet (expls preCfg DataDir)
      then cleanAndExpandPath (Value (expls preCfg DataDir))
      else appDataDir in
    if negb (String.eqb appDataDir defaultAppDataDir)
    then filepath_Join w appDataDir defaultConfigFilename
    else configFilePath.

(** lines 267-281: the daemon's user and password from pktd.conf.  [errr]
    is the variable of line 235, which the test of line 272 reads. *)
Definition seedFromPktdConf (errr : option goerr) (preCfg cfg : config) : M config :=
  if negb (isEmpty (strs preCfg Username)) && negb (isEmpty (strs preCfg Password))
  then ret cfg
  else
    match pktconfig_ReadUserPass w pktdDefaultConf with
    | inr err =>
        if negb (assert_PathError errr) then
          printErr err;; emit WriteHelp;; returnErr (er_E errr)
        else ret cfg
    | inl userpass =>
        if (2 <=? length userpass)%nat then
          ret (setStr BtcdPassword (nth 1 userpass "")
                  (setStr BtcdUsername (nth 0 userpass "") cfg))
        else ret cfg
    end.

(** lines 283-296: the config file, written from the sample when missing *)
Definition loadConfigFile (configFilePath : string) (cfg : config)
  : M (config * option goerr) :=
  let '(assigned, errr) := ini_ParseFile w false configFilePath in
  let cfg := applyLayer assigned cfg in
  match errr with
  | None => ret (cfg, None)
  | Some e =>
      if negb (is_PathError e) then
        printErr e;; emit WriteHelp;; returnErr (er_E (Some e))
      else
        emit (Stderr (configFilePath ++ " does not exist, creating it from default"));;
        emit (WroteDefaultConfig configFilePath);;
        match pktconfig_CreateDefaultConfigFile w configFilePath with
        | Some configFileError => ret (cfg, Some configFileError)
        | None =>
            let '(assigned, errr) := ini_ParseFile w true configFilePath in
            ret (applyLayer assigned cfg, er_E errr)
        end
  end.

(** lines 208-305: defaults, pre-parse, files, final parse.  The result is
    [cfg], [remainingArgs] and [configFileError] as they stand at line 306. *)
Definition mergeLayers : M (config * list string * option goerr) :=
  let cfg := defaultConfig in
  let preCfg := cfg in
  preCfg ← match flags_Parse w with
           | inl errr =>
               flags_printError errr;;
               writeHelpUnlessHelp errr;; returnErr (er_E (Some errr))
           | inr (cli, _) => ret (applyLayer cli preCfg)
           end;
  let errr : option goerr := None in
  let cfg := sharingExplicit cfg preCfg in
  let appName := filepath_Base w (os_Args0 w) in
  let appName := GoString.TrimSuffix appName (filepath_Ext w appName) in
  (if bools preCfg ShowVersion then
     emit (Stdout (appName ++ " version " ++ version_Version w));; osExit 0
   else ret tt);;
  let configFilePath := configFilePathOf preCfg in
  cfg ← seedFromPktdConf errr preCfg cfg;
  '(cfg, configFileError) ← loadConfigFile configFilePath cfg;
  match flags_Parse w with
  | inl errr =>
      flags_printError errr;;
      writeHelpUnlessHelp errr;; returnErr (er_E (Some errr))
  | inr (cli, remainingArgs) =>
      ret (applyLayer cli cfg, remainingArgs, configFileError)
  end.

(** lines 307-328: the deprecated [datadir], and the paths that follow
    [appdata] *)
Definition resolveDataDir (cfg : config) : M config :=
  cfg ← (if ExplicitlySet (expls cfg DataDir) then
           emit (Stderr ("datadir option has been replaced by "
                         ++ "appdata -- please update your config"));;
           ret (if negb (ExplicitlySet (expls cfg AppDataDir))
                 then setValue AppDataDir (Value (expls cfg DataDir)) cfg
                 else cfg)
         else ret cfg);
  mret
    (if ExplicitlySet (expls cfg AppDataDir) then
       let cfg := setValue AppDataDir
                    (cleanAndExpandPath (Value (expls cfg AppDataDir))) cfg in
       let cfg :=
         if negb (ExplicitlySet (expls cfg RPCKey))
         then setValue RPCKey (filepath_Join w (Value (expls cfg AppDataDir)) "rpc.key") cfg
         else cfg in
       if negb (ExplicitlySet (expls cfg RPCCert))
       then setValue RPCCert (filepath_Join w (Value (expls cfg AppDataDir)) "rpc.cert") cfg
       else cfg
     else cfg).

(** lines 332-352: [activeNet] and [numNets] after the five tests *)
Definition countNets (cfg : config) : netParams * Z :=
  let activeNet := activeNet0 w in
  let numNets := 0 in
  let '(activeNet, numNets) :=
    if bools cfg TestNet3 then (netparams_TestNet3Params w, numNets + 1)
    else (activeNet, numNets) in
  let '(activeNet, numNets) :=
    if bools cfg SimNet then (netparams_SimNetParams w, numNets + 1)
    else (activeNet, numNets) in
  let '(activeNet, numNets) :=
    if bools cfg PktTestNet then (netparams_PktTestNetParams w, numNets + 1)
    else (activeNet, numNets) in
  let '(activeNet, numNets) :=
    if bools cfg PktMainNet then (netparams_PktMainNetParams w, numNets + 1)
    else (activeNet, numNets) in
  if bools cfg BtcMainNet then (netparams_MainNetParams w, numNets + 1)
  else (activeNet, numNets).

Definition multipleNetsError : goerr :=
  Errorf ("loadConfig" ++ ": The testnet and simnet params can't be used "
          ++ "together -- choose one").

(** lines 330-367: the active network.  The proof-of-work limit and the
    global configuration are set on the chosen network's own record and are
    not read again here. *)
Definition selectNetwork (cfg : config) : M netParams :=
  let '(activeNet, numNets) := countNets cfg in
  if 1 <? numNets then
    let err := multipleNetsError in
    printErr err;; emit WriteHelp;; returnErr (Some err)
  else
    emit (SelectedGlobalConfig (Name activeNet));;
    ret activeNet.

(** lines 369-379: the log directory and the log levels *)
Definition setupLogging (cfg : config) (activeNet : netParams) : M config :=
  let cfg := setStr LogDir (cleanAndExpandPath (strs cfg LogDir)) cfg in
  let cfg := setStr LogDir (filepath_Join w (strs cfg LogDir) (Name activeNet)) cfg in
  match log_SetLogLevels w (strs cfg DebugLevel) with
  | Some err => printErr err;; emit WriteHelp;; returnErr (Some err)
  | None => ret cfg
  end.

Definition createBothError : goerr :=
  Errorf ("The flags --create and --createtemp can not "
          ++ "be specified together. Use --help for more information.").
Definition walletExistsError (dbPath : string) : goerr :=
  Errorf ("The wallet database file `" ++ dbPath ++ "` " ++ "already exists.").
Definition walletMissingError : goerr :=
  Errorf ("The wallet does not exist.  Run with the "
          ++ "--create option to initialize and create it.").
Definition walletLegacyError : goerr :=
  Errorf ("The wallet is in legacy format.  Run with the "
          ++ "--create option to import it.").

(** lines 420-471: create, load or reject the wallet *)
Definition bootstrapDecision (cfg : config) (netDir dbPath : string)
    (dbFileExists : bool) : M unit :=
  if bools cfg CreateTemp then
    let tempWalletExists := false in
    tempWalletExists ←
      (if dbFileExists then
         emit (Stdout ("The wallet already exists. Loading this "
                       ++ "wallet instead."));;
         ret true
       else ret tempWalletExists);
    if negb tempWalletExists then
      emit RanCreateSimulationWallet;;
      match createSimulationWallet w cfg with
      | Some err =>
          emit (Stderr ("Unable to create wallet: " ++ emsg err));;
          returnErr (Some err)
      | None => ret tt
      end
    else ret tt
  else if bools cfg Create then
    if dbFileExists then
      let err := walletExistsError dbPath in
      printErr err;; returnErr (Some err)
    else
      emit RanCreateWallet;;
      match createWallet w cfg with
      | Some err =>
          emit (Stderr ("Unable to create wallet: " ++ emsg err));;
          returnErr (Some err)
      | None => osExit 0
      end
  else if negb dbFileExists && negb (bools cfg NoInitialLoad) then
    let keystorePath := filepath_Join w netDir (keystore_Filename w) in
    keystoreExists ← orReturn (cfgutil_FileExists w keystorePath) printErr;
    let err := if negb keystoreExists then walletMissingError
               else walletLegacyError in
    printErr err;; returnErr (Some err)
  else ret tt.

(** lines 381-471: the wallet at startup *)
Definition bootstrapWallet (cfg : config) (activeNet : netParams) : M unit :=
  (if negb (ExplicitlySet (expls cfg AppDataDir) || ExplicitlySet (expls cfg DataDir))
      && bools cfg CreateTemp
   then
     emit (Stderr ("Tried to create a temporary simulation "
                   ++ "wallet, but failed to specify data directory!"));;
     osExit 0
   else ret tt);;
  (if negb (bools cfg SimNet) && bools cfg CreateTemp then
     emit (Stderr ("Tried to create a temporary simulation "
                   ++ "wallet for network other than simnet!"));;
     osExit 0
   else ret tt);;
  let netDir := networkDir w (Value (expls cfg AppDataDir)) activeNet in
  let dbPath := wallet_WalletDbPath w netDir (strs cfg Wallet) in
  (if bools cfg CreateTemp && bools cfg Create then
     let err := createBothError in
     printErr err;; returnErr (Some err)
   else ret tt);;
  dbFileExists ← orReturn (cfgutil_FileExists w dbPath) printErr;
  emit (EnsuredDir netDir);;
  match checkCreateDir w netDir with
  | Some err => printErr err;; returnErr (Some err)
  | None => ret tt
  end;;
  bootstrapDecision cfg netDir dbPath dbFileExists.

(** line 473 *)
Definition localhostListeners : gset string :=
  {[ "localhost"; "127.0.0.1"; "::1" ]}.

(** lines 501-527: the CA file of a TLS connection to pktd *)
Definition chooseCAFile (cfg : config) (RPCHost : string) : M config :=
  if bools cfg ClientTLS then
    if negb (ExplicitlySet (expls cfg CAFile)) then
      let cfg := setValue CAFile
                   (filepath_Join w (Value (expls cfg AppDataDir)) defaultCAFilename) cfg in
      certExists ← orReturn (cfgutil_FileExists w (Value (expls cfg CAFile))) printErr;
      if negb certExists then
        if bool_decide (RPCHost ∈ localhostListeners) then
          pktdCertExists ← orReturn (cfgutil_FileExists w pktdDefaultCAFile) printErr;
          ret (if (pktdCertExists : bool) then setValue CAFile pktdDefaultCAFile cfg else cfg)
        else ret cfg
      else ret cfg
    else ret cfg
  else ret cfg.

(** lines 479-528: neutrino, or the RPC connection to pktd *)
Definition rpcClient (cfg : config) (activeNet : netParams) : M config :=
  if negb (bools cfg UseRPC) then
    emit (TunedNeutrino (nums cfg MaxPeers) (nums cfg BanDuration)
                        (nums cfg BanThreshold));;
    ret cfg
  else
    let cfg :=
      if isEmpty (strs cfg RPCConnect)
      then setStr RPCConnect (net_JoinHostPort w "localhost" (RPCClientPort activeNet)) cfg
      else cfg in
    addr ← orReturn
             (cfgutil_NormalizeAddress w (strs cfg RPCConnect) (RPCClientPort activeNet))
             (fun err => emit (Stderr ("Invalid rpcconnect network address: " ++ emsg err)));
    let cfg := setStr RPCConnect addr cfg in
    '(RPCHost, _) ← match net_SplitHostPort w (strs cfg RPCConnect) with
                    | inr errr => returnErr (er_E (Some errr))
                    | inl hp => ret hp
                    end;
    chooseCAFile cfg RPCHost.

Definition sharedListenerError (addr : string) : goerr :=
  Errorf ("Address `" ++ addr ++ "` may not be "
          ++ "used as a listener address for both "
          ++ "RPC servers").

(** lines 566-569: the set of the legacy listeners *)
Definition seenAddressesOf (legacy : list string) : gset string :=
  foldl (fun seenAddresses addr => seenAddresses ∪ {[ addr ]}) ∅ legacy.

(** lines 570-579: the loop over the experimental listeners *)
Fixpoint rejectSeen (seenAddresses : gset string) (addrs : list string) : M unit :=
  match addrs with
  | [] => ret tt
  | addr :: rest =>
      if bool_decide (addr ∈ seenAddresses) then
        let err := sharedListenerError addr in
        printErr err;; returnErr (Some err)
      else rejectSeen seenAddresses rest
  end.

(** lines 564-580: both RPC servers may not listen on the same address *)
Definition checkSharedListeners (cfg : config) : M unit :=
  if (0 <? length (lists cfg LegacyRPCListeners))%nat
     && (0 <? length (lists cfg ExperimentalRPCListeners))%nat
  then rejectSeen (seenAddressesOf (lists cfg LegacyRPCListeners))
                  (lists cfg ExperimentalRPCListeners)
  else ret tt.

(** lines 530-562: default and normalized listener addresses *)
Definition normalizeListeners (cfg : config) (activeNet : netParams) : M config :=
  cfg ← (if (length (lists cfg ExperimentalRPCListeners) =? 0)%nat
            && (length (lists cfg LegacyRPCListeners) =? 0)%nat
         then
           match net_LookupHost w "localhost" with
           | inr errr => returnErr (er_E (Some errr))
           | inl addrs =>
               ret (setList LegacyRPCListeners
                       (map (fun addr => net_JoinHostPort w addr (RPCServerPort activeNet))
                            addrs) cfg)
           end
         else ret cfg);
  legacy ← orReturn
             (cfgutil_NormalizeAddresses w (lists cfg LegacyRPCListeners)
                (RPCServerPort activeNet))
             (fun err => emit (Stderr ("Invalid network address in legacy RPC listeners: "
                                       ++ emsg err)));
  let cfg := setList LegacyRPCListeners legacy cfg in
  experimental ← orReturn
             (cfgutil_NormalizeAddresses w (lists cfg ExperimentalRPCListeners)
                (RPCServerPort activeNet))
             (fun err => emit (Stderr ("Invalid network address in RPC listeners: "
                                       ++ emsg err)));
  ret (setList ExperimentalRPCListeners experimental cfg).

(** lines 587-603: user names and passwords *)
Definition resolveCredentials (cfg : config) : config :=
  let cfg := if isEmpty (strs cfg Username)
             then setStr Username (strs cfg OldUsername) cfg else cfg in
  let cfg := if isEmpty (strs cfg Password)
             then setStr Password (strs cfg OldPassword) cfg else cfg in
  let cfg := if isEmpty (strs cfg BtcdUsername)
             then setStr BtcdUsername (strs cfg Username) cfg else cfg in
  if isEmpty (strs cfg BtcdPassword)
  then setStr BtcdPassword (strs cfg Password) cfg else cfg.

(** lines 582-585: environment variables and a leading ~ in file paths *)
Definition expandPaths (cfg : config) : config :=
  let cfg := setValue CAFile (cleanAndExpandPath (Value (expls cfg CAFile))) cfg in
  let cfg := setValue RPCCert (cleanAndExpandPath (Value (expls cfg RPCCert))) cfg in
  setValue RPCKey (cleanAndExpandPath (Value (expls cfg RPCKey))) cfg.

(** lines 473-612, from the configuration and network the wallet bootstrap
    left *)
Definition finishConfig (cfg : config) (activeNet : netParams)
    (remainingArgs : list string) (configFileError : option goerr)
  : M (config * list string) :=
  cfg ← rpcClient cfg activeNet;
  cfg ← normalizeListeners cfg activeNet;
  checkSharedListeners cfg;;
  let cfg := expandPaths cfg in
  let cfg := resolveCredentials cfg in
  match configFileError with
  | Some e => emit (Warnf (emsg e))
  | None => ret tt
  end;;
  ret (cfg, remainingArgs).

(** lines 306-379: from the merged options to the point where the wallet is
    looked at *)
Definition prepare (cfg : config) : M (config * netParams) :=
  cfg ← resolveDataDir cfg;
  activeNet ← selectNetwork cfg;
  cfg ← setupLogging cfg activeNet;
  ret (cfg, activeNet).

(** *** [loadConfig] (lines 207-613).  [Continue (cfg, remainingArgs)] is
    the return of line 612. *)
Definition loadConfig : M (config * list string) :=
  '(cfg, remainingArgs, configFileError) ← mergeLayers;
  '(cfg, activeNet) ← prepare cfg;
  bootstrapWallet cfg activeNet;;
  finishConfig cfg activeNet remainingArgs configFileError.

End LoadConfig.

(** ** A Unix machine

    The standard-library functions of [World] as Go defines them on Unix, and
    the helpers of the repository's other packages, so that [loadConfig] can
    be run on concrete command lines, environments and file systems. *)
Module Unix.

Definition isShellSpecialVar (c : ascii) : bool := GoString.mem c "*#$@!?-0123456789".

Definition isAlphaNum (c : ascii) : bool :=
  let n := nat_of_ascii c in
  (Ascii.eqb c "_" || ((48 <=? n) && (n <=? 57)) || ((97 <=? n) && (n <=? 122))
   || ((65 <=? n) && (n <=? 90)))%nat.

Fixpoint spanAlphaNum (s : string) : nat :=
  match s with
  | String c rest => if isAlphaNum c then S (spanAlphaNum rest) else 0
  | EmptyString => 0
  end%nat.

(** the index of the first [c] in [s] *)
Fixpoint IndexByte (s : string) (c : ascii) : option nat :=
  match s with
  | EmptyString => None
  | String d rest => if Ascii.eqb c d then Some 0%nat else S <$> IndexByte rest c
  end.

Fixpoint LastIndexByte (s : string) (c : ascii) : option nat :=
  match s with
  | EmptyString => None
  | String d rest =>
      match LastIndexByte rest c with
      | Some i => Some (S i)
      | None => if Ascii.eqb c d then Some 0%nat else None
      end
  end.

(** [os.getShellName], on the text after a dollar sign: the name and the
    number of bytes it takes *)
Definition getShellName (s : string) : string * nat :=
  match s with
  | String "{" rest =>
      (* the scan to the closing brace; it covers the special one-byte names *)
      match IndexByte rest "}" with
      | Some 0%nat => ("", 2%nat)
      | Some i => (GoString.upto i rest, (i + 2)%nat)
      | None => ("", 1%nat)
      end
  | String c _ =>
      if isShellSpecialVar c then (String c "", 1%nat)
      else let i := spanAlphaNum s in (GoString.upto i s, i)
  | EmptyString => ("", 0%nat)
  end.

(** [os.Expand]; [skip] counts the bytes of a name still to pass over *)
Fixpoint Expand (mapping : string -> string) (skip : nat) (s : string) : string :=
  match s with
  | EmptyString => ""
  | String c rest =>
      match skip with
      | S k => Expand mapping k rest
      | O =>
          if Ascii.eqb c "$" && negb (isEmpty rest) then
            let '(name, width) := getShellName rest in
            (if isEmpty name then (if (0 <? width)%nat then "" else "$")
             else mapping name) ++ Expand mapping width rest
          else String c (Expand mapping 0 rest)
      end
  end.

Definition Getenv (environ : list (string * string)) (name : string) : string :=
  match find (fun kv => String.eqb (fst kv) name) environ with
  | Some kv => snd kv
  | None => ""
  end.

Definition ExpandEnv (environ : list (string * string)) (s : string) : string :=
  Expand (Getenv environ) 0 s.

(** the elements of a path between slashes *)
Fixpoint elements (s : string) (cur : string) : list string :=
  match s with
  | EmptyString => [cur]
  | String c rest =>
      if Ascii.eqb c "/" then cur :: elements rest ""
      else elements rest (cur ++ String c "")
  end.

(** [filepath.Clean]: the elements kept, most recent first *)
Definition cleanStep (rooted : bool) (kept : list string) (e : string) : list string :=
  if isEmpty e || String.eqb e "." then kept
  else if String.eqb e ".." then
    match kept with
    | top :: below => if String.eqb top ".." then e :: kept else below
    | [] => if rooted then kept else [e]
    end
  else e :: kept.

Fixpoint joinWith (sep : string) (l : list string) : string :=
  match l with
  | [] => ""
  | [x] => x
  | x :: rest => x ++ sep ++ joinWith sep rest
  end.

Definition Clean (path : string) : string :=
  let rooted := GoString.HasPrefix path "/" in
  let kept := foldl (cleanStep rooted) [] (elements path "") in
  let out := (if rooted then "/" else "") ++ joinWith "/" (rev kept) in
  if isEmpty out then "." else out.

(** [filepath.Join] of two elements *)
Definition Join (a b : string) : string :=
  if negb (isEmpty a) then Clean (a ++ "/" ++ b)
  else if negb (isEmpty b) then Clean b
  else "".

(** [filepath.Base] and [filepath.Ext] *)
Definition Base (path : string) : string :=
  if isEmpty path then "." else
  match filter (fun e => negb (isEmpty e)) (elements path "") with
  | [] => "/"
  | l => List.last l ""
  end.

Definition Ext (path : string) : string :=
  let name := List.last (elements path "") "" in
  match LastIndexByte name "." with
  | Some i => GoString.from i name
  | None => ""
  end.

(** [net.JoinHostPort] *)
Definition JoinHostPort (host port : string) : string :=
  match IndexByte host ":" with
  | Some _ => "[" ++ host ++ "]:" ++ port
  | None => host ++ ":" ++ port
  end.

Definition AddrError (addr why : string) : goerr :=
  GoErr ("address " ++ addr ++ ": " ++ why) false false.

Definition has (s : string) (c : ascii) : bool := bool_decide (is_Some (IndexByte s c)).

(** [net.SplitHostPort] *)
Definition SplitHostPort (hostport : string) : (string * string) + goerr :=
  let missingPort := "missing port in address" in
  let tooManyColons := "too many colons in address" in
  match LastIndexByte hostport ":" with
  | None => inr (AddrError hostport missingPort)
  | Some i =>
      let port := GoString.from (S i) hostport in
      if GoString.HasPrefix hostport "[" then
        match IndexByte hostport "]" with
        | None => inr (AddrError hostport "missing ']' in address")
        | Some close =>
            if (S close =? String.length hostport)%nat then
              inr (AddrError hostport missingPort)
            else if (S close =? i)%nat then
              if has (GoString.from 1 hostport) "[" then
                inr (AddrError hostport "unexpected '[' in address")
              else if has (GoString.from (S close) hostport) "]" then
                inr (AddrError hostport "unexpected ']' in address")
              else inl (String.substring 1 (close - 1) hostport, port)
            else if String.eqb (String.substring (S close) 1 hostport) ":" then
              inr (AddrError hostport tooManyColons)
            else inr (AddrError hostport missingPort)
        end
      else
        let host := GoString.upto i hostport in
        if has host ":" then inr (AddrError hostport tooManyColons)
        else if has hostport "[" then
          inr (AddrError hostport "unexpected '[' in address")
        else if has hostport "]" then
          inr (AddrError hostport "unexpected ']' in address")
        else inl (host, port)
  end.

(** [cfgutil.NormalizeAddress]: the address with the default port added
    when it has none *)
Definition NormalizeAddress (addr defaultPort : string) : string + goerr :=
  match SplitHostPort addr with
  | inl (host, port) => inl (JoinHostPort host port)
  | inr origErr =>
      let addr := JoinHostPort addr defaultPort in
      match SplitHostPort addr with
      | inl _ => inl addr
      | inr _ => inr origErr
      end
  end.

(** [cfgutil.NormalizeAddresses]: every address normalized, duplicates
    removed, the first occurrence kept *)
Fixpoint normalizeFrom (seen : gset string) (addrs : list string) (defaultPort : string)
  : list string + goerr :=
  match addrs with
  | [] => inl []
  | addr :: rest =>
      match NormalizeAddress addr defaultPort with
      | inr e => inr e
      | inl a =>
          if bool_decide (a ∈ seen) then normalizeFrom seen rest defaultPort
          else match normalizeFrom (seen ∪ {[ a ]}) rest defaultPort with
               | inl l => inl (a :: l)
               | inr e => inr e
               end
      end
  end.

Definition NormalizeAddresses := normalizeFrom ∅.

(** [wallet.WalletDbPath] *)
Definition WalletDbPath (netDir walletName : string) : string :=
  if GoString.HasPrefix walletName "/" then walletName
  else if GoString.HasSuffix walletName ".db" then Join netDir walletName
  else Join netDir ("wallet_" ++ walletName ++ ".db").

Definition PathError (op path : string) : goerr :=
  GoErr (op ++ " " ++ path ++ ": no such file or directory") true false.

(** What varies from one run to the next. *)
Record Setup := {
  argv : goerr + (layer * list string);   (* the command line, parsed *)
  environ : list (string * string);       (* the environment *)
  iniFiles : list (string * layer);       (* the INI files on disk, parsed *)
  pktdConf : list string + goerr;         (* the reading of pktd.conf *)
  existing : list string;                 (* other files that exist *)
  homeDir : string;
  localhost : list string;                (* what localhost resolves to *)
}.

Definition mkParams (name client server : string) : netParams :=
  {| Name := name; RPCClientPort := client; RPCServerPort := server |}.

Definition world (s : Setup) : World := {|
  os_Args0 := "/usr/local/bin/pktwallet";
  os_ExpandEnv := ExpandEnv (environ s);
  os_PathSeparator := "/";
  runtime_GOOS := "linux";
  filepath_Clean := Clean;
  filepath_Join := Join;
  filepath_Base := Base;
  filepath_Ext := Ext;
  user_Current := Some (homeDir s);
  user_Lookup := fun _ => None;
  net_JoinHostPort := JoinHostPort;
  net_SplitHostPort := SplitHostPort;
  net_LookupHost := fun _ => inl (localhost s);
  flags_Parse := argv s;
  ini_ParseFile := fun written path =>
    match find (fun f => String.eqb (fst f) path) (iniFiles s) with
    | Some f => (snd f, None)
    | None => if written then ([], None) else ([], Some (PathError "open" path))
    end;
  btcutil_AppDataDir := fun name => Join (homeDir s) ("." ++ name);
  version_Version := "1.0.0";
  wallet_InsecurePubPassphrase := "public";
  wallet_WalletDbPath := WalletDbPath;
  neutrino_MaxPeers := 125;
  neutrino_BanDuration := 86400;
  neutrino_BanThreshold := 100;
  keystore_Filename := "wallet.bin";
  log_SetLogLevels := fun level =>
    if validLogLevel level then None
    else Some (Errorf ("The specified debug level [" ++ level ++ "] is invalid"));
  pktconfig_ReadUserPass := fun _ => pktdConf s;
  pktconfig_CreateDefaultConfigFile := fun _ => None;
  cfgutil_FileExists := fun path =>
    inl (bool_decide (path ∈ existing s));
  cfgutil_NormalizeAddress := NormalizeAddress;
  cfgutil_NormalizeAddresses := NormalizeAddresses;
  netparams_TestNet3Params := mkParams "testnet3" "18334" "18332";
  netparams_SimNetParams := mkParams "simnet" "18556" "18554";
  netparams_PktTestNetParams := mkParams "pkttest" "64513" "64514";
  netparams_PktMainNetParams := mkParams "pkt" "64765" "64763";
  netparams_MainNetParams := mkParams "mainnet" "8334" "8332";
  activeNet0 := mkParams "pkt" "64765" "64763";
  networkDir := fun dataDir net => Join dataDir (Name net);
  checkCreateDir := fun _ => None;
  createSimulationWallet := fun _ => None;
  createWallet := fun _ => None;
|}.

(** A machine with a wallet config file without options, a pktd.conf
    without entries, and the given files. *)
Definition machine (cli : layer) (files : list string) : Setup := {|
  argv := inr (cli, []);
  environ := [];
  iniFiles := [("/home/user/.pktwallet/pktwallet.conf", [])];
  pktdConf := inl [];
  existing := files;
  homeDir := "/home/user";
  localhost := ["127.0.0.1"; "::1"];
|}.

(** The same with a wallet of the default network in the default place. *)
Definition plain (cli : layer) : Setup :=
  machine cli ["/home/user/.pktwallet/pkt/wallet.db"].

End Unix.

(** ** Reading options back *)

(** An option of the struct, whatever its type, and a value of one. *)
Inductive optName :=
  | OBool (o : BoolOpt) | OStr (o : StrOpt) | OExpl (o : ExplOpt)
  | OList (o : ListOpt) | ONum (o : NumOpt).

Inductive value :=
  | VBool (b : bool) | VStr (s : string) | VList (l : list string) | VNum (n : Z).

(** the value of an option in a configuration ([Value] for a tracked one) *)
Definition readOpt (o : optName) (c : config) : value :=
  match o with
  | OBool o => VBool (bools c o)
  | OStr o => VStr (strs c o)
  | OExpl o => VStr (Value (expls c o))
  | OList o => VList (lists c o)
  | ONum o => VNum (nums c o)
  end.

(** what one assignment gives to an option, if it is an assignment to it *)
Definition given (s : setting) (o : optName) : option value :=
  match s, o with
  | SetBool k b, OBool k' => if decide (k' = k) then Some (VBool b) else None
  | SetStr k v, OStr k' => if decide (k' = k) then Some (VStr v) else None
  | SetExpl k v, OExpl k' => if decide (k' = k) then Some (VStr v) else None
  | SetList k l, OList k' => if decide (k' = k) then Some (VList l) else None
  | SetNum k n, ONum k' => if decide (k' = k) then Some (VNum n) else None
  | _, _ => None
  end.

(** what a layer supplies for an option: its last assignment to it *)
Fixpoint supplied (l : layer) (o : optName) : option value :=
  match l with
  | [] => None
  | s :: rest =>
      match supplied rest o with
      | Some v => Some v
      | None => given s o
      end
  end.

(** whether a layer assigns an option at all *)
Definition supplies (l : layer) (o : optName) : bool :=
  match supplied l o with Some _ => true | None => false end.


(** the number of network flags that are set *)
Definition netFlags : list BoolOpt := [TestNet3; SimNet; PktTestNet; PktMainNet; BtcMainNet].
Definition numNetFlags (c : config) : nat := length (List.filter (bools c) netFlags).

(** ** The blocks of [loadConfig] up to a line *)

(** lines 207-380: the configuration and network with which the wallet
    bootstrap starts *)
Definition reachBootstrap (w : World)
  : M (config * netParams * list string * option goerr) :=
  '(cfg, remainingArgs, configFileError) ← mergeLayers w;
  '(cfg, activeNet) ← prepare w cfg;
  ret (cfg, activeNet, remainingArgs, configFileError).

(** lines 207-563: the configuration with which the check of shared listener
    addresses starts *)
Definition reachListenerCheck (w : World) : M (config * list string * option goerr) :=
  '(cfg, activeNet, remainingArgs, configFileError) ← reachBootstrap w;
  bootstrapWallet w cfg activeNet;;
  cfg ← rpcClient w cfg activeNet;
  cfg ← normalizeListeners w cfg activeNet;
  ret (cfg, remainingArgs, configFileError).

(** lines 381-612 *)
Definition fromBootstrap (w : World) (cfg : config) (activeNet : netParams)
    (remainingArgs : list string) (configFileError : option goerr)
  : M (config * list string) :=
  bootstrapWallet w cfg activeNet;;
  finishConfig w cfg activeNet remainingArgs configFileError.

(** lines 564-612 *)
Definition afterListeners (cfg : config) (remainingArgs : list string)
    (configFileError : option goerr) (w : World) : M (config * list string) :=
  checkSharedListeners cfg;;
  let cfg := expandPaths w cfg in
  let cfg := resolveCredentials cfg in
  match configFileError with
  | Some e => emit (Warnf (emsg e))
  | None => ret tt
  end;;
  ret (cfg, remainingArgs).

(** the file layer in effect: what the INI parses of lines 283-296 assign *)
Definition fileLayer (w : World) (configFilePath : string) : layer :=
  let '(assigned, errr) := ini_ParseFile w false configFilePath in
  match errr with
  | None => assigned
  | Some e =>
      if is_PathError e then
        match pktconfig_CreateDefaultConfigFile w configFilePath with
        | Some _ => assigned
        | None => (assigned ++ fst (ini_ParseFile w true configFilePath))%list
        end
      else assigned
  end.

(** what pktd.conf gives for an option (lines 267-281) *)
Definition siblingGives (w : World) (cli : layer) (o : optName) : option value :=
  let preCfg := applyLayer cli (defaultConfig w) in
  if negb (isEmpty (strs preCfg Username)) && negb (isEmpty (strs preCfg Password))
  then None
  else
    match pktconfig_ReadUserPass w (pktdDefaultConf w) with
    | inl userpass =>
        if (2 <=? length userpass)%nat then
          match o with
          | OStr BtcdUsername => Some (VStr (nth 0 userpass ""))
          | OStr BtcdPassword => Some (VStr (nth 1 userpass ""))
          | _ => None
          end
        else None
    | inr _ => None
    end.

(** the three-way precedence, with pktd.conf below the config file *)
Definition layered (w : World) (cli file : layer) (o : optName) : value :=
  match supplied cli o with
  | Some v => v
  | None =>
      match supplied file o with
      | Some v => v
      | None =>
          match siblingGives w cli o with
          | Some v => v
          | None => readOpt o (defaultConfig w)
          end
      end
  end.


(** the configuration the files are parsed into (line 282): the defaults,
    the tracked values the pre-parse wrote, and the pair from pktd.conf *)
Definition seededConfig (w : World) (cli : layer) : config :=
  let preCfg := applyLayer cli (defaultConfig w) in
  let cfg := sharingExplicit (defaultConfig w) preCfg in
  if negb (isEmpty (strs preCfg Username)) && negb (isEmpty (strs preCfg Password))
  then cfg
  else
    match pktconfig_ReadUserPass w (pktdDefaultConf w) with
    | inl userpass =>
        if (2 <=? length userpass)%nat then
          setStr BtcdPassword (nth 1 userpass "")
            (setStr BtcdUsername (nth 0 userpass "") cfg)
        else cfg
    | inr _ => cfg
    end.

(** the configuration at line 306 *)
Definition mergedConfig (w : World) (cli : layer) : config :=
  applyLayer cli
    (applyLayer (fileLayer w (configFilePathOf w (applyLayer cli (defaultConfig w))))
       (seededConfig w cli)).

(** [agreeExcept S E L c c']: [c'] is [c] but for the strings [S], the tracked
    values [E] (whose flags it keeps) and the lists [L]. *)
Definition agreeExcept (S : list StrOpt) (E : list ExplOpt) (L : list ListOpt)
    (c c' : config) : Prop :=
  bools c' = bools c
  /\ nums c' = nums c
  /\ (forall k, k ∉ S -> strs c' k = strs c k)
  /\ (forall k, k ∉ E -> expls c' k = expls c k)
  /\ (forall k, explicitlySet (expls c' k) = explicitlySet (expls c k))
  /\ (forall k, k ∉ L -> lists c' k = lists c k).

(** the configuration [resolveDataDir] continues with *)
Definition resolvedDataDir (w : World) (cfg : config) : config :=
  match snd (resolveDataDir w cfg) with
  | Continue c => c
  | _ => cfg
  end.

(** the messages of lines 384, 392 and 424 *)
Definition noDataDirMessage : string :=
  "Tried to create a temporary simulation "
  +:+ "wallet, but failed to specify data directory!".
Definition notSimNetMessage : string :=
  "Tried to create a temporary simulation "
  +:+ "wallet for network other than simnet!".
Definition walletExistsMessage : string :=
  "The wallet already exists. Loading this " +:+ "wallet instead.".


(** A machine without pktd.conf: reading it fails with a path error. *)
Definition withoutPktdConf : Unix.Setup := {|
  Unix.argv := inr ([], []);
  Unix.environ := [];
  Unix.iniFiles := [("/home/user/.pktwallet/pktwallet.conf", [])];
  Unix.pktdConf := inr (Unix.PathError "open" "/home/user/.pktd/pktd.conf");
  Unix.existing := ["/home/user/.pktwallet/pkt/wallet.db"];
  Unix.homeDir := "/home/user";
  Unix.localhost := ["127.0.0.1"; "::1"];
|}.

(** A machine whose environment has [PKT=/srv/$NET] and [NET=main], started
    with [--noinitialload --appdata=${PKT}]. *)
Definition nestedEnvSetup : Unix.Setup := {|
  Unix.argv := inr ([SetBool NoInitialLoad true; SetExpl AppDataDir "${PKT}"], []);
  Unix.environ := [("PKT", "/srv/$NET"); ("NET", "main")];
  Unix.iniFiles := [];
  Unix.pktdConf := inl [];
  Unix.existing := [];
  Unix.homeDir := "/home/user";
  Unix.localhost := ["127.0.0.1"; "::1"];
|}.

(** the configuration a run ends with, and the one it has at line 306 (the
    defaults when the run does not get there) *)
Definition resolved (w : World) : config :=
  match snd (loadConfig w) with
  | Continue (cfg, _) => cfg
  | _ => defaultConfig w
  end.

Definition mergedAt306 (w : World) : config :=
  match snd (mergeLayers w) with
  | Continue (cfg, _, _) => cfg
  | _ => defaultConfig w
  end.

(** the machines of the examples below *)
Definition dataDirSetup : Unix.Setup :=
  Unix.plain [SetExpl AppDataDir "/data/pkt"; SetExpl RPCCert "~/tls/my.cert";
              SetBool NoInitialLoad true].

Definition aliasSetup : Unix.Setup :=
  Unix.plain [SetStr OldUsername "bob"; SetStr Password "hunter2";
              SetStr OldPassword "old"; SetStr BtcdPassword "daemon"].

Definition connectSetup : Unix.Setup := Unix.plain [SetStr RPCConnect "example.org"].

(** ** The credentials in terms of what is supplied *)

(** the text a layer gives to a string option, if it assigns it *)
Definition strGiven (l : layer) (o : StrOpt) : option string :=
  match supplied l (OStr o) with
  | Some (VStr s) => Some s
  | _ => None
  end.

(** the text explicitly supplied for a string option: by the command line,
    else by the config file *)
Definition suppliedText (cli file : layer) (o : StrOpt) : option string :=
  match strGiven cli o with
  | Some s => Some s
  | None => strGiven file o
  end.

(** the text pktd.conf gives to a string option (lines 267-281) *)
Definition pktdConfText (w : World) (cli : layer) (o : StrOpt) : option string :=
  match siblingGives w cli (OStr o) with
  | Some (VStr s) => Some s
  | _ => None
  end.

(** the second half of the claim on credentials, as the spec words it: the
    daemon's user name (password) is the explicitly supplied one when that
    is not empty, and the resolved client user name (password) otherwise *)
Definition daemonFollowsSupplied (w : World) : Prop :=
  forall cfg rest cli,
    snd (loadConfig w) = Continue (cfg, rest) ->
    flags_Parse w = inr (cli, rest) ->
    let file := fileLayer w (configFilePathOf w (applyLayer cli (defaultConfig w))) in
    let daemonUser := default "" (suppliedText cli file BtcdUsername) in
    let daemonPass := default "" (suppliedText cli file BtcdPassword) in
    strs cfg BtcdUsername
    = (if isEmpty daemonUser then strs cfg Username else daemonUser)
    /\ strs cfg BtcdPassword
       = (if isEmpty daemonPass then strs cfg Password else daemonPass).

(** A machine started with [--rpcuser=bob], whose pktd.conf holds the user
    [alice] and the password [secret]. *)
Definition pktdConfSetup : Unix.Setup := {|
  Unix.argv := inr ([SetStr Username "bob"], []);
  Unix.environ := [];
  Unix.iniFiles := [("/home/user/.pktwallet/pktwallet.conf", [])];
  Unix.pktdConf := inl ["alice"; "secret"];
  Unix.existing := ["/home/user/.pktwallet/pkt/wallet.db"];
  Unix.homeDir := "/home/user";
  Unix.localhost := ["127.0.0.1"; "::1"];
|}.

(** ** Definitions for the further properties *)

(** the network a single flag selects (lines 333-352) *)
Definition flaggedNet (w : World) (c : config) : netParams :=
  if bools c TestNet3 then netparams_TestNet3Params w
  else if bools c SimNet then netparams_SimNetParams w
  else if bools c PktTestNet then netparams_PktTestNetParams w
  else if bools c PktMainNet then netparams_PktMainNetParams w
  else if bools c BtcMainNet then netparams_MainNetParams w
  else activeNet0 w.

Definition logDirSetup : Unix.Setup := Unix.plain [SetStr LogDir "~/log/../pktlogs"].

Definition datadirSetup : Unix.Setup :=
  Unix.plain [SetExpl DataDir "~/old"; SetBool NoInitialLoad true].

Definition datadirDeprecatedMessage : string :=
  "datadir option has been replaced by " +:+ "appdata -- please update your config".

(** Calls that can be made to fail: the file system, the resolver and the
    readers of the two configuration files. *)
Record Faults := {
  faulty_ParseFile : option (bool -> string -> layer * option goerr);
  faulty_CreateDefaultConfigFile : option (string -> option goerr);
  faulty_FileExists : option (string -> bool + goerr);
  faulty_LookupHost : option (string -> list string + goerr);
  faulty_ReadUserPass : option (string -> list string + goerr);
}.

(** a world with some of those calls replaced *)
Definition withFaults (f : Faults) (w : World) : World := {|
  os_Args0 := os_Args0 w;
  os_ExpandEnv := os_ExpandEnv w;
  os_PathSeparator := os_PathSeparator w;
  runtime_GOOS := runtime_GOOS w;
  filepath_Clean := filepath_Clean w;
  filepath_Join := filepath_Join w;
  filepath_Base := filepath_Base w;
  filepath_Ext := filepath_Ext w;
  user_Current := user_Current w;
  user_Lookup := user_Lookup w;
  net_JoinHostPort := net_JoinHostPort w;
  net_SplitHostPort := net_SplitHostPort w;
  net_LookupHost := default (net_LookupHost w) (faulty_LookupHost f);
  flags_Parse := flags_Parse w;
  ini_ParseFile := default (ini_ParseFile w) (faulty_ParseFile f);
  btcutil_AppDataDir := btcutil_AppDataDir w;
  version_Version := version_Version w;
  wallet_InsecurePubPassphrase := wallet_InsecurePubPassphrase w;
  wallet_WalletDbPath := wallet_WalletDbPath w;
  neutrino_MaxPeers := neutrino_MaxPeers w;
  neutrino_BanDuration := neutrino_BanDuration w;
  neutrino_BanThreshold := neutrino_BanThreshold w;
  keystore_Filename := keystore_Filename w;
  log_SetLogLevels := log_SetLogLevels w;
  pktconfig_ReadUserPass := default (pktconfig_ReadUserPass w) (faulty_ReadUserPass f);
  pktconfig_CreateDefaultConfigFile :=
    default (pktconfig_CreateDefaultConfigFile w) (faulty_CreateDefaultConfigFile f);
  cfgutil_FileExists := default (cfgutil_FileExists w) (faulty_FileExists f);
  cfgutil_NormalizeAddress := cfgutil_NormalizeAddress w;
  cfgutil_NormalizeAddresses := cfgutil_NormalizeAddresses w;
  netparams_TestNet3Params := netparams_TestNet3Params w;
  netparams_SimNetParams := netparams_SimNetParams w;
  netparams_PktTestNetParams := netparams_PktTestNetParams w;
  netparams_PktMainNetParams := netparams_PktMainNetParams w;
  netparams_MainNetParams := netparams_MainNetParams w;
  activeNet0 := activeNet0 w;
  networkDir := networkDir w;
  checkCreateDir := checkCreateDir w;
  createSimulationWallet := createSimulationWallet w;
  createWallet := createWallet w;
|}.

Definition noFaults : Faults := {|
  faulty_ParseFile := None;
  faulty_CreateDefaultConfigFile := None;
  faulty_FileExists := None;
  faulty_LookupHost := None;
  faulty_ReadUserPass := None;
|}.

(** a disk that cannot be read *)
Definition ioError : goerr := GoErr "input/output error" false false.

Definition unreadableDisk : World :=
  withFaults {| faulty_ParseFile := None;
                faulty_CreateDefaultConfigFile := None;
                faulty_FileExists := Some (fun _ => inr ioError);
                faulty_LookupHost := None;
                faulty_ReadUserPass := None |}
    (Unix.world (Unix.plain [])).

(** a config file with a syntax error *)
Definition iniError : goerr := GoErr "malformed key=value" false false.

Definition brokenConfigFile : World :=
  withFaults {| faulty_ParseFile := Some (fun _ _ => ([], Some iniError));
                faulty_CreateDefaultConfigFile := None;
                faulty_FileExists := None;
                faulty_LookupHost := None;
                faulty_ReadUserPass := None |}
    (Unix.world (Unix.plain [])).

(** no config file, and a directory in which none can be written *)
Definition readOnlyError : goerr := GoErr "read-only file system" false false.

Definition noConfigSetup : Unix.Setup := {|
  Unix.argv := inr ([], []);
  Unix.environ := [];
  Unix.iniFiles := [];
  Unix.pktdConf := inl [];
  Unix.existing := ["/home/user/.pktwallet/pkt/wallet.db"];
  Unix.homeDir := "/home/user";
  Unix.localhost := ["127.0.0.1"; "::1"];
|}.

Definition readOnlyHome : World :=
  withFaults {| faulty_ParseFile := None;
                faulty_CreateDefaultConfigFile := Some (fun _ => Some readOnlyError);
                faulty_FileExists := None;
                faulty_LookupHost := None;
                faulty_ReadUserPass := None |}
    (Unix.world noConfigSetup).

(** the message of line 290 *)
Definition missingConfigMessage (configFilePath : string) : string :=
  configFilePath +:+ " does not exist, creating it from default".

Definition listenerSetup : Unix.Setup :=
  Unix.plain [SetList LegacyRPCListeners ["127.0.0.1:8332"];
              SetList ExperimentalRPCListeners ["127.0.0.1:8333"; "localhost"]].


(** a command line go-flags rejects, and one that asks for help *)
Definition unknownFlag : goerr := GoErr "unknown flag `frobnicate'" false false.
Definition helpRequested : goerr := GoErr "Usage: pktwallet [OPTIONS]" false true.

Definition withArgv (argv : goerr + (layer * list string)) : Unix.Setup := {|
  Unix.argv := argv;
  Unix.environ := [];
  Unix.iniFiles := [("/home/user/.pktwallet/pktwallet.conf", [])];
  Unix.pktdConf := inl [];
  Unix.existing := ["/home/user/.pktwallet/pkt/wallet.db"];
  Unix.homeDir := "/home/user";
  Unix.localhost := ["127.0.0.1"; "::1"];
|}.

(** a wallet next to a local pktd, with TLS to it and no CA file of its own *)
Definition localPktdSetup : Unix.Setup :=
  Unix.machine [SetBool UseRPC true; SetBool ClientTLS true]
    ["/home/user/.pktwallet/pkt/wallet.db"; "/home/user/.pktd/rpc.cert"].

(** lines 144-149 of [cleanAndExpandPath]: the separators of the platform *)
Definition pathSeparators (w : World) : string :=
  if String.eqb (runtime_GOOS w) "windows"
  then String (os_PathSeparator w) "/"
  else String (os_PathSeparator w) "".

(** lines 157-170 of [cleanAndExpandPath]: the home directory of a user, the
    current one when no name is given, and [.] when it is not known *)
Definition homeDirOf (w : World) (userName : string) : string :=
  match (if isEmpty userName then user_Current w else user_Lookup w userName) with
  | Some home => if isEmpty home then "." else home
  | None => "."
  end.

(** another reading of pktd.conf *)
Definition withReadUserPass (readUserPass : string -> list string + goerr)
    (w : World) : World :=
  withFaults {| faulty_ParseFile := None;
                faulty_CreateDefaultConfigFile := None;
                faulty_FileExists := None;
                faulty_LookupHost := None;
                faulty_ReadUserPass := Some readUserPass |} w.

Definition credentialsSetup : Unix.Setup :=
  Unix.plain [SetStr Username "alice"; SetStr Password "secret"].

(** the settings of neutrino among the effects of a run (lines 479-483) *)
Definition isTuned (e : event) : bool :=
  match e with TunedNeutrino _ _ _ => true | _ => false end.

Definition tunings {A} (m : M A) : list event := List.filter isTuned (fst m).

(** a machine on which pktd.conf cannot be read *)
Definition unreadablePktdConf : World :=
  withReadUserPass (fun _ => inr ioError) (Unix.world (Unix.plain [])).

(** the text a layer gives to a tracked option, if it assigns it *)
Definition explGiven (l : layer) (o : ExplOpt) : option string :=
  match supplied l (OExpl o) with
  | Some (VStr s) => Some s
  | _ => None
  end.

(** * Properties *)

Local Open Scope list_scope.

(** membership, its negation and inclusion of lists written out *)
Ltac elem := repeat first [apply list_elem_of_here | apply list_elem_of_further].
Ltac not_elem :=
  repeat (apply not_elem_of_cons; split; [discriminate |]); apply not_elem_of_nil.
Ltac included :=
  let x := fresh in
  let H := fresh in
  intros x H;
  repeat (apply elem_of_cons in H as [-> | H]; [elem |]);
  by apply elem_of_nil in H.

(** run a block whose tests are all decided *)
Ltac exec :=
  unfold mbind, M_bind, emit, ret, mret, M_ret, returnErr, osExit, printErr, orReturn;
  cbn.

(** ** The monad *)

Lemma bind_continue {A B} (m : M A) (f : A -> M B) out a :
  m = (out, Continue a) -> m ≫= f = ((out ++ fst (f a))%list, snd (f a)).
Proof. intros ->. unfold mbind, M_bind. by destruct (f a). Qed.

Lemma bind_returnErr {A B} (m : M A) (f : A -> M B) out e :
  m = (out, ReturnErr e) -> m ≫= f = (out, ReturnErr e).
Proof. by intros ->. Qed.

Lemma bind_osExit {A B} (m : M A) (f : A -> M B) out c :
  m = (out, OsExit c) -> m ≫= f = (out, OsExit c).
Proof. by intros ->. Qed.

Lemma bind_inv {A B} (m : M A) (f : A -> M B) out b :
  m ≫= f = (out, Continue b) ->
  exists o1 a o2, m = (o1, Continue a) /\ f a = (o2, Continue b) /\ out = (o1 ++ o2)%list.
Proof.
  destruct m as [o1 [a | e | c]]; unfold mbind, M_bind; try discriminate.
  destruct (f a) as [o2 r] eqn:Hf. intros [= <- ->]. by exists o1, a, o2.
Qed.

Lemma bind_assoc {A B C} (m : M A) (f : A -> M B) (g : B -> M C) :
  (m ≫= f) ≫= g = m ≫= (fun a => f a ≫= g).
Proof.
  destruct m as [o1 [a | e | c]]; unfold mbind, M_bind; try done.
  destruct (f a) as [o2 [b | e | c]]; try done.
  destruct (g b) as [o3 r]. by rewrite app_assoc.
Qed.

Lemma ret_bind {A B} (a : A) (f : A -> M B) : ret a ≫= f = f a.
Proof. unfold ret, mret, M_ret, mbind, M_bind. by destruct (f a). Qed.


(** ** Layers of assignments *)

Lemma readOpt_assign c s o :
  readOpt o (assign c s) = default (readOpt o c) (given s o).
Proof.
  destruct s, o; simpl; try done; unfold upd; by case_decide.
Qed.

Lemma readOpt_applyLayer l c o :
  readOpt o (applyLayer l c) = default (readOpt o c) (supplied l o).
Proof.
  revert c. induction l as [| s l IH]; intros c; [done |].
  change (applyLayer (s :: l) c) with (applyLayer l (assign c s)).
  rewrite IH, readOpt_assign. simpl. by destruct (supplied l o).
Qed.

Lemma explicit_assign c s o :
  explicitlySet (expls (assign c s) o)
  = match given s (OExpl o) with Some _ => true | None => explicitlySet (expls c o) end.
Proof.
  destruct s; simpl; try done. unfold upd. by case_decide.
Qed.

Lemma explicit_applyLayer l c o :
  explicitlySet (expls (applyLayer l c) o)
  = supplies l (OExpl o) || explicitlySet (expls c o).
Proof.
  revert c. induction l as [| s l IH]; intros c; [done |].
  change (applyLayer (s :: l) c) with (applyLayer l (assign c s)).
  rewrite IH, explicit_assign. unfold supplies. simpl.
  destruct (supplied l (OExpl o)); [done |]. by destruct (given s (OExpl o)).
Qed.

Lemma applyLayer_app l1 l2 c :
  applyLayer (l1 ++ l2) c = applyLayer l2 (applyLayer l1 c).
Proof. apply foldl_app. Qed.


Lemma seedFromPktdConf_continue w preCfg cfg cli out cfg' :
  preCfg = applyLayer cli (defaultConfig w) ->
  cfg = sharingExplicit (defaultConfig w) preCfg ->
  seedFromPktdConf w None preCfg cfg = (out, Continue cfg') ->
  cfg' = seededConfig w cli.
Proof.
  intros -> ->. unfold seedFromPktdConf, seededConfig. cbv zeta.
  destruct (negb _ && negb _); [by intros [= _ <-] |].
  destruct (pktconfig_ReadUserPass w (pktdDefaultConf w)) as [userpass | err].
  - destruct (2 <=? length userpass)%nat; by intros [= _ <-].
  - simpl. discriminate.
Qed.

Lemma loadConfigFile_continue w path cfg out cfg' cfe :
  loadConfigFile w path cfg = (out, Continue (cfg', cfe)) ->
  cfg' = applyLayer (fileLayer w path) cfg.
Proof.
  unfold loadConfigFile, fileLayer.
  destruct (ini_ParseFile w false path) as [assigned [e |]]; [| by intros [= _ <- _]].
  destruct (is_PathError e); simpl; [| discriminate].
  destruct (pktconfig_CreateDefaultConfigFile w path); [by intros [= _ <- _] |].
  destruct (ini_ParseFile w true path) as [assigned' e']. simpl.
  intros [= _ <- _]. by rewrite applyLayer_app.
Qed.

(** When the final parse has succeeded, the configuration is the merged one. *)
Lemma mergeLayers_continue w out cfg rest cfe :
  mergeLayers w = (out, Continue (cfg, rest, cfe)) ->
  exists cli, flags_Parse w = inr (cli, rest) /\ cfg = mergedConfig w cli.
Proof.
  unfold mergeLayers. cbv zeta.
  destruct (flags_Parse w) as [e | [cli rest']] eqn:Hparse.
  { unfold flags_printError, writeHelpUnlessHelp, printErr.
    destruct (is_ErrHelp e); discriminate. }
  rewrite ret_bind.
  intros H. apply bind_inv in H as (o1 & [] & o2 & Hver & H & ->).
  apply bind_inv in H as (o3 & cfg1 & o4 & Hseed & H & ->).
  apply bind_inv in H as (o5 & [cfg2 cfe'] & o6 & Hfile & H & ->).
  injection H as _ <- <- <-.
  exists cli. split; [done |].
  apply seedFromPktdConf_continue with (cli := cli) in Hseed; [| done | done].
  apply loadConfigFile_continue in Hfile. subst. done.
Qed.

Lemma seededConfig_read w cli o :
  supplied cli o = None ->
  readOpt o (seededConfig w cli)
  = default (readOpt o (defaultConfig w)) (siblingGives w cli o).
Proof.
  intros Hcli.
  assert (Hshared : readOpt o (sharingExplicit (defaultConfig w)
                                 (applyLayer cli (defaultConfig w)))
                    = readOpt o (defaultConfig w)).
  { destruct o as [k | k | k | k | k]; try done.
    change (readOpt (OExpl k) (applyLayer cli (defaultConfig w))
            = readOpt (OExpl k) (defaultConfig w)).
    by rewrite readOpt_applyLayer, Hcli. }
  unfold seededConfig, siblingGives. cbv zeta.
  destruct (negb _ && negb _); [done |].
  destruct (pktconfig_ReadUserPass w (pktdDefaultConf w)) as [userpass | err]; [| done].
  destruct (2 <=? length userpass)%nat; [| done].
  destruct o as [k | k | k | k | k]; try done.
  destruct k; try done.
Qed.

(** The merged configuration obeys the precedence of the layers. *)
Lemma mergedConfig_layered w cli o :
  readOpt o (mergedConfig w cli)
  = layered w cli (fileLayer w (configFilePathOf w (applyLayer cli (defaultConfig w)))) o.
Proof.
  unfold mergedConfig, layered. rewrite !readOpt_applyLayer.
  destruct (supplied cli o) eqn:Hcli; [done |]. simpl.
  destruct (supplied (fileLayer _ _) o); [done |]. simpl.
  by rewrite seededConfig_read.
Qed.

(** A tracked value is explicitly set exactly when a layer assigns it. *)
Lemma mergedConfig_explicit w cli o :
  explicitlySet (expls (mergedConfig w cli) o)
  = supplies cli (OExpl o)
    || supplies (fileLayer w (configFilePathOf w (applyLayer cli (defaultConfig w)))) (OExpl o).
Proof.
  unfold mergedConfig. rewrite !explicit_applyLayer.
  assert (explicitlySet (expls (seededConfig w cli) o) = supplies cli (OExpl o)) as ->.
  { unfold seededConfig. cbv zeta.
    assert (explicitlySet (expls (sharingExplicit (defaultConfig w)
                                    (applyLayer cli (defaultConfig w))) o)
            = supplies cli (OExpl o)) as Hs.
    { change (explicitlySet (expls (applyLayer cli (defaultConfig w)) o) = supplies cli (OExpl o)).
      rewrite explicit_applyLayer. simpl. by rewrite orb_false_r. }
    destruct (negb _ && negb _); [done |].
    destruct (pktconfig_ReadUserPass w (pktdDefaultConf w)) as [userpass | err]; [| done].
    by destruct (2 <=? length userpass)%nat. }
  destruct (supplies cli (OExpl o)), (supplies _ (OExpl o)); done.
Qed.

(** ** The blocks in sequence *)

Lemma snd_bind {A B} (m : M A) (f : A -> M B) :
  snd (m ≫= f)
  = match snd m with
    | Continue a => snd (f a)
    | ReturnErr e => ReturnErr e
    | OsExit c => OsExit c
    end.
Proof.
  destruct m as [o [a | e | c]]; unfold mbind, M_bind; cbn [snd]; try done.
  by destruct (f a).
Qed.

Lemma fst_bind {A B} (m : M A) (f : A -> M B) :
  fst (m ≫= f)
  = fst m ++ match snd m with Continue a => fst (f a) | _ => [] end.
Proof.
  destruct m as [o [a | e | c]]; unfold mbind, M_bind; simpl;
    try by rewrite app_nil_r.
  by destruct (f a).
Qed.

(** From the start of the wallet bootstrap, [loadConfig] is the rest of its
    body. *)
Lemma loadConfig_from_bootstrap w cfg net rest cfe :
  snd (reachBootstrap w) = Continue (cfg, net, rest, cfe) ->
  loadConfig w = (fst (reachBootstrap w) ++ fst (fromBootstrap w cfg net rest cfe),
                  snd (fromBootstrap w cfg net rest cfe)).
Proof.
  unfold reachBootstrap, loadConfig.
  destruct (mergeLayers w) as [o1 [[[merged r] e] | e | c]]; [| done | done].
  rewrite !(bind_continue _ _ o1 (merged, r, e) eq_refl). cbv beta iota.
  destruct (prepare w merged) as [o2 [[c n] | e' | c']]; [| done | done].
  rewrite !(bind_continue _ _ o2 (c, n) eq_refl). cbv beta iota. simpl.
  intros [= -> -> -> ->]. fold (fromBootstrap w cfg net rest cfe).
  by rewrite app_nil_r, app_assoc.
Qed.

(** From the check of shared listeners, likewise. *)
Lemma loadConfig_from_listeners w cfg rest cfe :
  snd (reachListenerCheck w) = Continue (cfg, rest, cfe) ->
  loadConfig w = (fst (reachListenerCheck w) ++ fst (afterListeners cfg rest cfe w),
                  snd (afterListeners cfg rest cfe w)).
Proof.
  unfold reachListenerCheck.
  destruct (reachBootstrap w) as [o1 [[[[c1 net] r] e] | e | c]] eqn:Hb; [| done | done].
  rewrite (loadConfig_from_bootstrap w c1 net r e) by (by rewrite Hb).
  rewrite Hb. unfold fromBootstrap, finishConfig.
  rewrite !(bind_continue _ _ o1 (c1, net, r, e) eq_refl). cbv beta iota.
  destruct (bootstrapWallet w c1 net) as [o3 [[] | e' | c']]; [| done | done].
  rewrite !(bind_continue _ _ o3 tt eq_refl).
  destruct (rpcClient w c1 net) as [o4 [c2 | e' | c']]; [| done | done].
  rewrite !(bind_continue _ _ o4 c2 eq_refl).
  destruct (normalizeListeners w c2 net) as [o5 [c3 | e' | c']]; [| done | done].
  rewrite !(bind_continue _ _ o5 c3 eq_refl). simpl.
  intros [= -> -> ->]. fold (afterListeners cfg rest cfe w).
  by rewrite app_nil_r, !app_assoc.
Qed.

(** The states a successful resolution passes through. *)
Lemma loadConfig_continue w cfg rest :
  snd (loadConfig w) = Continue (cfg, rest) ->
  exists merged cfe c1 net c2 c3,
    snd (mergeLayers w) = Continue (merged, rest, cfe)
    /\ snd (prepare w merged) = Continue (c1, net)
    /\ snd (bootstrapWallet w c1 net) = Continue tt
    /\ snd (rpcClient w c1 net) = Continue c2
    /\ snd (normalizeListeners w c2 net) = Continue c3
    /\ snd (checkSharedListeners c3) = Continue tt
    /\ cfg = resolveCredentials (expandPaths w c3).
Proof.
  unfold loadConfig, finishConfig. rewrite snd_bind.
  destruct (snd (mergeLayers w)) as [[[merged r] cfe] | e | c] eqn:H1; [| done | done].
  rewrite snd_bind.
  destruct (snd (prepare w merged)) as [[c1 net] | e | c] eqn:H2; [| done | done].
  rewrite snd_bind.
  destruct (snd (bootstrapWallet w c1 net)) as [[] | e | c] eqn:H3; [| done | done].
  rewrite snd_bind.
  destruct (snd (rpcClient w c1 net)) as [c2 | e | c] eqn:H4; [| done | done].
  rewrite snd_bind.
  destruct (snd (normalizeListeners w c2 net)) as [c3 | e | c] eqn:H5; [| done | done].
  rewrite snd_bind.
  destruct (snd (checkSharedListeners c3)) as [[] | e | c] eqn:H6; [| done | done].
  rewrite snd_bind.
  destruct cfe as [e |]; simpl; intros [= <- <-];
    eexists merged, _, c1, net, c2, c3; eauto 10.
Qed.

Lemma mergeLayers_merged w cfg rest cfe :
  snd (mergeLayers w) = Continue (cfg, rest, cfe) ->
  exists cli, flags_Parse w = inr (cli, rest) /\ cfg = mergedConfig w cli.
Proof.
  destruct (mergeLayers w) as [out r] eqn:H. simpl. intros ->.
  by apply mergeLayers_continue in H.
Qed.

(** ** What each block leaves alone *)



Lemma agree_refl S E L c : agreeExcept S E L c c.
Proof. by repeat split. Qed.

Lemma agree_trans S E L c c' c'' :
  agreeExcept S E L c c' -> agreeExcept S E L c' c'' -> agreeExcept S E L c c''.
Proof.
  intros (Hb & Hn & Hs & He & Hx & Hl) (Hb' & Hn' & Hs' & He' & Hx' & Hl').
  repeat split;
    [ congruence | congruence
    | intros k Hk; rewrite Hs', Hs; done
    | intros k Hk; rewrite He', He; done
    | intros k; by rewrite Hx', Hx
    | intros k Hk; rewrite Hl', Hl; done ].
Qed.

Lemma agree_weaken S E L S' E' L' c c' :
  S ⊆ S' -> E ⊆ E' -> L ⊆ L' -> agreeExcept S E L c c' -> agreeExcept S' E' L' c c'.
Proof.
  intros HS HE HL (Hb & Hn & Hs & He & Hx & Hl).
  repeat split; try done.
  - intros k Hk. apply Hs. set_solver.
  - intros k Hk. apply He. set_solver.
  - intros k Hk. apply Hl. set_solver.
Qed.

Lemma agree_setStr S E L o s c : o ∈ S -> agreeExcept S E L c (setStr o s c).
Proof.
  intros Ho. repeat split; try done.
  intros k Hk. simpl. unfold upd. case_decide; [by subst | done].
Qed.

Lemma agree_setValue S E L o s c : o ∈ E -> agreeExcept S E L c (setValue o s c).
Proof.
  intros Ho. repeat split; try done.
  - intros k Hk. simpl. unfold upd. case_decide; [by subst | done].
  - intros k. simpl. unfold upd. case_decide; [by subst | done].
Qed.

Lemma agree_setList S E L o l c : o ∈ L -> agreeExcept S E L c (setList o l c).
Proof.
  intros Ho. repeat split; try done.
  intros k Hk. simpl. unfold upd. case_decide; [by subst | done].
Qed.

Lemma setValue_same o s c : Value (expls (setValue o s c) o) = s.
Proof. simpl. unfold upd. by case_decide. Qed.

Lemma setValue_other o o' s c : o' <> o -> expls (setValue o s c) o' = expls c o'.
Proof. intros H. simpl. unfold upd. by case_decide. Qed.

Lemma setStr_same o s c : strs (setStr o s c) o = s.
Proof. simpl. unfold upd. by case_decide. Qed.

Lemma setStr_other o o' s c : o' <> o -> strs (setStr o s c) o' = strs c o'.
Proof. intros H. simpl. unfold upd. by case_decide. Qed.


Lemma resolveDataDir_continues w cfg :
  snd (resolveDataDir w cfg) = Continue (resolvedDataDir w cfg).
Proof.
  unfold resolvedDataDir, resolveDataDir. rewrite snd_bind.
  by destruct (ExplicitlySet (expls cfg DataDir)).
Qed.

Lemma resolvedDataDir_agree w cfg :
  agreeExcept [] [AppDataDir; RPCKey; RPCCert] [] cfg (resolvedDataDir w cfg).
Proof.
  unfold resolvedDataDir, resolveDataDir. rewrite snd_bind.
  set (E := [AppDataDir; RPCKey; RPCCert]).
  assert (forall c, agreeExcept [] E [] cfg c ->
            agreeExcept [] E [] cfg
              (if ExplicitlySet (expls c AppDataDir) then
                 let c1 := setValue AppDataDir
                             (cleanAndExpandPath w (Value (expls c AppDataDir))) c in
                 let c2 :=
                   if negb (ExplicitlySet (expls c1 RPCKey))
                   then setValue RPCKey
                          (filepath_Join w (Value (expls c1 AppDataDir)) "rpc.key") c1
                   else c1 in
                 if negb (ExplicitlySet (expls c2 RPCCert))
                 then setValue RPCCert
                        (filepath_Join w (Value (expls c2 AppDataDir)) "rpc.cert") c2
                 else c2
               else c)) as Hstep.
  { intros c Hc. destruct (ExplicitlySet (expls c AppDataDir)); [| done]. cbv zeta.
    set (c1 := setValue AppDataDir _ c).
    assert (agreeExcept [] E [] cfg c1) as H1.
    { eapply agree_trans; [done |]. apply agree_setValue. set_solver. }
    clearbody c1.
    set (c2 := if negb (ExplicitlySet (expls c1 RPCKey)) then _ else c1).
    assert (agreeExcept [] E [] cfg c2) as H2.
    { unfold c2. destruct (negb _); [| done].
      eapply agree_trans; [done |]. apply agree_setValue. set_solver. }
    clearbody c2.
    destruct (negb _); [| done].
    eapply agree_trans; [done |]. apply agree_setValue. set_solver. }
  destruct (ExplicitlySet (expls cfg DataDir)); simpl.
  - apply Hstep. destruct (negb _); [| apply agree_refl].
    apply agree_setValue. set_solver.
  - apply Hstep, agree_refl.
Qed.

Lemma countNets_numNetFlags w cfg : snd (countNets w cfg) = Z.of_nat (numNetFlags cfg).
Proof.
  unfold countNets, numNetFlags, netFlags. simpl.
  destruct (bools cfg TestNet3), (bools cfg SimNet), (bools cfg PktTestNet),
    (bools cfg PktMainNet), (bools cfg BtcMainNet); reflexivity.
Qed.

Lemma selectNetwork_continue w cfg net :
  snd (selectNetwork w cfg) = Continue net ->
  net = fst (countNets w cfg) /\ (numNetFlags cfg <= 1)%nat.
Proof.
  unfold selectNetwork. pose proof (countNets_numNetFlags w cfg) as Hn.
  destruct (countNets w cfg) as [activeNet numNets]. simpl in Hn. subst numNets.
  destruct (1 <? Z.of_nat (numNetFlags cfg)) eqn:Hlt; [done |].
  simpl. intros [= <-]. split; [done |]. apply Z.ltb_ge in Hlt. lia.
Qed.

Lemma selectNetwork_multiple w cfg :
  (2 <= numNetFlags cfg)%nat ->
  selectNetwork w cfg
  = ([Stderr (emsg multipleNetsError); WriteHelp], ReturnErr (Some multipleNetsError)).
Proof.
  intros H. unfold selectNetwork. pose proof (countNets_numNetFlags w cfg) as Hn.
  destruct (countNets w cfg) as [activeNet numNets]. simpl in Hn. subst numNets.
  destruct (1 <? Z.of_nat (numNetFlags cfg)) eqn:Hlt; [done |].
  apply Z.ltb_ge in Hlt. lia.
Qed.

Lemma setupLogging_continue w cfg net c1 :
  snd (setupLogging w cfg net) = Continue c1 ->
  agreeExcept [LogDir] [] [] cfg c1
  /\ strs c1 LogDir
     = filepath_Join w (cleanAndExpandPath w (strs cfg LogDir)) (Name net).
Proof.
  unfold setupLogging. cbv zeta.
  destruct (log_SetLogLevels w _); [done |]. intros [= <-]. split.
  - eapply agree_trans; apply agree_setStr; set_solver.
  - by rewrite !setStr_same.
Qed.

(** [prepare] continues with the network the flags choose, at most one flag
    set, and a configuration that differs from the merged one in the paths
    under [appdata] and the log directory only. *)
Lemma prepare_continue w merged c1 net :
  snd (prepare w merged) = Continue (c1, net) ->
  net = fst (countNets w (resolvedDataDir w merged))
  /\ (numNetFlags merged <= 1)%nat
  /\ agreeExcept [LogDir] [] [] (resolvedDataDir w merged) c1
  /\ agreeExcept [LogDir] [AppDataDir; RPCKey; RPCCert] [] merged c1.
Proof.
  unfold prepare. rewrite snd_bind, resolveDataDir_continues.
  pose proof (resolvedDataDir_agree w merged) as Hrd.
  set (rd := resolvedDataDir w merged) in *. clearbody rd.
  rewrite snd_bind.
  destruct (snd (selectNetwork w rd)) as [net' | |] eqn:Hnet; [| done | done].
  apply selectNetwork_continue in Hnet as [-> Hle].
  rewrite snd_bind.
  destruct (snd (setupLogging w rd _)) as [c1' | |] eqn:Hlog; [| done | done].
  apply setupLogging_continue in Hlog as [Hagree _].
  simpl. intros [= <- <-].
  assert (numNetFlags rd = numNetFlags merged) as <-.
  { unfold numNetFlags. by destruct Hrd as (-> & _). }
  split; [done |]. split; [done |]. split; [done |].
  eapply agree_trans; (eapply agree_weaken; [| | | done]); set_solver.
Qed.


Lemma chooseCAFile_continue w cfg host c' :
  snd (chooseCAFile w cfg host) = Continue c' ->
  agreeExcept [] [CAFile] [] cfg c'.
Proof.
  unfold chooseCAFile.
  destruct (bools cfg ClientTLS); [| intros [= <-]; apply agree_refl].
  destruct (negb (ExplicitlySet (expls cfg CAFile))); [| intros [= <-]; apply agree_refl].
  cbv zeta. set (cfg1 := setValue CAFile _ cfg).
  assert (agreeExcept [] [CAFile] [] cfg cfg1) as H1 by (apply agree_setValue; elem).
  clearbody cfg1. rewrite snd_bind. unfold orReturn.
  destruct (cfgutil_FileExists w _) as [certExists | err].
  2: { rewrite snd_bind. cbn [snd emit printErr returnErr]. discriminate. }
  cbn [snd ret mret M_ret].
  destruct (negb certExists); [| by intros [= <-]].
  destruct (bool_decide _); [| by intros [= <-]].
  rewrite snd_bind.
  destruct (cfgutil_FileExists w _) as [pktdCertExists | err].
  2: { rewrite snd_bind. cbn [snd emit printErr returnErr]. discriminate. }
  cbn [snd ret mret M_ret]. intros [= <-].
  destruct pktdCertExists; [| done].
  eapply agree_trans; [done |]. apply agree_setValue. elem.
Qed.

Lemma rpcClient_continue w cfg net c' :
  snd (rpcClient w cfg net) = Continue c' ->
  agreeExcept [RPCConnect] [CAFile] [] cfg c'
  /\ (bools cfg UseRPC = false -> c' = cfg)
  /\ (bools cfg UseRPC = true ->
      cfgutil_NormalizeAddress w
        (if isEmpty (strs cfg RPCConnect)
         then net_JoinHostPort w "localhost" (RPCClientPort net)
         else strs cfg RPCConnect)
        (RPCClientPort net)
      = inl (strs c' RPCConnect)).
Proof.
  unfold rpcClient. destruct (bools cfg UseRPC) eqn:Hrpc; simpl.
  2: { intros [= <-]. split; [apply agree_refl | by split]. }
  set (cfg1 := if isEmpty (strs cfg RPCConnect) then _ else cfg).
  assert (agreeExcept [RPCConnect] [CAFile] [] cfg cfg1) as H1.
  { unfold cfg1. destruct (isEmpty _); [| apply agree_refl].
    apply agree_setStr. set_solver. }
  assert (strs cfg1 RPCConnect
          = if isEmpty (strs cfg RPCConnect)
            then net_JoinHostPort w "localhost" (RPCClientPort net)
            else strs cfg RPCConnect) as <-.
  { unfold cfg1. destruct (isEmpty _); [by rewrite setStr_same | done]. }
  clearbody cfg1. rewrite snd_bind. unfold orReturn.
  destruct (cfgutil_NormalizeAddress w _ _) as [addr | err] eqn:Hnorm.
  2: { rewrite snd_bind. cbn [snd emit returnErr]. discriminate. }
  cbn [snd ret mret M_ret]. rewrite snd_bind.
  destruct (net_SplitHostPort w _) as [[host port] | err]; [| done].
  cbn [snd ret mret M_ret]. intros H.
  apply chooseCAFile_continue in H.
  split; [| split; [done |]].
  - eapply agree_trans; [done |].
    eapply (agree_trans _ _ _ _ (setStr RPCConnect addr cfg1));
      [apply agree_setStr; set_solver |].
    eapply agree_weaken; [| | | done]; set_solver.
  - intros _. f_equal. destruct H as (_ & _ & Hs & _).
    rewrite Hs by set_solver. by rewrite setStr_same.
Qed.

Lemma normalizeListeners_continue w cfg net c' :
  snd (normalizeListeners w cfg net) = Continue c' ->
  agreeExcept [] [] [LegacyRPCListeners; ExperimentalRPCListeners] cfg c'.
Proof.
  unfold normalizeListeners. rewrite snd_bind.
  set (L := [LegacyRPCListeners; ExperimentalRPCListeners]).
  match goal with
  | |- context [match _ with Continue a => @?k a | ReturnErr _ => _ | OsExit _ => _ end] =>
      set (rest := k)
  end.
  assert (forall cfg1, agreeExcept [] [] L cfg cfg1 ->
            rest cfg1 = Continue c' -> agreeExcept [] [] L cfg c') as Hrest.
  { intros cfg1 Hcfg1. unfold rest. rewrite snd_bind. unfold orReturn.
    destruct (cfgutil_NormalizeAddresses w (lists cfg1 _) _) as [legacy | err].
    2: { rewrite snd_bind. cbn [snd emit returnErr]. discriminate. }
    cbn [snd ret mret M_ret]. rewrite snd_bind.
    destruct (cfgutil_NormalizeAddresses w _ _) as [experimental | err].
    2: { rewrite snd_bind. cbn [snd emit returnErr]. discriminate. }
    cbn [snd ret mret M_ret]. intros [= <-].
    eapply agree_trans; [done |].
    eapply agree_trans; apply agree_setList; set_solver. }
  destruct (_ && _).
  - destruct (net_LookupHost w "localhost"); [| done].
    intros H. eapply Hrest; [| exact H]. apply agree_setList. set_solver.
  - intros H. eapply Hrest; [apply agree_refl | exact H].
Qed.

Lemma expandPaths_agree w cfg :
  agreeExcept [] [CAFile; RPCCert; RPCKey] [] cfg (expandPaths w cfg).
Proof.
  unfold expandPaths.
  repeat (eapply agree_trans; [| apply agree_setValue; set_solver]).
  apply agree_refl.
Qed.

Lemma resolveCredentials_agree cfg :
  agreeExcept [Username; Password; BtcdUsername; BtcdPassword] [] [] cfg
    (resolveCredentials cfg).
Proof.
  unfold resolveCredentials. cbv zeta.
  repeat match goal with
         | |- context [if isEmpty ?s then _ else _] => destruct (isEmpty s)
         end;
    repeat (eapply agree_trans; [| apply agree_setStr; set_solver]);
    apply agree_refl.
Qed.

(** A successful resolution leaves every option as merged, but for the ones
    its later blocks derive. *)
Lemma loadConfig_agree w merged rest cfe cfg rest' :
  snd (mergeLayers w) = Continue (merged, rest, cfe) ->
  snd (loadConfig w) = Continue (cfg, rest') ->
  agreeExcept [LogDir; RPCConnect; Username; Password; BtcdUsername; BtcdPassword]
              [AppDataDir; RPCKey; RPCCert; CAFile]
              [LegacyRPCListeners; ExperimentalRPCListeners] merged cfg.
Proof.
  intros Hm H. apply loadConfig_continue in H
    as (merged' & cfe' & c1 & net & c2 & c3 & Hm' & Hp & _ & Hc & Hn & _ & ->).
  rewrite Hm in Hm'. injection Hm' as <- <- <-.
  apply prepare_continue in Hp as (_ & _ & _ & Hp).
  apply rpcClient_continue in Hc as (Hc & _).
  apply normalizeListeners_continue in Hn.
  pose proof (expandPaths_agree w c3) as He.
  pose proof (resolveCredentials_agree (expandPaths w c3)) as Hr.
  repeat (eapply agree_trans;
          [| eapply agree_weaken; [| | | eassumption]; included]).
  apply agree_refl.
Qed.

(** ** The claims *)

(** *** C1 *)





(** *** C2 *)

Lemma prepare_multiple w merged :
  (2 <= numNetFlags merged)%nat ->
  prepare w merged
  = (fst (resolveDataDir w merged) ++ [Stderr (emsg multipleNetsError); WriteHelp],
     ReturnErr (Some multipleNetsError)).
Proof.
  intros H. unfold prepare.
  pose proof (resolveDataDir_continues w merged) as Hrd.
  pose proof (resolvedDataDir_agree w merged) as (Hb & _).
  destruct (resolveDataDir w merged) as [o rd]. simpl in Hrd. subst rd.
  rewrite (bind_continue _ _ o (resolvedDataDir w merged) eq_refl).
  rewrite selectNetwork_multiple; [done |].
  unfold numNetFlags in *. by rewrite Hb.
Qed.

(** C2, the claim as stated fails: started without any network flag, on a
    machine whose wallet exists, resolution succeeds and none of the five
    flags is true; the network is the one [activeNet] held on entry. *)
Lemma C2_no_network_flag_succeeds :
  exists cfg rest,
    snd (loadConfig (Unix.world (Unix.plain []))) = Continue (cfg, rest)
    /\ numNetFlags cfg = 0%nat.
Proof. vm_compute. by eexists _, _. Qed.

(** C2 (amended): after a successful resolution at most one of the five
    network flags is true; and whenever two or more of them are set in the
    merged options, whichever they are, resolution prints and returns the
    error of line 354. *)
Theorem network_flags_at_most_one w merged rest cfe :
  snd (mergeLayers w) = Continue (merged, rest, cfe) ->
  ((2 <= numNetFlags merged)%nat ->
     snd (loadConfig w) = ReturnErr (Some multipleNetsError)
     /\ exists out, fst (loadConfig w)
                    = out ++ [Stderr (emsg multipleNetsError); WriteHelp])
  /\ (forall cfg rest',
        snd (loadConfig w) = Continue (cfg, rest') -> (numNetFlags cfg <= 1)%nat).
Proof.
  intros Hm. split.
  - intros Hnets. unfold loadConfig.
    destruct (mergeLayers w) as [o1 r1]. simpl in Hm. subst r1.
    rewrite (bind_continue _ _ o1 (merged, rest, cfe) eq_refl). cbv beta iota.
    rewrite (bind_returnErr _ _ _ _ (prepare_multiple w merged Hnets)). simpl.
    split; [done |]. eexists. by rewrite app_assoc.
  - intros cfg rest' H.
    destruct (loadConfig_agree _ _ _ _ _ _ Hm H) as (Hb & _).
    apply loadConfig_continue in H
      as (merged' & cfe' & c1 & net & _ & _ & Hm' & Hp & _).
    rewrite Hm in Hm'. injection Hm' as <- <- <-.
    apply prepare_continue in Hp as (_ & Hle & _).
    unfold numNetFlags in *. by rewrite Hb.
Qed.

Lemma network_flags_at_most_one_witness :
  snd (loadConfig (Unix.world
         (Unix.plain [SetBool SimNet true; SetBool BtcMainNet true])))
  = ReturnErr (Some multipleNetsError).
Proof.
  edestruct (network_flags_at_most_one
               (Unix.world (Unix.plain [SetBool SimNet true; SetBool BtcMainNet true])))
    as [Hmany _]; [vm_compute; reflexivity |].
  apply Hmany. vm_compute. lia.
Defined.

(** *** The wallet bootstrap (C4, C5, C6) *)

Lemma reachBootstrap_continue w cfg net rest cfe :
  snd (reachBootstrap w) = Continue (cfg, net, rest, cfe) ->
  exists merged,
    snd (mergeLayers w) = Continue (merged, rest, cfe)
    /\ snd (prepare w merged) = Continue (cfg, net).
Proof.
  unfold reachBootstrap. rewrite snd_bind.
  destruct (snd (mergeLayers w)) as [[[merged r] e] | |]; [| done | done].
  rewrite snd_bind.
  destruct (snd (prepare w merged)) as [[c n] | |] eqn:Hp; [| done | done].
  simpl. intros [= -> -> -> ->]. by exists merged.
Qed.


(** *** C4 *)

(** C4, the claim as stated fails: with [--create --createtemp] and no data
    directory, and with [--create --createtemp --appdata=/tmp/sim] on the
    default network, the process prints a diagnostic and exits with status 0;
    the error of line 402 is not reached. *)
Lemma C4_create_createtemp_exits :
  loadConfig (Unix.world (Unix.plain [SetBool Create true; SetBool CreateTemp true]))
  = ([SelectedGlobalConfig "pkt"; Stderr noDataDirMessage], OsExit 0)
  /\ snd (loadConfig (Unix.world
            (Unix.plain [SetBool Create true; SetBool CreateTemp true;
                         SetExpl AppDataDir "/tmp/sim"])))
     = OsExit 0.
Proof. split; vm_compute; reflexivity. Qed.

(** C4 (amended): when resolution reaches the wallet bootstrap (line 381)
    with [create] and [createtemp] both set, it is rejected with the error of
    line 402 provided that a data directory was given explicitly and the
    simulation network is selected; without an explicit data directory, or on
    another network, the process prints a diagnostic and exits with status 0
    instead.  (The flags at line 381 are those of the merged options:
    [prepare_continue].) *)
Theorem create_and_createtemp w cfg net rest cfe :
  snd (reachBootstrap w) = Continue (cfg, net, rest, cfe) ->
  bools cfg Create = true ->
  bools cfg CreateTemp = true ->
  loadConfig w
  = if negb (ExplicitlySet (expls cfg AppDataDir) || ExplicitlySet (expls cfg DataDir))
    then (fst (reachBootstrap w) ++ [Stderr noDataDirMessage], OsExit 0)
    else if negb (bools cfg SimNet)
    then (fst (reachBootstrap w) ++ [Stderr notSimNetMessage], OsExit 0)
    else (fst (reachBootstrap w) ++ [Stderr (emsg createBothError)],
          ReturnErr (Some createBothError)).
Proof.
  intros H Hcreate Htemp. rewrite (loadConfig_from_bootstrap _ _ _ _ _ H).
  unfold fromBootstrap, bootstrapWallet. rewrite Hcreate, Htemp.
  destruct (negb (_ || _)); [done |].
  destruct (negb (bools cfg SimNet)); done.
Qed.

Lemma create_and_createtemp_witness :
  snd (loadConfig (Unix.world
         (Unix.plain [SetBool Create true; SetBool CreateTemp true;
                      SetBool SimNet true; SetExpl AppDataDir "/tmp/sim"])))
  = ReturnErr (Some createBothError).
Proof.
  erewrite create_and_createtemp;
    [| vm_compute; reflexivity | vm_compute; reflexivity | vm_compute; reflexivity].
  vm_compute. reflexivity.
Defined.

(** *** C5 *)

(** C5: when resolution reaches the wallet bootstrap with [create],
    [createtemp] and [noinitialload] all false, the wallet database file does
    not exist and the network directory could be ensured, resolution fails
    after ensuring the directory: it prints on stderr and returns the error
    whose text is that of line 463 if the legacy keystore file is absent (the
    wallet does not exist, run with [--create] to initialize and create it),
    and that of line 466 if it is present (the wallet is in legacy format,
    run with [--create] to import it).  The two texts differ. *)
Theorem missing_wallet_is_rejected w cfg net rest cfe keystoreExists :
  snd (reachBootstrap w) = Continue (cfg, net, rest, cfe) ->
  bools cfg Create = false ->
  bools cfg CreateTemp = false ->
  bools cfg NoInitialLoad = false ->
  let netDir := networkDir w (Value (expls cfg AppDataDir)) net in
  let dbPath := wallet_WalletDbPath w netDir (strs cfg Wallet) in
  cfgutil_FileExists w dbPath = inl false ->
  checkCreateDir w netDir = None ->
  cfgutil_FileExists w (filepath_Join w netDir (keystore_Filename w)) = inl keystoreExists ->
  let text :=
    if keystoreExists
    then "The wallet is in legacy format.  Run with the --create option to import it."
    else "The wallet does not exist.  Run with the --create option to initialize and create it."
  in
  loadConfig w
  = (fst (reachBootstrap w) ++ [EnsuredDir netDir; Stderr text],
     ReturnErr (Some (Errorf text)))
  /\ emsg walletMissingError <> emsg walletLegacyError.
Proof.
  intros H Hcreate Htemp Hload netDir dbPath Hdb Hdir Hkey text.
  split; [| discriminate].
  rewrite (loadConfig_from_bootstrap _ _ _ _ _ H).
  unfold fromBootstrap, bootstrapWallet, bootstrapDecision.
  rewrite Htemp, Hcreate, Hload, !andb_false_r. cbv zeta.
  fold netDir. fold dbPath. rewrite Hdb, Hdir, Hkey.
  subst text. destruct keystoreExists; by exec.
Qed.

Lemma missing_wallet_is_rejected_witness :
  loadConfig (Unix.world (Unix.machine [] []))
  = ([SelectedGlobalConfig "pkt"; EnsuredDir "/home/user/.pktwallet/pkt";
      Stderr "The wallet does not exist.  Run with the --create option to initialize and create it."],
     ReturnErr
       (Some (Errorf "The wallet does not exist.  Run with the --create option to initialize and create it.")))
  /\ loadConfig (Unix.world (Unix.machine [] ["/home/user/.pktwallet/pkt/wallet.bin"]))
     = ([SelectedGlobalConfig "pkt"; EnsuredDir "/home/user/.pktwallet/pkt";
         Stderr "The wallet is in legacy format.  Run with the --create option to import it."],
        ReturnErr
          (Some (Errorf "The wallet is in legacy format.  Run with the --create option to import it."))).
Proof.
  split.
  - edestruct (missing_wallet_is_rejected (Unix.world (Unix.machine [] [])))
      with (keystoreExists := false) as [-> _];
      [vm_compute; reflexivity .. |]. vm_compute. reflexivity.
  - edestruct (missing_wallet_is_rejected
                 (Unix.world (Unix.machine [] ["/home/user/.pktwallet/pkt/wallet.bin"])))
      with (keystoreExists := true) as [-> _];
      [vm_compute; reflexivity .. |]. vm_compute. reflexivity.
Defined.

(** *** C6 *)

(** C6, the claim as stated fails: with [--createtemp --simnet
    --appdata=/tmp/sim] and [--create] as well, resolution returns the error
    of line 402, whether the wallet file exists or not; nothing is loaded and
    the creation wizard is not run. *)
Lemma C6_createtemp_with_create_is_rejected :
  let cli := [SetBool CreateTemp true; SetBool SimNet true;
              SetExpl AppDataDir "/tmp/sim"; SetBool Create true] in
  let out := [Stderr "/tmp/sim/pktwallet.conf does not exist, creating it from default";
              WroteDefaultConfig "/tmp/sim/pktwallet.conf";
              SelectedGlobalConfig "simnet";
              Stderr (emsg createBothError)] in
  loadConfig (Unix.world (Unix.machine cli ["/tmp/sim/simnet/wallet.db"]))
  = (out, ReturnErr (Some createBothError))
  /\ loadConfig (Unix.world (Unix.machine cli []))
     = (out, ReturnErr (Some createBothError)).
Proof. split; vm_compute; reflexivity. Qed.

(** C6 (amended): when resolution reaches the wallet bootstrap with
    [createtemp] set, [create] not set, the simulation network selected and a
    data directory given explicitly, and the network directory could be
    ensured: if the wallet database file exists, the only thing done is the
    message of line 424 on standard output, and resolution goes on with line
    473; if it does not exist, [createSimulationWallet] is run, and
    resolution goes on with line 473 unless that fails. *)
Theorem temporary_wallet w cfg net rest cfe :
  snd (reachBootstrap w) = Continue (cfg, net, rest, cfe) ->
  bools cfg CreateTemp = true ->
  bools cfg Create = false ->
  bools cfg SimNet = true ->
  ExplicitlySet (expls cfg AppDataDir) || ExplicitlySet (expls cfg DataDir) = true ->
  let netDir := networkDir w (Value (expls cfg AppDataDir)) net in
  let dbPath := wallet_WalletDbPath w netDir (strs cfg Wallet) in
  let rest473 := finishConfig w cfg net rest cfe in
  checkCreateDir w netDir = None ->
  (cfgutil_FileExists w dbPath = inl true ->
   loadConfig w
   = (fst (reachBootstrap w) ++ [EnsuredDir netDir; Stdout walletExistsMessage]
        ++ fst rest473,
      snd rest473))
  /\ (cfgutil_FileExists w dbPath = inl false ->
      loadConfig w
      = match createSimulationWallet w cfg with
        | None =>
            (fst (reachBootstrap w) ++ [EnsuredDir netDir; RanCreateSimulationWallet]
               ++ fst rest473,
             snd rest473)
        | Some err =>
            (fst (reachBootstrap w)
               ++ [EnsuredDir netDir; RanCreateSimulationWallet;
                   Stderr ("Unable to create wallet: " ++ emsg err)%string],
             ReturnErr (Some err))
        end).
Proof.
  intros H Htemp Hcreate Hsim Hdir netDir dbPath rest473 Hensure.
  rewrite (loadConfig_from_bootstrap _ _ _ _ _ H).
  unfold fromBootstrap, bootstrapWallet, bootstrapDecision.
  rewrite Htemp, Hcreate, Hsim, Hdir. cbv zeta.
  fold netDir. fold dbPath. fold rest473. rewrite Hensure.
  clearbody rest473. destruct rest473 as [out473 r473].
  split; intros ->; [by exec |].
  destruct (createSimulationWallet w cfg); by exec.
Qed.

Lemma temporary_wallet_witness :
  let cli := [SetBool CreateTemp true; SetBool SimNet true;
              SetExpl AppDataDir "/tmp/sim"] in
  (exists cfg out,
      loadConfig (Unix.world (Unix.machine cli ["/tmp/sim/simnet/wallet.db"]))
      = (out, Continue (cfg, []))
      /\ Stdout walletExistsMessage ∈ out /\ RanCreateSimulationWallet ∉ out)
  /\ (exists cfg out,
      loadConfig (Unix.world (Unix.machine cli [])) = (out, Continue (cfg, []))
      /\ RanCreateSimulationWallet ∈ out).
Proof.
  intros cli. split.
  - edestruct (temporary_wallet
                 (Unix.world (Unix.machine cli ["/tmp/sim/simnet/wallet.db"])))
      as [Hexists _]; [vm_compute; reflexivity .. |].
    rewrite Hexists by (vm_compute; reflexivity).
    vm_compute. eexists _, _. split; [reflexivity |]. split; [elem |].
    repeat (apply not_elem_of_cons; split; [discriminate |]). apply not_elem_of_nil.
  - edestruct (temporary_wallet (Unix.world (Unix.machine cli [])))
      as [_ Habsent]; [vm_compute; reflexivity .. |].
    rewrite Habsent by (vm_compute; reflexivity).
    vm_compute. eexists _, _. split; [reflexivity | elem].
Defined.

(** *** C7 *)

Lemma seenAddressesOf_elem legacy a : a ∈ seenAddressesOf legacy <-> a ∈ legacy.
Proof.
  unfold seenAddressesOf.
  assert (forall seen : gset string,
            a ∈ foldl (fun seenAddresses addr => seenAddresses ∪ {[ addr ]}) seen legacy
            <-> a ∈ seen \/ a ∈ legacy) as Hfold.
  { induction legacy as [| addr l IH]; intros seen; simpl.
    - rewrite elem_of_nil. tauto.
    - rewrite IH, elem_of_union, elem_of_singleton, elem_of_cons. tauto. }
  rewrite Hfold, elem_of_empty. tauto.
Qed.

Lemma rejectSeen_none seen addrs :
  (forall b, b ∈ addrs -> b ∉ seen) -> rejectSeen seen addrs = ([], Continue tt).
Proof.
  induction addrs as [| addr l IH]; intros H; [done |]. simpl.
  rewrite bool_decide_eq_false_2 by (apply H; elem).
  apply IH. intros b Hb. apply H. by apply list_elem_of_further.
Qed.

Lemma rejectSeen_found seen pre addr post :
  addr ∈ seen ->
  (forall b, b ∈ pre -> b ∉ seen) ->
  rejectSeen seen (pre ++ addr :: post)
  = ([Stderr (emsg (sharedListenerError addr))],
     ReturnErr (Some (sharedListenerError addr))).
Proof.
  intros Haddr. induction pre as [| b l IH]; intros H; simpl.
  - by rewrite bool_decide_eq_true_2.
  - rewrite bool_decide_eq_false_2 by (apply H; elem).
    apply IH. intros c Hc. apply H. by apply list_elem_of_further.
Qed.

(** the first address of a list that is in a set *)
Lemma first_seen (seen : gset string) (addrs : list string) a :
  a ∈ addrs -> a ∈ seen ->
  exists pre addr post,
    addrs = pre ++ addr :: post /\ addr ∈ seen /\ (forall b, b ∈ pre -> b ∉ seen).
Proof.
  induction addrs as [| x l IH]; intros Ha Hseen; [by apply elem_of_nil in Ha |].
  destruct (decide (x ∈ seen)) as [Hx | Hx].
  - exists [], x, l. split; [done |]. split; [done |].
    intros b Hb. by apply elem_of_nil in Hb.
  - apply elem_of_cons in Ha as [-> | Ha]; [done |].
    destruct (IH Ha Hseen) as (pre & addr & post & -> & Haddr & Hpre).
    exists (x :: pre), addr, post. split; [done |]. split; [done |].
    intros b [-> | Hb]%elem_of_cons; [done | by apply Hpre].
Qed.

(** C7: when resolution reaches the check of line 564 with the normalized
    listener lists, and some address is in both lists, resolution prints and
    returns the error of line 573 for the first address of the experimental
    list that is also a legacy listener, and that address is in the message;
    when the lists share no address, resolution succeeds. *)
Theorem shared_listener_address w cfg rest cfe :
  snd (reachListenerCheck w) = Continue (cfg, rest, cfe) ->
  let legacy := lists cfg LegacyRPCListeners in
  let experimental := lists cfg ExperimentalRPCListeners in
  ((exists a, a ∈ legacy /\ a ∈ experimental) ->
   exists pre addr post,
     experimental = pre ++ addr :: post
     /\ addr ∈ legacy
     /\ (forall b, b ∈ pre -> b ∉ legacy)
     /\ emsg (sharedListenerError addr)
        = ("Address `" ++ addr
           ++ "` may not be used as a listener address for both RPC servers")%string
     /\ loadConfig w
        = (fst (reachListenerCheck w) ++ [Stderr (emsg (sharedListenerError addr))],
           ReturnErr (Some (sharedListenerError addr))))
  /\ ((forall a, a ∈ legacy -> a ∉ experimental) ->
      exists final, snd (loadConfig w) = Continue (final, rest)).
Proof.
  intros H legacy experimental.
  rewrite (loadConfig_from_listeners _ _ _ _ H).
  unfold afterListeners, checkSharedListeners. fold legacy. fold experimental.
  split.
  - intros (a & Hl & He).
    apply seenAddressesOf_elem in Hl.
    destruct (first_seen _ _ _ He Hl) as (pre & addr & post & Hexp & Haddr & Hpre).
    exists pre, addr, post. split; [done |].
    split; [by apply seenAddressesOf_elem |].
    split; [intros b Hb; rewrite <- seenAddressesOf_elem; by apply Hpre |].
    split; [done |].
    assert ((0 <? length legacy)%nat = true) as ->.
    { apply Nat.ltb_lt. apply seenAddressesOf_elem in Haddr.
      destruct legacy; [by apply elem_of_nil in Haddr | simpl; lia]. }
    assert ((0 <? length experimental)%nat = true) as ->.
    { apply Nat.ltb_lt. rewrite Hexp, length_app. simpl. lia. }
    cbn [andb]. rewrite Hexp, (rejectSeen_found _ _ _ _ Haddr Hpre). done.
  - intros Hnone.
    assert ((if (0 <? length legacy)%nat && (0 <? length experimental)%nat
             then rejectSeen (seenAddressesOf legacy) experimental
             else ret tt) = ([], Continue tt)) as ->.
    { destruct (_ && _); [| done]. apply rejectSeen_none.
      intros b Hb Hseen. apply seenAddressesOf_elem in Hseen. by apply (Hnone b). }
    destruct cfe; by eexists.
Qed.

(** Both servers are asked to listen on 127.0.0.1:8332. *)
Lemma shared_listener_address_witness :
  snd (loadConfig (Unix.world
         (Unix.plain [SetList LegacyRPCListeners ["127.0.0.1:8332"];
                      SetList ExperimentalRPCListeners ["127.0.0.1:8332"]])))
  = ReturnErr (Some (sharedListenerError "127.0.0.1:8332")).
Proof.
  edestruct (shared_listener_address
               (Unix.world
                  (Unix.plain [SetList LegacyRPCListeners ["127.0.0.1:8332"];
                               SetList ExperimentalRPCListeners ["127.0.0.1:8332"]])))
    as [Hshared _]; [vm_compute; reflexivity |].
  destruct Hshared as (pre & addr & post & Hexp & _ & _ & _ & ->).
  { exists "127.0.0.1:8332". split; vm_compute; elem. }
  vm_compute in Hexp. destruct pre as [| b pre].
  - by injection Hexp as <- _.
  - injection Hexp as _ Hexp. by destruct pre.
Defined.

(** *** C8 *)

(** However [pktd.conf] fails to be read, line 272 asks whether [errr] (the
    error of the pre-parse, nil by then) is a path error, not [err]: the
    answer is no, and [loadConfig] prints the error and the usage and returns
    [nil, nil, er.E(errr)], a nil error. *)
Lemma pktd_conf_read_error w cli rest err :
  flags_Parse w = inr (cli, rest) ->
  let preCfg := applyLayer cli (defaultConfig w) in
  bools preCfg ShowVersion = false ->
  isEmpty (strs preCfg Username) || isEmpty (strs preCfg Password) = true ->
  pktconfig_ReadUserPass w (pktdDefaultConf w) = inr err ->
  loadConfig w = ([Stderr (emsg err); WriteHelp], ReturnErr None).
Proof.
  intros Hparse preCfg Hver Huser Hread.
  unfold loadConfig, mergeLayers. rewrite Hparse. cbv zeta. fold preCfg.
  rewrite ret_bind, Hver, ret_bind. unfold seedFromPktdConf.
  assert (negb (isEmpty (strs preCfg Username)) && negb (isEmpty (strs preCfg Password))
          = false) as ->.
  { by destruct (isEmpty (strs preCfg Username)), (isEmpty (strs preCfg Password)). }
  rewrite Hread. by exec.
Qed.


(** C8, the code at the failing input: no user or password on the command
    line and no pktd.conf.  The claim has resolution continue silently; the
    code prints the error and the usage and returns no configuration (and no
    error either). *)
Theorem absent_pktd_conf_aborts :
  loadConfig (Unix.world withoutPktdConf)
  = ([Stderr "open /home/user/.pktd/pktd.conf: no such file or directory"; WriteHelp],
     ReturnErr None).
Proof.
  apply (pktd_conf_read_error (Unix.world withoutPktdConf) [] []
           (Unix.PathError "open" "/home/user/.pktd/pktd.conf"));
    vm_compute; reflexivity.
Qed.

(** *** C3 *)

Lemma resolvedDataDir_values w merged :
  let rd := resolvedDataDir w merged in
  (ExplicitlySet (expls merged AppDataDir) = true ->
   Value (expls rd AppDataDir) = cleanAndExpandPath w (Value (expls merged AppDataDir))
   /\ (ExplicitlySet (expls merged RPCKey) = false ->
       Value (expls rd RPCKey) = filepath_Join w (Value (expls rd AppDataDir)) "rpc.key")
   /\ (ExplicitlySet (expls merged RPCCert) = false ->
       Value (expls rd RPCCert) = filepath_Join w (Value (expls rd AppDataDir)) "rpc.cert"))
  /\ (ExplicitlySet (expls merged RPCKey) = true -> expls rd RPCKey = expls merged RPCKey)
  /\ (ExplicitlySet (expls merged RPCCert) = true -> expls rd RPCCert = expls merged RPCCert).
Proof.
  unfold resolvedDataDir, resolveDataDir. rewrite snd_bind.
  unfold ExplicitlySet.
  destruct (explicitlySet (expls merged DataDir)) eqn:Hdata,
    (explicitlySet (expls merged AppDataDir)) eqn:Happ,
    (explicitlySet (expls merged RPCKey)) eqn:Hkey,
    (explicitlySet (expls merged RPCCert)) eqn:Hcert;
    repeat (cbn -[cleanAndExpandPath];
            unfold ExplicitlySet, setValue, setExpl, withValue, upd;
            cbn -[cleanAndExpandPath];
            rewrite ?decide_True by reflexivity;
            rewrite ?decide_False by discriminate;
            rewrite ?Hdata, ?Happ, ?Hkey, ?Hcert);
    repeat split; intros; try discriminate; try reflexivity.
Qed.


(** C3, a defect of the code.  Lines 316-318 announce that a path whose
    default is relative to the data directory is made relative to the new
    one, which is what the claim says.  On a machine with [PKT=/srv/$NET] and
    [NET=main], started with [--appdata=${PKT}] and no [--rpckey], the
    resolved [appdata] is [/srv/$NET] (one expansion, line 320), but the
    resolved [rpckey] is [/srv/main/rpc.key], not [/srv/$NET/rpc.key]: line
    585 expands the path derived at line 322 a second time, so the key is
    looked for outside the data directory. *)
Lemma C3_rpckey_is_expanded_again :
  exists merged cfe cfg,
    snd (mergeLayers (Unix.world nestedEnvSetup)) = Continue (merged, [], cfe)
    /\ snd (loadConfig (Unix.world nestedEnvSetup)) = Continue (cfg, [])
    /\ ExplicitlySet (expls merged AppDataDir) = true
    /\ ExplicitlySet (expls merged RPCKey) = false
    /\ Value (expls cfg AppDataDir) = "/srv/$NET"
    /\ Unix.Join (Value (expls cfg AppDataDir)) "rpc.key" = "/srv/$NET/rpc.key"
    /\ Value (expls cfg RPCKey) = "/srv/main/rpc.key".
Proof. vm_compute. by eexists _, _, _. Qed.

Lemma expandPaths_values w c :
  Value (expls (expandPaths w c) RPCKey) = cleanAndExpandPath w (Value (expls c RPCKey))
  /\ Value (expls (expandPaths w c) RPCCert) = cleanAndExpandPath w (Value (expls c RPCCert))
  /\ Value (expls (expandPaths w c) CAFile) = cleanAndExpandPath w (Value (expls c CAFile))
  /\ expls (expandPaths w c) AppDataDir = expls c AppDataDir.
Proof.
  unfold expandPaths. cbv zeta.
  repeat split;
    repeat first [ rewrite setValue_same | rewrite setValue_other by discriminate ];
    reflexivity.
Qed.

(** The tracked values at the end, in terms of those [prepare] left. *)
Lemma loadConfig_paths w cfg rest :
  snd (loadConfig w) = Continue (cfg, rest) ->
  exists merged cfe c1 net c3,
    snd (mergeLayers w) = Continue (merged, rest, cfe)
    /\ snd (prepare w merged) = Continue (c1, net)
    /\ (forall k, k <> CAFile -> expls c3 k = expls (resolvedDataDir w merged) k)
    /\ (forall k, expls cfg k = expls (expandPaths w c3) k).
Proof.
  intros H. apply loadConfig_continue in H
    as (merged & cfe & c1 & net & c2 & c3 & Hm & Hp & _ & Hc & Hn & _ & ->).
  exists merged, cfe, c1, net, c3. split; [done |]. split; [done |].
  pose proof Hp as (_ & _ & (_ & _ & _ & H1 & _) & _)%prepare_continue.
  apply rpcClient_continue in Hc as ((_ & _ & _ & H2 & _) & _).
  apply normalizeListeners_continue in Hn as (_ & _ & _ & H3 & _).
  split.
  - intros k Hk. rewrite H3, H2, H1; [done | apply not_elem_of_nil | | apply not_elem_of_nil].
    by intros ->%list_elem_of_singleton.
  - pose proof (resolveCredentials_agree (expandPaths w c3)) as (_ & _ & _ & He & _).
    intros k. apply He, not_elem_of_nil.
Qed.

(** X23: what the code does with the paths (lines 317-328 and 583-585).
    After a successful resolution with [appdata] explicitly set, the resolved
    [appdata] is the expansion ([cleanAndExpandPath]) of the value given, and
    the resolved [rpckey] (respectively [rpccert]), when not explicitly set
    itself, is the expansion of [rpc.key] (respectively [rpc.cert]) joined to
    the resolved [appdata]: the derived path is expanded once more.  When
    [rpckey] or [rpccert] is explicitly set, its resolved value is the
    expansion of the value given, whatever [appdata] is.  A tracked value is
    explicitly set exactly when the command line or the config file assigns
    it. *)
Theorem rpc_paths_follow_appdata w merged rest cfe cfg rest' :
  snd (mergeLayers w) = Continue (merged, rest, cfe) ->
  snd (loadConfig w) = Continue (cfg, rest') ->
  (exists cli,
      flags_Parse w = inr (cli, rest)
      /\ forall o,
           ExplicitlySet (expls merged o)
           = supplies cli (OExpl o)
             || supplies (fileLayer w (configFilePathOf w (applyLayer cli (defaultConfig w))))
                  (OExpl o))
  /\ (ExplicitlySet (expls merged AppDataDir) = true ->
      Value (expls cfg AppDataDir) = cleanAndExpandPath w (Value (expls merged AppDataDir))
      /\ (ExplicitlySet (expls merged RPCKey) = false ->
          Value (expls cfg RPCKey)
          = cleanAndExpandPath w (filepath_Join w (Value (expls cfg AppDataDir)) "rpc.key"))
      /\ (ExplicitlySet (expls merged RPCCert) = false ->
          Value (expls cfg RPCCert)
          = cleanAndExpandPath w (filepath_Join w (Value (expls cfg AppDataDir)) "rpc.cert")))
  /\ (ExplicitlySet (expls merged RPCKey) = true ->
      Value (expls cfg RPCKey) = cleanAndExpandPath w (Value (expls merged RPCKey)))
  /\ (ExplicitlySet (expls merged RPCCert) = true ->
      Value (expls cfg RPCCert) = cleanAndExpandPath w (Value (expls merged RPCCert))).
Proof.
  intros Hm H. split.
  { destruct (mergeLayers_merged _ _ _ _ Hm) as (cli & Hparse & ->).
    exists cli. split; [done |]. intros o. apply mergedConfig_explicit. }
  apply loadConfig_paths in H as (merged' & cfe' & c1 & net & c3 & Hm' & _ & Hrd & Hcfg).
  rewrite Hm in Hm'. injection Hm' as <- <- <-.
  destruct (expandPaths_values w c3) as (Hkey & Hcert & _ & Happ).
  destruct (resolvedDataDir_values w merged) as (Hset & Hkeep & Hkeep').
  rewrite !Hcfg, Hkey, Hcert, Happ, !Hrd by discriminate.
  split; [| split].
  - intros Hexpl. destruct (Hset Hexpl) as (-> & Hk & Hc).
    split; [done |]. split; intros Hunset.
    + by rewrite Hk.
    + by rewrite Hc.
  - intros Hexpl. by rewrite Hkeep.
  - intros Hexpl. by rewrite Hkeep'.
Qed.

Lemma rpc_paths_follow_appdata_witness :
  Value (expls (resolved (Unix.world dataDirSetup)) AppDataDir) = "/data/pkt"
  /\ Value (expls (resolved (Unix.world dataDirSetup)) RPCKey) = "/data/pkt/rpc.key"
  /\ Value (expls (resolved (Unix.world dataDirSetup)) RPCCert) = "/home/user/tls/my.cert".
Proof.
  destruct (rpc_paths_follow_appdata (Unix.world dataDirSetup)
              (mergedAt306 (Unix.world dataDirSetup)) [] None
              (resolved (Unix.world dataDirSetup)) [])
    as (_ & Happ & _ & Hcert); [vm_compute; reflexivity .. |].
  destruct Happ as (Ha & Hkey & _); [vm_compute; reflexivity |].
  rewrite Hkey by (vm_compute; reflexivity).
  rewrite Hcert by (vm_compute; reflexivity).
  rewrite Ha. vm_compute. done.
Defined.

(** *** C9 *)

Lemma resolveCredentials_values c :
  let c' := resolveCredentials c in
  strs c' Username
  = (if isEmpty (strs c Username) then strs c OldUsername else strs c Username)
  /\ strs c' Password
     = (if isEmpty (strs c Password) then strs c OldPassword else strs c Password)
  /\ strs c' BtcdUsername
     = (if isEmpty (strs c BtcdUsername) then strs c' Username else strs c BtcdUsername)
  /\ strs c' BtcdPassword
     = (if isEmpty (strs c BtcdPassword) then strs c' Password else strs c BtcdPassword).
Proof.
  unfold resolveCredentials.
  destruct (isEmpty (strs c Username)) eqn:Hu; cbv zeta;
    repeat first [ rewrite setStr_same | rewrite setStr_other by discriminate ];
    destruct (isEmpty (strs c Password)) eqn:Hp;
    repeat first [ rewrite setStr_same | rewrite setStr_other by discriminate ];
    destruct (isEmpty (strs c BtcdUsername)) eqn:Hbu;
    repeat first [ rewrite setStr_same | rewrite setStr_other by discriminate ];
    destruct (isEmpty (strs c BtcdPassword)) eqn:Hbp;
    repeat first [ rewrite setStr_same | rewrite setStr_other by discriminate ];
    rewrite ?Hu, ?Hp, ?Hbu, ?Hbp; done.
Qed.

(** The strings at the end, in terms of the merged ones. *)
Lemma loadConfig_strings w merged rest cfe cfg rest' :
  snd (mergeLayers w) = Continue (merged, rest, cfe) ->
  snd (loadConfig w) = Continue (cfg, rest') ->
  exists c, cfg = resolveCredentials c
            /\ forall k, k <> LogDir -> k <> RPCConnect -> strs c k = strs merged k.
Proof.
  intros Hm H. apply loadConfig_continue in H
    as (merged' & cfe' & c1 & net & c2 & c3 & Hm' & Hp & _ & Hc & Hn & _ & ->).
  rewrite Hm in Hm'. injection Hm' as <- <- <-.
  exists (expandPaths w c3). split; [done |]. intros k Hlog Hrpc.
  apply prepare_continue in Hp as (_ & _ & _ & (_ & _ & H1 & _)).
  apply rpcClient_continue in Hc as ((_ & _ & H2 & _) & _).
  apply normalizeListeners_continue in Hn as (_ & _ & H3 & _).
  change (strs (expandPaths w c3) k) with (strs c3 k).
  rewrite H3, H2, H1; [done | | | apply not_elem_of_nil];
    by intros ->%list_elem_of_singleton.
Qed.

(** the text of a string option at line 306, in terms of the layers *)
Lemma supplied_str l o v : supplied l (OStr o) = Some v -> exists s, v = VStr s.
Proof.
  induction l as [| s l IH]; [done |]. simpl.
  destruct (supplied l (OStr o)) as [v' |]; [intros [= <-]; by apply IH |].
  destruct s; simpl; try done. case_decide; [| done]. intros [= <-]. by eexists.
Qed.

Lemma siblingGives_str w cli o v :
  siblingGives w cli (OStr o) = Some v -> exists s, v = VStr s.
Proof.
  unfold siblingGives. cbv zeta.
  destruct (negb _ && negb _); [done |].
  destruct (pktconfig_ReadUserPass w _); [| done].
  destruct (2 <=? _)%nat; [| done].
  destruct o; try done; intros [= <-]; by eexists.
Qed.

Lemma mergedConfig_str w cli o :
  strs (mergedConfig w cli) o
  = default (default (strs (defaultConfig w) o) (pktdConfText w cli o))
      (suppliedText cli
         (fileLayer w (configFilePathOf w (applyLayer cli (defaultConfig w)))) o).
Proof.
  pose proof (mergedConfig_layered w cli (OStr o)) as H.
  unfold layered, suppliedText, strGiven, pktdConfText in *. simpl in H.
  destruct (supplied cli (OStr o)) as [v |] eqn:Hcli.
  { apply supplied_str in Hcli as [s ->]. by injection H. }
  destruct (supplied (fileLayer _ _) (OStr o)) as [v |] eqn:Hfile.
  { apply supplied_str in Hfile as [s ->]. by injection H. }
  destruct (siblingGives w cli (OStr o)) as [v |] eqn:Hseed.
  { apply siblingGives_str in Hseed as [s ->]. by injection H. }
  by injection H.
Qed.

Lemma pktdConfText_daemon_only w cli o :
  o <> BtcdUsername -> o <> BtcdPassword -> pktdConfText w cli o = None.
Proof.
  intros Hu Hp. unfold pktdConfText, siblingGives. cbv zeta.
  destruct (negb _ && negb _); [done |].
  destruct (pktconfig_ReadUserPass w _); [| done].
  destruct (2 <=? _)%nat; [| done].
  by destruct o.
Qed.

(** C9, the claim as stated fails: with [--rpcuser=bob] and a pktd.conf that
    holds [alice] and [secret], nothing supplies [pktdusername] or
    [pktdpassword], yet the daemon's user is [alice], not the resolved client
    user [bob], and its password is [secret], not the empty client password:
    lines 278-281 seed both from pktd.conf. *)
Lemma C9_daemon_credentials_from_pktd_conf :
  (exists cfg,
      snd (loadConfig (Unix.world pktdConfSetup)) = Continue (cfg, [])
      /\ suppliedText [SetStr Username "bob"]
           (fileLayer (Unix.world pktdConfSetup)
              (configFilePathOf (Unix.world pktdConfSetup)
                 (applyLayer [SetStr Username "bob"]
                    (defaultConfig (Unix.world pktdConfSetup)))))
           BtcdUsername = None
      /\ strs cfg Username = "bob"
      /\ strs cfg Password = ""
      /\ strs cfg BtcdUsername = "alice"
      /\ strs cfg BtcdPassword = "secret")
  /\ ~ daemonFollowsSupplied (Unix.world pktdConfSetup).
Proof.
  split; [vm_compute; by eexists |].
  intros H.
  destruct (H (resolved (Unix.world pktdConfSetup)) [] [SetStr Username "bob"])
    as [Huser _]; [vm_compute; reflexivity .. |].
  vm_compute in Huser. discriminate.
Qed.

(** C9 (amended): after a successful resolution, [rpcuser] (respectively
    [rpcpass]) is the text supplied for it, by the command line or else by
    the config file, when that is not empty, and the text supplied for the
    alias [username] ([password]) otherwise.  [pktdusername] (respectively
    [pktdpassword]) is the text supplied for it when one is supplied, else
    the first (second) entry of pktd.conf when pktd.conf is read and holds
    two entries; when that text is empty, or there is none, it is the
    resolved [rpcuser] ([rpcpass]).  pktd.conf is read unless the command
    line gives both [rpcuser] and [rpcpass]. *)
Theorem credentials_fall_back w cfg rest :
  snd (loadConfig w) = Continue (cfg, rest) ->
  exists cli,
    flags_Parse w = inr (cli, rest)
    /\ let file := fileLayer w (configFilePathOf w (applyLayer cli (defaultConfig w))) in
       let client o := default "" (suppliedText cli file o) in
       let daemon o :=
         default (default "" (pktdConfText w cli o)) (suppliedText cli file o) in
       strs cfg Username
       = (if isEmpty (client Username) then client OldUsername else client Username)
       /\ strs cfg Password
          = (if isEmpty (client Password) then client OldPassword else client Password)
       /\ strs cfg BtcdUsername
          = (if isEmpty (daemon BtcdUsername)
             then strs cfg Username else daemon BtcdUsername)
       /\ strs cfg BtcdPassword
          = (if isEmpty (daemon BtcdPassword)
             then strs cfg Password else daemon BtcdPassword)
       /\ (forall o,
             pktdConfText w cli o
             = if negb (isEmpty (default "" (strGiven cli Username)))
                  && negb (isEmpty (default "" (strGiven cli Password)))
               then None
               else
                 match pktconfig_ReadUserPass w (pktdDefaultConf w) with
                 | inl userpass =>
                     if (2 <=? length userpass)%nat then
                       match o with
                       | BtcdUsername => Some (nth 0 userpass "")
                       | BtcdPassword => Some (nth 1 userpass "")
                       | _ => None
                       end
                     else None
                 | inr _ => None
                 end).
Proof.
  intros H.
  pose proof H as (merged & cfe & _ & _ & _ & _ & Hm & _)%loadConfig_continue.
  destruct (mergeLayers_merged _ _ _ _ Hm) as (cli & Hparse & Hmerged).
  exists cli. split; [done |]. intros file client daemon.
  destruct (loadConfig_strings _ _ _ _ _ _ Hm H) as (c & -> & Hc).
  destruct (resolveCredentials_values c) as (Hu & Hp & Hbu & Hbp).
  assert (forall o, o <> BtcdUsername -> o <> BtcdPassword ->
                    strs (defaultConfig w) o = "" -> strs merged o = client o) as Hclient.
  { intros o H1 H2 Hdef. subst merged. rewrite mergedConfig_str.
    rewrite pktdConfText_daemon_only, Hdef by done. done. }
  assert (forall o, strs (defaultConfig w) o = "" -> strs merged o = daemon o) as Hdaemon.
  { intros o Hdef. subst merged. rewrite mergedConfig_str, Hdef. done. }
  rewrite Hu, Hp, Hbu, Hbp, Hu, Hp, !Hc by discriminate.
  rewrite !Hclient, !Hdaemon by done.
  repeat (split; [done |]).
  intros o. unfold pktdConfText, siblingGives. cbv zeta.
  assert (forall k, strs (applyLayer cli (defaultConfig w)) k
                    = default (strs (defaultConfig w) k) (strGiven cli k)) as Hpre.
  { intros k. pose proof (readOpt_applyLayer cli (defaultConfig w) (OStr k)) as Hr.
    unfold strGiven. simpl in Hr.
    destruct (supplied cli (OStr k)) as [v |] eqn:Hs; simpl in Hr; [| by injection Hr].
    apply supplied_str in Hs as [s ->]. by injection Hr. }
  rewrite !Hpre. change (strs (defaultConfig w) Username) with "".
  change (strs (defaultConfig w) Password) with "".
  destruct (negb _ && negb _); [done |].
  destruct (pktconfig_ReadUserPass w (pktdDefaultConf w)) as [userpass | err]; [| done].
  destruct (2 <=? length userpass)%nat; [| done].
  by destruct o.
Qed.

Lemma credentials_fall_back_witness :
  (strs (resolved (Unix.world aliasSetup)) Username = "bob"
   /\ strs (resolved (Unix.world aliasSetup)) Password = "hunter2"
   /\ strs (resolved (Unix.world aliasSetup)) BtcdUsername = "bob"
   /\ strs (resolved (Unix.world aliasSetup)) BtcdPassword = "daemon")
  /\ (strs (resolved (Unix.world pktdConfSetup)) Username = "bob"
      /\ strs (resolved (Unix.world pktdConfSetup)) Password = ""
      /\ strs (resolved (Unix.world pktdConfSetup)) BtcdUsername = "alice"
      /\ strs (resolved (Unix.world pktdConfSetup)) BtcdPassword = "secret").
Proof.
  split.
  - destruct (credentials_fall_back (Unix.world aliasSetup)
                (resolved (Unix.world aliasSetup)) [])
      as (cli & Hparse & Hu & Hp & Hbu & Hbp & _); [vm_compute; reflexivity |].
    assert (cli = [SetStr OldUsername "bob"; SetStr Password "hunter2";
                   SetStr OldPassword "old"; SetStr BtcdPassword "daemon"]) as ->
      by (vm_compute in Hparse; congruence).
    rewrite Hbu, Hbp, Hu, Hp. vm_compute. done.
  - destruct (credentials_fall_back (Unix.world pktdConfSetup)
                (resolved (Unix.world pktdConfSetup)) [])
      as (cli & Hparse & Hu & Hp & Hbu & Hbp & _); [vm_compute; reflexivity |].
    assert (cli = [SetStr Username "bob"]) as -> by (vm_compute in Hparse; congruence).
    rewrite Hbu, Hbp, Hu, Hp. vm_compute. done.
Defined.

(** *** C10 *)

Lemma countNets_bools w c c' : bools c = bools c' -> countNets w c = countNets w c'.
Proof. unfold countNets. by intros ->. Qed.

(** C10: after a successful resolution with [userpc] false, [rpcconnect] is
    the merged value as it is, empty or not, and the CA file is the expansion
    of the merged [cafile]: no default host or port, no normalization, no CA
    file chosen.  With [userpc] true, [rpcconnect] is the normalization, with
    the active network's client port, of the merged value, or of localhost
    with that port when the merged value is empty. *)
Theorem rpcconnect_untouched_without_userpc w merged rest cfe cfg rest' :
  snd (mergeLayers w) = Continue (merged, rest, cfe) ->
  snd (loadConfig w) = Continue (cfg, rest') ->
  (bools merged UseRPC = false ->
   strs cfg RPCConnect = strs merged RPCConnect
   /\ Value (expls cfg CAFile) = cleanAndExpandPath w (Value (expls merged CAFile)))
  /\ (bools merged UseRPC = true ->
      let port := RPCClientPort (fst (countNets w merged)) in
      cfgutil_NormalizeAddress w
        (if isEmpty (strs merged RPCConnect)
         then net_JoinHostPort w "localhost" port
         else strs merged RPCConnect)
        port
      = inl (strs cfg RPCConnect)).
Proof.
  intros Hm H. apply loadConfig_continue in H
    as (merged' & cfe' & c1 & net & c2 & c3 & Hm' & Hp & _ & Hc & Hn & _ & ->).
  rewrite Hm in Hm'. injection Hm' as <- <- <-.
  apply prepare_continue in Hp as (-> & _ & _ & (Hb1 & _ & Hs1 & He1 & _)).
  pose proof (resolvedDataDir_agree w merged) as (Hbrd & _).
  apply rpcClient_continue in Hc as (_ & Hoff & Hon).
  apply normalizeListeners_continue in Hn as (_ & _ & Hs3 & He3 & _).
  destruct (expandPaths_values w c3) as (_ & _ & Hca & _).
  pose proof (resolveCredentials_agree (expandPaths w c3)) as (_ & _ & Hs4 & He4 & _).
  rewrite Hs4 by not_elem. rewrite He4 by not_elem.
  change (strs (expandPaths w c3) RPCConnect) with (strs c3 RPCConnect).
  rewrite Hca, Hs3, He3 by not_elem.
  rewrite (countNets_bools w _ merged Hbrd) in Hon.
  rewrite Hb1 in Hoff, Hon. split.
  - intros Huse. rewrite (Hoff Huse). split; [apply Hs1; not_elem |].
    rewrite He1 by not_elem. done.
  - intros Huse. cbv zeta. rewrite <- (Hon Huse). f_equal.
    rewrite Hs1 by not_elem. done.
Qed.

Lemma rpcconnect_untouched_without_userpc_witness :
  strs (resolved (Unix.world connectSetup)) RPCConnect = "example.org"
  /\ Value (expls (resolved (Unix.world connectSetup)) CAFile) = ".".
Proof.
  destruct (rpcconnect_untouched_without_userpc (Unix.world connectSetup)
              (mergedAt306 (Unix.world connectSetup)) [] None
              (resolved (Unix.world connectSetup)) [])
    as (Hoff & _); [vm_compute; reflexivity .. |].
  destruct Hoff as (-> & ->); vm_compute; done.
Defined.

(** ** Further properties of [loadConfig] *)

(** case analysis on the innermost test of a hypothesis about an outcome *)
Ltac innermost H :=
  match type of H with
  | context [match ?x with _ => _ end] =>
      lazymatch x with
      | context [match _ with _ => _ end] => fail
      | _ => destruct x eqn:?
      end
  end.

Ltac outcomes H :=
  repeat first
    [ discriminate H
    | rewrite snd_bind in H
    | progress cbn [snd ret mret M_ret emit returnErr osExit orReturn printErr] in H
    | innermost H ].

Lemma writeHelpUnlessHelp_continues e : snd (writeHelpUnlessHelp e) = Continue tt.
Proof. unfold writeHelpUnlessHelp. by destruct (negb (is_ErrHelp e)). Qed.

(** X1: when go-flags rejects the command line at the pre-parse (lines
    231-241), resolution returns that error at once, whatever the files hold.
    go-flags has printed the error itself, the help message on stdout and any
    other error on stderr; [loadConfig] adds the usage on stderr, unless the
    error is the request for help, and prints nothing else. *)
Theorem parse_error_is_returned w e :
  flags_Parse w = inl e ->
  loadConfig w
  = (if is_ErrHelp e then [Stdout (emsg e)] else [Stderr (emsg e); WriteHelp],
     ReturnErr (Some e)).
Proof.
  intros H.
  unfold loadConfig, mergeLayers, flags_printError, writeHelpUnlessHelp, printErr.
  rewrite H. by destruct (is_ErrHelp e).
Qed.

(** X2: with the version flag on the command line (lines 243-249) the only
    effect is one line on stdout, the program name without its extension,
    the word version and the version, followed by [os.Exit(0)], whatever the
    files hold and the other options ask for. *)
Theorem version_exits_first w cli rest :
  flags_Parse w = inr (cli, rest) ->
  supplied cli (OBool ShowVersion) = Some (VBool true) ->
  let appName := filepath_Base w (os_Args0 w) in
  let appName := GoString.TrimSuffix appName (filepath_Ext w appName) in
  loadConfig w
  = ([Stdout (appName +:+ " version " +:+ version_Version w)], OsExit 0).
Proof.
  intros Hparse Hver appName appName'.
  assert (bools (applyLayer cli (defaultConfig w)) ShowVersion = true) as Hset.
  { pose proof (readOpt_applyLayer cli (defaultConfig w) (OBool ShowVersion)) as H.
    rewrite Hver in H. by injection H. }
  unfold loadConfig, mergeLayers. rewrite Hparse. cbv zeta.
  rewrite ret_bind, Hset. by exec.
Qed.

Lemma mergeLayers_exit w c :
  snd (mergeLayers w) = OsExit c ->
  c = 0 /\ exists cli rest,
             flags_Parse w = inr (cli, rest)
             /\ bools (applyLayer cli (defaultConfig w)) ShowVersion = true.
Proof.
  unfold mergeLayers, seedFromPktdConf, loadConfigFile, flags_printError,
    writeHelpUnlessHelp, orReturn.
  intros H. outcomes H; injection H as <-; eauto.
Qed.

Lemma prepare_no_exit w cfg c : snd (prepare w cfg) <> OsExit c.
Proof.
  unfold prepare, resolveDataDir, selectNetwork, setupLogging, orReturn.
  intros H. outcomes H.
Qed.

Lemma bootstrapWallet_exit w cfg net c :
  snd (bootstrapWallet w cfg net) = OsExit c ->
  c = 0 /\ (bools cfg CreateTemp = true \/ bools cfg Create = true).
Proof.
  unfold bootstrapWallet, bootstrapDecision, orReturn.
  intros H. outcomes H; injection H as <-;
    repeat match goal with
           | E : _ && _ = true |- _ => apply andb_true_iff in E as [? ?]
           end; auto.
Qed.

Lemma rejectSeen_no_exit seen addrs c : snd (rejectSeen seen addrs) <> OsExit c.
Proof.
  induction addrs as [| a l IH]; simpl; [done |].
  by destruct (bool_decide (a ∈ seen)).
Qed.

Lemma rpcClient_no_exit w cfg net c : snd (rpcClient w cfg net) <> OsExit c.
Proof.
  unfold rpcClient, chooseCAFile, orReturn. intros H. outcomes H.
Qed.

Lemma normalizeListeners_no_exit w cfg net c :
  snd (normalizeListeners w cfg net) <> OsExit c.
Proof.
  unfold normalizeListeners, orReturn. intros H. outcomes H.
Qed.

Lemma finishConfig_no_exit w cfg net rest cfe c :
  snd (finishConfig w cfg net rest cfe) <> OsExit c.
Proof.
  unfold finishConfig. rewrite snd_bind.
  destruct (snd (rpcClient w cfg net)) as [c2 | e | c'] eqn:Hc;
    [| done | by apply rpcClient_no_exit in Hc].
  rewrite snd_bind.
  destruct (snd (normalizeListeners w c2 net)) as [c3 | e | c'] eqn:Hn;
    [| done | by apply normalizeListeners_no_exit in Hn].
  rewrite snd_bind. unfold checkSharedListeners.
  destruct (_ && _).
  - destruct (snd (rejectSeen _ _)) as [[] | e | c'] eqn:Hr;
      [| done | by apply rejectSeen_no_exit in Hr].
    rewrite snd_bind. by destruct cfe.
  - cbn [snd ret mret M_ret]. rewrite snd_bind. by destruct cfe.
Qed.

(** X3: [loadConfig] ends the process only with status 0, and only when the
    command line asks for the version or the merged options have
    [createtemp] or [create] set. *)
Theorem exits_only_with_success_status w c :
  snd (loadConfig w) = OsExit c ->
  c = 0
  /\ ((exists cli rest,
         flags_Parse w = inr (cli, rest)
         /\ bools (applyLayer cli (defaultConfig w)) ShowVersion = true)
      \/ (exists merged rest cfe,
            snd (mergeLayers w) = Continue (merged, rest, cfe)
            /\ (bools merged CreateTemp = true \/ bools merged Create = true))).
Proof.
  unfold loadConfig. rewrite snd_bind.
  destruct (snd (mergeLayers w)) as [[[merged rest] cfe] | e | c'] eqn:Hm;
    [| done | intros [= <-]; apply mergeLayers_exit in Hm as [-> Hv]; auto].
  rewrite snd_bind.
  destruct (snd (prepare w merged)) as [[cfg net] | e | c'] eqn:Hp;
    [| done | by apply prepare_no_exit in Hp].
  rewrite snd_bind.
  destruct (snd (bootstrapWallet w cfg net)) as [[] | e | c'] eqn:Hb; [| done |].
  - intros H. by apply finishConfig_no_exit in H.
  - intros [= <-]. apply bootstrapWallet_exit in Hb as [-> Hb].
    apply prepare_continue in Hp as (_ & _ & _ & (Hbools & _)).
    rewrite Hbools in Hb. split; [done |]. right. by exists merged, rest, cfe.
Qed.

Lemma exits_only_with_success_status_witness :
  snd (loadConfig (Unix.world (Unix.machine [SetBool Create true] []))) = OsExit 0.
Proof.
  destruct (snd (loadConfig (Unix.world (Unix.machine [SetBool Create true] []))))
    as [a | e | c] eqn:H; [by vm_compute in H .. |].
  by destruct (exits_only_with_success_status _ _ H) as [-> _].
Defined.

(** what the wallet bootstrap has established when it continues *)
Lemma bootstrapWallet_continue w cfg net :
  snd (bootstrapWallet w cfg net) = Continue tt ->
  bools cfg Create = false
  /\ (bools cfg CreateTemp = true ->
      bools cfg SimNet = true
      /\ ExplicitlySet (expls cfg AppDataDir) || ExplicitlySet (expls cfg DataDir) = true)
  /\ (bools cfg CreateTemp = false ->
      bools cfg NoInitialLoad = true
      \/ cfgutil_FileExists w
           (wallet_WalletDbPath w (networkDir w (Value (expls cfg AppDataDir)) net)
              (strs cfg Wallet))
         = inl true).
Proof.
  unfold bootstrapWallet, bootstrapDecision, orReturn.
  intros H. outcomes H;
    rewrite ?andb_true_iff, ?andb_false_iff, ?negb_true_iff, ?negb_false_iff in *;
    intuition (subst; congruence).
Qed.

(** after [prepare], nothing but the derived options changes *)
Lemma loadConfig_agree_prepared w cfg rest :
  snd (loadConfig w) = Continue (cfg, rest) ->
  exists merged cfe c1 net,
    snd (mergeLayers w) = Continue (merged, rest, cfe)
    /\ snd (prepare w merged) = Continue (c1, net)
    /\ snd (bootstrapWallet w c1 net) = Continue tt
    /\ agreeExcept [RPCConnect; Username; Password; BtcdUsername; BtcdPassword]
         [CAFile; RPCCert; RPCKey]
         [LegacyRPCListeners; ExperimentalRPCListeners] c1 cfg.
Proof.
  intros H. apply loadConfig_continue in H
    as (merged & cfe & c1 & net & c2 & c3 & Hm & Hp & Hb & Hc & Hn & _ & ->).
  exists merged, cfe, c1, net. split; [done |]. split; [done |]. split; [done |].
  apply rpcClient_continue in Hc as (Hc & _).
  apply normalizeListeners_continue in Hn.
  pose proof (expandPaths_agree w c3) as He.
  pose proof (resolveCredentials_agree (expandPaths w c3)) as Hr.
  repeat (eapply agree_trans;
          [| eapply agree_weaken; [| | | eassumption]; included]).
  apply agree_refl.
Qed.

(** X4: what a caller can rely on after a successful resolution: [create] is
    off (a successful creation exits, lines 437-454); [createtemp] is on only
    on simnet and with a data directory given explicitly (lines 381-395);
    without [createtemp], either [noinitialload] is on or the wallet database
    of the active network exists (lines 455-471). *)
Theorem resolved_wallet_invariants w cfg rest :
  snd (loadConfig w) = Continue (cfg, rest) ->
  bools cfg Create = false
  /\ (bools cfg CreateTemp = true ->
      bools cfg SimNet = true
      /\ ExplicitlySet (expls cfg AppDataDir) || ExplicitlySet (expls cfg DataDir) = true)
  /\ (bools cfg CreateTemp = false ->
      bools cfg NoInitialLoad = true
      \/ cfgutil_FileExists w
           (wallet_WalletDbPath w
              (networkDir w (Value (expls cfg AppDataDir)) (fst (countNets w cfg)))
              (strs cfg Wallet))
         = inl true).
Proof.
  intros H. apply loadConfig_agree_prepared in H
    as (merged & cfe & c1 & net & _ & Hp & Hb & (Hbools & _ & Hs & He & Hx & _)).
  apply bootstrapWallet_continue in Hb.
  apply prepare_continue in Hp as (-> & _ & (Hb1 & _) & _).
  rewrite (countNets_bools w cfg (resolvedDataDir w merged)) by congruence.
  unfold ExplicitlySet in *.
  rewrite Hbools, !Hx, (He AppDataDir), (Hs Wallet) by not_elem. done.
Qed.

Lemma resolved_wallet_invariants_witness :
  bools (resolved (Unix.world (Unix.plain []))) Create = false.
Proof.
  eapply (resolved_wallet_invariants (Unix.world (Unix.plain [])) _ []).
  vm_compute. reflexivity.
Defined.

(** X5: [--create] without [--createtemp], once the network directory is
    ensured (lines 437-454): an existing wallet database is an error naming
    its path and the creation is not run; otherwise the creation runs and the
    process exits with status 0, or its error is printed and returned. *)
Theorem create_wallet w cfg net rest cfe :
  snd (reachBootstrap w) = Continue (cfg, net, rest, cfe) ->
  bools cfg Create = true ->
  bools cfg CreateTemp = false ->
  let netDir := networkDir w (Value (expls cfg AppDataDir)) net in
  let dbPath := wallet_WalletDbPath w netDir (strs cfg Wallet) in
  checkCreateDir w netDir = None ->
  (cfgutil_FileExists w dbPath = inl true ->
   loadConfig w
   = (fst (reachBootstrap w)
        ++ [EnsuredDir netDir; Stderr (emsg (walletExistsError dbPath))],
      ReturnErr (Some (walletExistsError dbPath))))
  /\ (cfgutil_FileExists w dbPath = inl false ->
      loadConfig w
      = match createWallet w cfg with
        | None => (fst (reachBootstrap w) ++ [EnsuredDir netDir; RanCreateWallet], OsExit 0)
        | Some err =>
            (fst (reachBootstrap w)
               ++ [EnsuredDir netDir; RanCreateWallet;
                   Stderr ("Unable to create wallet: " +:+ emsg err)],
             ReturnErr (Some err))
        end).
Proof.
  intros H Hcreate Htemp netDir dbPath Hensure.
  rewrite (loadConfig_from_bootstrap _ _ _ _ _ H).
  unfold fromBootstrap, bootstrapWallet, bootstrapDecision.
  rewrite Htemp, Hcreate, !andb_false_r. cbv zeta.
  fold netDir. fold dbPath. rewrite Hensure.
  split; intros ->; [by exec |].
  destruct (createWallet w cfg); by exec.
Qed.

Lemma create_wallet_witness :
  snd (loadConfig (Unix.world (Unix.plain [SetBool Create true])))
  = ReturnErr (Some (walletExistsError "/home/user/.pktwallet/pkt/wallet.db"))
  /\ loadConfig (Unix.world (Unix.machine [SetBool Create true] []))
     = ([SelectedGlobalConfig "pkt"; EnsuredDir "/home/user/.pktwallet/pkt";
         RanCreateWallet], OsExit 0).
Proof.
  split.
  - edestruct (create_wallet (Unix.world (Unix.plain [SetBool Create true])))
      as [Hexists _]; [vm_compute; reflexivity .. |].
    rewrite Hexists by (vm_compute; reflexivity). vm_compute. reflexivity.
  - edestruct (create_wallet (Unix.world (Unix.machine [SetBool Create true] [])))
      as [_ Habsent]; [vm_compute; reflexivity .. |].
    rewrite Habsent by (vm_compute; reflexivity). vm_compute. reflexivity.
Defined.

(** X6: with neither [create] nor [createtemp], a wallet database that exists,
    or [noinitialload], lets resolution go on with the RPC settings after
    the network directory is ensured: nothing is created and nothing about
    the wallet is printed (lines 420-455). *)
Theorem wallet_load_is_deferred w cfg net rest cfe dbFileExists :
  snd (reachBootstrap w) = Continue (cfg, net, rest, cfe) ->
  bools cfg Create = false ->
  bools cfg CreateTemp = false ->
  let netDir := networkDir w (Value (expls cfg AppDataDir)) net in
  let dbPath := wallet_WalletDbPath w netDir (strs cfg Wallet) in
  let rest473 := finishConfig w cfg net rest cfe in
  cfgutil_FileExists w dbPath = inl dbFileExists ->
  dbFileExists || bools cfg NoInitialLoad = true ->
  checkCreateDir w netDir = None ->
  loadConfig w
  = (fst (reachBootstrap w) ++ [EnsuredDir netDir] ++ fst rest473, snd rest473).
Proof.
  intros H Hcreate Htemp netDir dbPath rest473 Hdb Hdefer Hensure.
  rewrite (loadConfig_from_bootstrap _ _ _ _ _ H).
  unfold fromBootstrap, bootstrapWallet, bootstrapDecision.
  rewrite Htemp, Hcreate, !andb_false_r. cbv zeta.
  fold netDir. fold dbPath. fold rest473. rewrite Hdb, Hensure.
  clearbody rest473. destruct rest473 as [out473 r473].
  destruct dbFileExists; [by exec |].
  simpl in Hdefer. rewrite Hdefer. by exec.
Qed.

Lemma wallet_load_is_deferred_witness :
  exists out,
    fst (loadConfig (Unix.world (Unix.machine [SetBool NoInitialLoad true] [])))
    = [SelectedGlobalConfig "pkt"; EnsuredDir "/home/user/.pktwallet/pkt"] ++ out.
Proof.
  erewrite (wallet_load_is_deferred
              (Unix.world (Unix.machine [SetBool NoInitialLoad true] [])) _ _ _ _ false);
    [| vm_compute; reflexivity ..].
  vm_compute. by eexists.
Defined.

(** X7: [--createtemp] without an explicit [appdata] or [datadir], or on a
    network other than simnet, prints the matching message on stderr and
    exits with status 0 (lines 381-395); the missing data directory is
    reported first. *)
Theorem createtemp_needs_datadir_and_simnet w cfg net rest cfe :
  snd (reachBootstrap w) = Continue (cfg, net, rest, cfe) ->
  bools cfg CreateTemp = true ->
  (ExplicitlySet (expls cfg AppDataDir) || ExplicitlySet (expls cfg DataDir))
  && bools cfg SimNet = false ->
  loadConfig w
  = (fst (reachBootstrap w)
       ++ [Stderr (if ExplicitlySet (expls cfg AppDataDir)
                      || ExplicitlySet (expls cfg DataDir)
                   then notSimNetMessage else noDataDirMessage)],
     OsExit 0).
Proof.
  intros H Htemp Hguard.
  rewrite (loadConfig_from_bootstrap _ _ _ _ _ H).
  unfold fromBootstrap, bootstrapWallet. rewrite Htemp.
  destruct (_ || _); [| by exec].
  simpl in Hguard. rewrite Hguard. by exec.
Qed.

Lemma createtemp_needs_datadir_and_simnet_witness :
  snd (loadConfig (Unix.world
         (Unix.plain [SetBool CreateTemp true; SetExpl DataDir "/tmp/sim";
                      SetBool PktTestNet true])))
  = OsExit 0.
Proof.
  erewrite createtemp_needs_datadir_and_simnet; [done | vm_compute; reflexivity ..].
Defined.

(** X8: without [createtemp], an error of the test for the wallet database, or
    of the creation of the network directory, is printed on stderr and
    returned (lines 408-418); the directory is not created when the test
    fails. *)
Theorem bootstrap_file_errors_are_returned w cfg net rest cfe err :
  snd (reachBootstrap w) = Continue (cfg, net, rest, cfe) ->
  bools cfg CreateTemp = false ->
  let netDir := networkDir w (Value (expls cfg AppDataDir)) net in
  let dbPath := wallet_WalletDbPath w netDir (strs cfg Wallet) in
  (cfgutil_FileExists w dbPath = inr err ->
   loadConfig w = (fst (reachBootstrap w) ++ [Stderr (emsg err)], ReturnErr (Some err)))
  /\ (forall dbFileExists,
        cfgutil_FileExists w dbPath = inl dbFileExists ->
        checkCreateDir w netDir = Some err ->
        loadConfig w
        = (fst (reachBootstrap w) ++ [EnsuredDir netDir; Stderr (emsg err)],
           ReturnErr (Some err))).
Proof.
  intros H Htemp netDir dbPath.
  rewrite (loadConfig_from_bootstrap _ _ _ _ _ H).
  unfold fromBootstrap, bootstrapWallet.
  rewrite Htemp, !andb_false_r. cbv zeta. fold netDir. fold dbPath.
  split; [intros -> | intros b -> ->]; by exec.
Qed.

Lemma countNets_single w c :
  (numNetFlags c <= 1)%nat -> fst (countNets w c) = flaggedNet w c.
Proof.
  unfold numNetFlags, netFlags, countNets, flaggedNet. simpl.
  destruct (bools c TestNet3), (bools c SimNet), (bools c PktTestNet),
    (bools c PktMainNet), (bools c BtcMainNet); simpl; intros H; try reflexivity; lia.
Qed.

(** X9: after a successful resolution the log directory is the merged [logdir],
    expanded and cleaned, with the name of the active network appended (lines
    369-372); the active network is the one of the single network flag that
    is set, or the default network (lines 332-352). *)
Theorem log_directory_is_per_network w merged rest cfe cfg rest' :
  snd (mergeLayers w) = Continue (merged, rest, cfe) ->
  snd (loadConfig w) = Continue (cfg, rest') ->
  strs cfg LogDir
  = filepath_Join w (cleanAndExpandPath w (strs merged LogDir))
      (Name (flaggedNet w merged)).
Proof.
  intros Hm H. apply loadConfig_agree_prepared in H
    as (merged' & cfe' & c1 & net & Hm' & Hp & _ & (_ & _ & Hs & _)).
  rewrite Hm in Hm'. injection Hm' as <- <- <-.
  rewrite Hs by not_elem.
  pose proof Hp as (-> & Hle & _ & _)%prepare_continue.
  pose proof (resolvedDataDir_agree w merged) as (Hb & _ & Hsrd & _).
  rewrite (countNets_bools w _ merged Hb), (countNets_single w merged Hle) in Hp.
  unfold prepare in Hp. rewrite snd_bind, resolveDataDir_continues in Hp.
  rewrite snd_bind in Hp.
  destruct (snd (selectNetwork w _)) as [net | |] eqn:Hnet; [| done | done].
  apply selectNetwork_continue in Hnet as [-> _].
  rewrite (countNets_bools w _ merged Hb), (countNets_single w merged Hle) in Hp.
  rewrite snd_bind in Hp.
  destruct (snd (setupLogging w _ _)) as [c1' | |] eqn:Hlog; [| done | done].
  apply setupLogging_continue in Hlog as [_ Hlog].
  injection Hp as ->. rewrite Hlog, Hsrd by apply not_elem_of_nil. done.
Qed.

Lemma log_directory_is_per_network_witness :
  strs (resolved (Unix.world logDirSetup)) LogDir = "/home/user/pktlogs/pkt".
Proof.
  rewrite (log_directory_is_per_network (Unix.world logDirSetup)
             (mergedAt306 (Unix.world logDirSetup)) [] None
             (resolved (Unix.world logDirSetup)) []);
    vm_compute; reflexivity.
Defined.

Lemma selectNetwork_single w c :
  (numNetFlags c <= 1)%nat ->
  selectNetwork w c
  = ([SelectedGlobalConfig (Name (flaggedNet w c))], Continue (flaggedNet w c)).
Proof.
  intros H. unfold selectNetwork.
  pose proof (countNets_numNetFlags w c) as Hn.
  pose proof (countNets_single w c H) as Hf.
  destruct (countNets w c) as [activeNet numNets]. simpl in Hn, Hf. subst.
  destruct (1 <? Z.of_nat (numNetFlags c)) eqn:Hlt; [| done].
  apply Z.ltb_lt in Hlt. lia.
Qed.

(** the output of [loadConfig] starts with that of the merge and of the
    data directory block *)
Lemma loadConfig_output_prefix w merged rest cfe :
  snd (mergeLayers w) = Continue (merged, rest, cfe) ->
  exists out,
    fst (loadConfig w) = fst (mergeLayers w) ++ fst (resolveDataDir w merged) ++ out.
Proof.
  intros Hm. unfold loadConfig, prepare.
  rewrite fst_bind, Hm. cbv beta iota.
  rewrite fst_bind, fst_bind. eexists. by rewrite <- app_assoc.
Qed.

(** X10: when [log.SetLogLevels] rejects the merged [debuglevel] (lines
    374-379), resolution prints its error and the usage and returns it; this
    happens after the network is selected and before the wallet is looked
    at. *)
Theorem invalid_debug_level_is_fatal w merged rest cfe err :
  snd (mergeLayers w) = Continue (merged, rest, cfe) ->
  (numNetFlags merged <= 1)%nat ->
  log_SetLogLevels w (strs merged DebugLevel) = Some err ->
  loadConfig w
  = (fst (mergeLayers w) ++ fst (resolveDataDir w merged)
       ++ [SelectedGlobalConfig (Name (flaggedNet w merged)); Stderr (emsg err); WriteHelp],
     ReturnErr (Some err)).
Proof.
  intros Hm Hle Hlog. unfold loadConfig.
  destruct (mergeLayers w) as [o1 r1]. simpl in Hm. subst r1.
  rewrite (bind_continue _ _ o1 (merged, rest, cfe) eq_refl). cbv beta iota.
  assert (prepare w merged
          = (fst (resolveDataDir w merged)
               ++ [SelectedGlobalConfig (Name (flaggedNet w merged));
                   Stderr (emsg err); WriteHelp],
             ReturnErr (Some err))) as Hp.
  { unfold prepare.
    pose proof (resolveDataDir_continues w merged) as Hrd.
    pose proof (resolvedDataDir_agree w merged) as (Hb & _ & Hs & _).
    destruct (resolveDataDir w merged) as [o rd]. simpl in Hrd. subst rd.
    rewrite (bind_continue _ _ o (resolvedDataDir w merged) eq_refl).
    assert (numNetFlags (resolvedDataDir w merged) <= 1)%nat as Hle'.
    { unfold numNetFlags in *. by rewrite Hb. }
    assert (flaggedNet w (resolvedDataDir w merged) = flaggedNet w merged) as Hf.
    { unfold flaggedNet. by rewrite Hb. }
    rewrite (bind_continue _ _ _ _ (selectNetwork_single w _ Hle')).
    unfold setupLogging. cbv zeta.
    rewrite !setStr_other by discriminate. rewrite Hs by apply not_elem_of_nil.
    rewrite Hlog, Hf. by exec. }
  rewrite (bind_returnErr _ _ _ _ Hp). simpl. by rewrite app_assoc.
Qed.

Lemma invalid_debug_level_is_fatal_witness :
  loadConfig (Unix.world (Unix.plain [SetStr DebugLevel "verbose"]))
  = ([SelectedGlobalConfig "pkt";
      Stderr "The specified debug level [verbose] is invalid"; WriteHelp],
     ReturnErr (Some (Errorf "The specified debug level [verbose] is invalid"))).
Proof.
  erewrite (invalid_debug_level_is_fatal
              (Unix.world (Unix.plain [SetStr DebugLevel "verbose"]))
              (mergedAt306 (Unix.world (Unix.plain [SetStr DebugLevel "verbose"])))
              [] None);
    [| vm_compute; reflexivity | vm_compute; lia | vm_compute; reflexivity].
  vm_compute. reflexivity.
Defined.

Lemma resolveDataDir_alias w merged :
  ExplicitlySet (expls merged DataDir) = true ->
  ExplicitlySet (expls merged AppDataDir) = false ->
  fst (resolveDataDir w merged) = [Stderr datadirDeprecatedMessage]
  /\ Value (expls (resolvedDataDir w merged) AppDataDir) = Value (expls merged DataDir)
  /\ expls (resolvedDataDir w merged) RPCKey = expls merged RPCKey
  /\ expls (resolvedDataDir w merged) RPCCert = expls merged RPCCert.
Proof.
  unfold resolvedDataDir, resolveDataDir, ExplicitlySet. intros Hd Ha.
  rewrite fst_bind, snd_bind, Hd, Ha.
  cbn -[cleanAndExpandPath datadirDeprecatedMessage].
  unfold setValue, setExpl, withValue, upd, ExplicitlySet.
  cbn -[cleanAndExpandPath datadirDeprecatedMessage].
  rewrite ?decide_True by reflexivity. cbn. rewrite Ha.
  cbn -[cleanAndExpandPath]. rewrite ?decide_False by discriminate.
  rewrite ?decide_True by reflexivity. done.
Qed.

(** X11: the deprecated [datadir] given without [appdata] (lines 307-328):
    resolution prints the deprecation notice and succeeds with [appdata] set
    to the [datadir] text as it was given, not expanded; the RPC key and
    certificate do not follow it, they are the expansions of their merged
    values. *)
Theorem datadir_alone_moves_only_appdata w merged rest cfe cfg rest' :
  snd (mergeLayers w) = Continue (merged, rest, cfe) ->
  snd (loadConfig w) = Continue (cfg, rest') ->
  ExplicitlySet (expls merged DataDir) = true ->
  ExplicitlySet (expls merged AppDataDir) = false ->
  Value (expls cfg AppDataDir) = Value (expls merged DataDir)
  /\ Value (expls cfg RPCKey) = cleanAndExpandPath w (Value (expls merged RPCKey))
  /\ Value (expls cfg RPCCert) = cleanAndExpandPath w (Value (expls merged RPCCert))
  /\ exists out,
       fst (loadConfig w) = fst (mergeLayers w) ++ Stderr datadirDeprecatedMessage :: out.
Proof.
  intros Hm H Hd Ha.
  destruct (resolveDataDir_alias w merged Hd Ha) as (Hout & Happ & Hkey & Hcert).
  destruct (loadConfig_output_prefix _ _ _ _ Hm) as (out & Hfst).
  apply loadConfig_paths in H as (merged' & cfe' & c1 & net & c3 & Hm' & _ & Hrd & Hcfg).
  rewrite Hm in Hm'. injection Hm' as <- <- <-.
  destruct (expandPaths_values w c3) as (Hk & Hc & _ & Hap).
  rewrite !Hcfg, Hk, Hc, Hap, !Hrd by discriminate.
  rewrite Happ, Hkey, Hcert.
  repeat split. exists out. by rewrite Hfst, Hout.
Qed.

Lemma datadir_alone_moves_only_appdata_witness :
  Value (expls (resolved (Unix.world datadirSetup)) AppDataDir) = "~/old"
  /\ Value (expls (resolved (Unix.world datadirSetup)) RPCKey)
     = "/home/user/.pktwallet/rpc.key".
Proof.
  destruct (datadir_alone_moves_only_appdata (Unix.world datadirSetup)
              (mergedAt306 (Unix.world datadirSetup)) [] None
              (resolved (Unix.world datadirSetup)) [])
    as (-> & -> & _); vm_compute; done.
Defined.

Lemma bootstrap_file_errors_are_returned_witness :
  loadConfig unreadableDisk
  = ([SelectedGlobalConfig "pkt"; Stderr "input/output error"], ReturnErr (Some ioError)).
Proof.
  edestruct (bootstrap_file_errors_are_returned unreadableDisk) as [Hdb _];
    [vm_compute; reflexivity .. |].
  rewrite Hdb by (vm_compute; reflexivity). vm_compute. reflexivity.
Defined.

(** X12: without the version flag, when pktd.conf can be read and the parse
    of the configuration file fails with an error that is not a
    [*os.PathError] (lines 283-288), resolution prints the error and the
    usage and returns it; no default file is written. *)
Theorem config_file_error_is_fatal w cli rest userpass assigned e :
  flags_Parse w = inr (cli, rest) ->
  let preCfg := applyLayer cli (defaultConfig w) in
  bools preCfg ShowVersion = false ->
  pktconfig_ReadUserPass w (pktdDefaultConf w) = inl userpass ->
  ini_ParseFile w false (configFilePathOf w preCfg) = (assigned, Some e) ->
  is_PathError e = false ->
  loadConfig w = ([Stderr (emsg e); WriteHelp], ReturnErr (Some e)).
Proof.
  intros Hparse preCfg Hver Hread Hini Hpath.
  unfold loadConfig, mergeLayers. rewrite Hparse. cbv zeta. fold preCfg.
  rewrite ret_bind, Hver, ret_bind.
  unfold seedFromPktdConf, loadConfigFile. rewrite Hread, Hini, Hpath.
  destruct (negb _ && negb _); [by exec |].
  destruct (2 <=? length userpass)%nat; by exec.
Qed.

Lemma config_file_error_is_fatal_witness :
  loadConfig brokenConfigFile
  = ([Stderr "malformed key=value"; WriteHelp], ReturnErr (Some iniError)).
Proof.
  apply (config_file_error_is_fatal brokenConfigFile [] [] [] [] iniError);
    vm_compute; reflexivity.
Defined.

(** the merge when the config file is missing (lines 289-296) *)
Lemma missing_config_file_merge w cli rest userpass assigned e :
  flags_Parse w = inr (cli, rest) ->
  let preCfg := applyLayer cli (defaultConfig w) in
  let configFilePath := configFilePathOf w preCfg in
  bools preCfg ShowVersion = false ->
  pktconfig_ReadUserPass w (pktdDefaultConf w) = inl userpass ->
  ini_ParseFile w false configFilePath = (assigned, Some e) ->
  is_PathError e = true ->
  exists merged,
    mergeLayers w
    = ([Stderr (missingConfigMessage configFilePath); WroteDefaultConfig configFilePath],
       Continue
         (merged, rest,
          match pktconfig_CreateDefaultConfigFile w configFilePath with
          | Some configFileError => Some configFileError
          | None => snd (ini_ParseFile w true configFilePath)
          end)).
Proof.
  intros Hparse preCfg configFilePath Hver Hread Hini Hpath.
  unfold configFilePath, preCfg in *. clear configFilePath preCfg.
  unfold mergeLayers. rewrite Hparse. cbv zeta.
  rewrite ret_bind, Hver, ret_bind.
  unfold seedFromPktdConf, loadConfigFile. rewrite Hread, Hini, Hpath.
  fold (missingConfigMessage (configFilePathOf w (applyLayer cli (defaultConfig w)))).
  destruct (pktconfig_CreateDefaultConfigFile w _);
    [| destruct (ini_ParseFile w true _) as [assigned' e']];
    destruct (negb _ && negb _); try destruct (2 <=? length userpass)%nat;
    exec; by eexists.
Qed.

Lemma rejectSeen_continue seen addrs :
  snd (rejectSeen seen addrs) = Continue tt ->
  rejectSeen seen addrs = ([], Continue tt) /\ (forall b, b ∈ addrs -> b ∉ seen).
Proof.
  induction addrs as [| a l IH]; simpl.
  - intros _. split; [done |]. intros b Hb. by apply elem_of_nil in Hb.
  - destruct (bool_decide (a ∈ seen)) eqn:Ha; [done |].
    apply bool_decide_eq_false in Ha. intros H. destruct (IH H) as [-> Hl].
    split; [done |]. intros b [-> | Hb]%elem_of_cons; auto.
Qed.

Lemma checkSharedListeners_continue c :
  snd (checkSharedListeners c) = Continue tt ->
  checkSharedListeners c = ([], Continue tt)
  /\ (forall a, a ∈ lists c LegacyRPCListeners -> a ∉ lists c ExperimentalRPCListeners).
Proof.
  unfold checkSharedListeners.
  destruct (0 <? length (lists c LegacyRPCListeners))%nat eqn:Hl; simpl.
  - destruct (0 <? length (lists c ExperimentalRPCListeners))%nat eqn:He.
    + intros H. apply rejectSeen_continue in H as [-> Hnone]. split; [done |].
      intros a Ha Hexp. apply (Hnone a Hexp). by apply seenAddressesOf_elem.
    + intros _. split; [done |]. apply Nat.ltb_ge in He.
      destruct (lists c ExperimentalRPCListeners); [| simpl in He; lia].
      intros a _ Ha. by apply elem_of_nil in Ha.
  - intros _. split; [done |]. apply Nat.ltb_ge in Hl.
    destruct (lists c LegacyRPCListeners); [| simpl in Hl; lia].
    intros a Ha. by apply elem_of_nil in Ha.
Qed.

(** a successful resolution has passed the check of line 564 *)
Lemma reachListenerCheck_of_success w cfg rest :
  snd (loadConfig w) = Continue (cfg, rest) ->
  exists merged cfe c3,
    snd (mergeLayers w) = Continue (merged, rest, cfe)
    /\ snd (reachListenerCheck w) = Continue (c3, rest, cfe)
    /\ snd (checkSharedListeners c3) = Continue tt
    /\ cfg = resolveCredentials (expandPaths w c3).
Proof.
  intros H. apply loadConfig_continue in H
    as (merged & cfe & c1 & net & c2 & c3 & Hm & Hp & Hb & Hc & Hn & Hs & ->).
  exists merged, cfe, c3. split; [done |]. split; [| done].
  unfold reachListenerCheck, reachBootstrap.
  rewrite !snd_bind, Hm. cbv beta iota. rewrite snd_bind, Hp. cbv beta iota.
  cbn [snd ret mret M_ret]. rewrite snd_bind, Hb, snd_bind, Hc, snd_bind, Hn. done.
Qed.

Lemma config_file_warning_comes_last w merged rest cfe cfg rest' :
  snd (mergeLayers w) = Continue (merged, rest, cfe) ->
  snd (loadConfig w) = Continue (cfg, rest') ->
  fst (loadConfig w)
  = fst (reachListenerCheck w)
      ++ match cfe with Some e => [Warnf (emsg e)] | None => [] end.
Proof.
  intros Hm H.
  apply reachListenerCheck_of_success in H as (merged' & cfe' & c3 & Hm' & Hr & Hs & _).
  rewrite Hm in Hm'. injection Hm' as <- <- <-.
  rewrite (loadConfig_from_listeners _ _ _ _ Hr). unfold afterListeners.
  apply checkSharedListeners_continue in Hs as [-> _].
  by destruct cfe.
Qed.

Lemma reachListenerCheck_output_prefix w :
  exists out, fst (reachListenerCheck w) = fst (mergeLayers w) ++ out.
Proof.
  unfold reachListenerCheck, reachBootstrap. rewrite !fst_bind.
  eexists. by rewrite <- !app_assoc.
Qed.

(** X13: without the version flag and with a readable pktd.conf, when the
    configuration file is missing and cannot be created from the sample
    (lines 289-296) and resolution succeeds, its output begins with the
    notice of line 290 and ends with the creation error, as a warning in the
    log (lines 605-610). *)
Theorem uncreatable_config_file_is_only_warned
    w cli rest userpass assigned e configFileError cfg rest' :
  flags_Parse w = inr (cli, rest) ->
  let preCfg := applyLayer cli (defaultConfig w) in
  let configFilePath := configFilePathOf w preCfg in
  bools preCfg ShowVersion = false ->
  pktconfig_ReadUserPass w (pktdDefaultConf w) = inl userpass ->
  ini_ParseFile w false configFilePath = (assigned, Some e) ->
  is_PathError e = true ->
  pktconfig_CreateDefaultConfigFile w configFilePath = Some configFileError ->
  snd (loadConfig w) = Continue (cfg, rest') ->
  exists out,
    fst (loadConfig w)
    = [Stderr (missingConfigMessage configFilePath); WroteDefaultConfig configFilePath]
        ++ out ++ [Warnf (emsg configFileError)].
Proof.
  intros Hparse preCfg configFilePath Hver Hread Hini Hpath Hcreate H.
  destruct (missing_config_file_merge w cli rest userpass assigned e
              Hparse Hver Hread Hini Hpath) as (merged & Hm).
  fold preCfg in Hm. fold configFilePath in Hm. rewrite Hcreate in Hm.
  assert (snd (mergeLayers w) = Continue (merged, rest, Some configFileError)) as Hm'
    by (by rewrite Hm).
  rewrite (config_file_warning_comes_last _ _ _ _ _ _ Hm' H).
  destruct (reachListenerCheck_output_prefix w) as (out & ->).
  rewrite Hm. exists out. by rewrite <- app_assoc.
Qed.

Lemma uncreatable_config_file_is_only_warned_witness :
  exists cfg,
    loadConfig readOnlyHome
    = ([Stderr "/home/user/.pktwallet/pktwallet.conf does not exist, creating it from default";
        WroteDefaultConfig "/home/user/.pktwallet/pktwallet.conf";
        SelectedGlobalConfig "pkt"; EnsuredDir "/home/user/.pktwallet/pkt";
        TunedNeutrino 125 86400 100; Warnf "read-only file system"],
       Continue (cfg, [])).
Proof.
  destruct (loadConfig readOnlyHome) as [out [[cfg rest'] | err | c]] eqn:Hload;
    [| by vm_compute in Hload ..].
  destruct (uncreatable_config_file_is_only_warned readOnlyHome [] [] [] []
              (Unix.PathError "open" "/home/user/.pktwallet/pktwallet.conf")
              readOnlyError cfg rest') as (out' & _);
    [vm_compute; reflexivity .. | by rewrite Hload |].
  vm_compute in Hload. injection Hload as <- <- <-. by eexists.
Defined.

(** X14: after a successful resolution no address is both a legacy and an
    experimental RPC listener (lines 564-580). *)
Theorem resolved_listeners_are_disjoint w cfg rest :
  snd (loadConfig w) = Continue (cfg, rest) ->
  forall a, a ∈ lists cfg LegacyRPCListeners -> a ∉ lists cfg ExperimentalRPCListeners.
Proof.
  intros H. apply reachListenerCheck_of_success in H as (_ & _ & c3 & _ & _ & Hs & ->).
  apply checkSharedListeners_continue in Hs as [_ Hnone].
  pose proof (expandPaths_agree w c3) as (_ & _ & _ & _ & _ & He).
  pose proof (resolveCredentials_agree (expandPaths w c3)) as (_ & _ & _ & _ & _ & Hr).
  intros a. rewrite !Hr, !He by apply not_elem_of_nil. apply Hnone.
Qed.

Lemma resolved_listeners_are_disjoint_witness :
  "127.0.0.1:8332" ∉ lists (resolved (Unix.world listenerSetup)) ExperimentalRPCListeners.
Proof.
  apply (resolved_listeners_are_disjoint (Unix.world listenerSetup) _ []).
  - vm_compute. reflexivity.
  - vm_compute. elem.
Defined.

(** the listener lists [normalizeListeners] continues with *)
Lemma normalizeListeners_values w c net c' :
  snd (normalizeListeners w c net) = Continue c' ->
  cfgutil_NormalizeAddresses w (lists c ExperimentalRPCListeners) (RPCServerPort net)
  = inl (lists c' ExperimentalRPCListeners)
  /\ if (length (lists c ExperimentalRPCListeners) =? 0)%nat
        && (length (lists c LegacyRPCListeners) =? 0)%nat
     then exists addrs,
         net_LookupHost w "localhost" = inl addrs
         /\ cfgutil_NormalizeAddresses w
              (map (fun addr => net_JoinHostPort w addr (RPCServerPort net)) addrs)
              (RPCServerPort net)
            = inl (lists c' LegacyRPCListeners)
     else cfgutil_NormalizeAddresses w (lists c LegacyRPCListeners) (RPCServerPort net)
          = inl (lists c' LegacyRPCListeners).
Proof.
  unfold normalizeListeners. rewrite snd_bind.
  match goal with
  | |- context [match _ with Continue a => @?k a | ReturnErr _ => _ | OsExit _ => _ end] =>
      set (rest := k)
  end.
  assert (forall c1,
            lists c1 ExperimentalRPCListeners = lists c ExperimentalRPCListeners ->
            rest c1 = Continue c' ->
            cfgutil_NormalizeAddresses w (lists c ExperimentalRPCListeners)
              (RPCServerPort net)
            = inl (lists c' ExperimentalRPCListeners)
            /\ cfgutil_NormalizeAddresses w (lists c1 LegacyRPCListeners)
                 (RPCServerPort net)
               = inl (lists c' LegacyRPCListeners)) as Hrest.
  { intros c1 Hexp. unfold rest. rewrite snd_bind. unfold orReturn.
    destruct (cfgutil_NormalizeAddresses w (lists c1 LegacyRPCListeners) _)
      as [legacy | err].
    2: { rewrite snd_bind. cbn [snd emit returnErr]. discriminate. }
    cbn [snd ret mret M_ret]. rewrite snd_bind.
    change (lists (setList LegacyRPCListeners legacy c1) ExperimentalRPCListeners)
      with (lists c1 ExperimentalRPCListeners).
    rewrite Hexp.
    destruct (cfgutil_NormalizeAddresses w (lists c ExperimentalRPCListeners) _)
      as [experimental | err].
    2: { rewrite snd_bind. cbn [snd emit returnErr]. discriminate. }
    cbn [snd ret mret M_ret]. intros [= <-]. split; [done |].
    unfold setList, upd; cbn. done. }
  destruct (_ && _).
  - destruct (net_LookupHost w "localhost") as [addrs | err]; [| done].
    cbn [snd ret mret M_ret]. intros H. apply Hrest in H as [He Hl]; [| done].
    split; [done |]. by exists addrs.
  - cbn [snd ret mret M_ret]. intros H. by apply Hrest in H.
Qed.

(** X15: after a successful resolution the experimental listeners are the
    normalization of the merged ones with the server port of the active
    network; the legacy listeners are the normalization of the merged ones,
    or, when both merged lists are empty, of the addresses of localhost joined
    with that port (lines 530-562).  Defaults are added to the legacy list
    only. *)
Theorem listeners_are_normalized w merged rest cfe cfg rest' :
  snd (mergeLayers w) = Continue (merged, rest, cfe) ->
  snd (loadConfig w) = Continue (cfg, rest') ->
  let port := RPCServerPort (flaggedNet w merged) in
  cfgutil_NormalizeAddresses w (lists merged ExperimentalRPCListeners) port
  = inl (lists cfg ExperimentalRPCListeners)
  /\ if (length (lists merged ExperimentalRPCListeners) =? 0)%nat
        && (length (lists merged LegacyRPCListeners) =? 0)%nat
     then exists addrs,
         net_LookupHost w "localhost" = inl addrs
         /\ cfgutil_NormalizeAddresses w
              (map (fun addr => net_JoinHostPort w addr port) addrs) port
            = inl (lists cfg LegacyRPCListeners)
     else cfgutil_NormalizeAddresses w (lists merged LegacyRPCListeners) port
          = inl (lists cfg LegacyRPCListeners).
Proof.
  intros Hm H port. apply loadConfig_continue in H
    as (merged' & cfe' & c1 & net & c2 & c3 & Hm' & Hp & _ & Hc & Hn & _ & ->).
  rewrite Hm in Hm'. injection Hm' as <- <- <-.
  apply prepare_continue in Hp as (-> & Hle & _ & (_ & _ & _ & _ & _ & Hl1)).
  pose proof (resolvedDataDir_agree w merged) as (Hb & _).
  rewrite (countNets_bools w _ merged Hb), (countNets_single w merged Hle) in Hc, Hn.
  apply rpcClient_continue in Hc as ((_ & _ & _ & _ & _ & Hl2) & _).
  apply normalizeListeners_values in Hn. fold port in Hn.
  pose proof (expandPaths_agree w c3) as (_ & _ & _ & _ & _ & He).
  pose proof (resolveCredentials_agree (expandPaths w c3)) as (_ & _ & _ & _ & _ & Hr).
  rewrite !Hr, !He by apply not_elem_of_nil.
  rewrite !Hl2, !Hl1 in Hn by apply not_elem_of_nil. exact Hn.
Qed.

Lemma inl_eq {A B} (x y : A) : @inl A B x = inl y -> x = y.
Proof. congruence. Qed.

Lemma listeners_are_normalized_witness :
  lists (resolved (Unix.world (Unix.plain []))) LegacyRPCListeners
  = ["127.0.0.1:64763"; "[::1]:64763"]
  /\ lists (resolved (Unix.world (Unix.plain []))) ExperimentalRPCListeners = [].
Proof.
  destruct (listeners_are_normalized (Unix.world (Unix.plain []))
              (mergedAt306 (Unix.world (Unix.plain []))) [] None
              (resolved (Unix.world (Unix.plain []))) [])
    as (He & Hl); [vm_compute; reflexivity .. |].
  match type of Hl with
  | if ?c then _ else _ => replace c with true in Hl by (vm_compute; reflexivity)
  end.
  destruct Hl as (addrs & Ha & Hl).
  assert (addrs = ["127.0.0.1"; "::1"]) as -> by (vm_compute in Ha; congruence).
  split.
  - apply (inl_eq (B := goerr)). rewrite <- Hl. vm_compute. reflexivity.
  - apply (inl_eq (B := goerr)). rewrite <- He. vm_compute. reflexivity.
Defined.

(** the CA file [chooseCAFile] continues with *)
Lemma chooseCAFile_value w cfg host c' :
  snd (chooseCAFile w cfg host) = Continue c' ->
  Value (expls c' CAFile)
  = if bools cfg ClientTLS && negb (ExplicitlySet (expls cfg CAFile)) then
      let copy := filepath_Join w (Value (expls cfg AppDataDir)) defaultCAFilename in
      match cfgutil_FileExists w copy with
      | inl false =>
          if bool_decide (host ∈ localhostListeners) then
            match cfgutil_FileExists w (pktdDefaultCAFile w) with
            | inl true => pktdDefaultCAFile w
            | _ => copy
            end
          else copy
      | _ => copy
      end
    else Value (expls cfg CAFile).
Proof.
  unfold chooseCAFile.
  destruct (bools cfg ClientTLS); [| by intros [= <-]].
  destruct (negb (ExplicitlySet (expls cfg CAFile))); [| by intros [= <-]].
  cbv zeta. rewrite setValue_same. simpl andb. cbv iota.
  set (copy := filepath_Join w _ _). rewrite snd_bind. unfold orReturn.
  destruct (cfgutil_FileExists w copy) as [[|] | err].
  - cbn. intros [= <-]. by rewrite setValue_same.
  - cbn [snd ret mret M_ret negb].
    destruct (bool_decide (host ∈ localhostListeners)).
    + rewrite snd_bind.
      destruct (cfgutil_FileExists w (pktdDefaultCAFile w)) as [[|] | err];
        cbn; try discriminate; intros [= <-]; by rewrite ?setValue_same.
    + cbn. intros [= <-]. by rewrite setValue_same.
  - rewrite snd_bind. cbn. discriminate.
Qed.

Lemma rpcClient_cafile w cfg net c' :
  snd (rpcClient w cfg net) = Continue c' ->
  bools cfg UseRPC = true ->
  exists host port c,
    net_SplitHostPort w (strs c' RPCConnect) = inl (host, port)
    /\ agreeExcept [RPCConnect] [] [] cfg c
    /\ snd (chooseCAFile w c host) = Continue c'.
Proof.
  unfold rpcClient. intros H Huse. rewrite Huse in H. simpl in H. revert H.
  set (cfg1 := if isEmpty (strs cfg RPCConnect) then _ else cfg).
  assert (agreeExcept [RPCConnect] [] [] cfg cfg1) as H1.
  { unfold cfg1. destruct (isEmpty _); [apply agree_setStr; elem | apply agree_refl]. }
  clearbody cfg1. rewrite snd_bind. unfold orReturn.
  destruct (cfgutil_NormalizeAddress w _ _) as [addr | err].
  2: { rewrite snd_bind. cbn. discriminate. }
  cbn [snd ret mret M_ret]. rewrite snd_bind.
  destruct (net_SplitHostPort w _) as [[host port] | err] eqn:Hsplit; [| done].
  cbn [snd ret mret M_ret]. intros H.
  exists host, port, (setStr RPCConnect addr cfg1).
  pose proof (chooseCAFile_continue _ _ _ _ H) as (_ & _ & Hs & _).
  rewrite Hs by apply not_elem_of_nil.
  split; [exact Hsplit |]. split; [| done].
  eapply agree_trans; [exact H1 | apply agree_setStr; elem].
Qed.

(** X16: the CA file after a successful resolution with [userpc] (lines
    485-527).  With TLS to pktd and no [cafile] given it is the expansion of
    pktd.cert in the application data directory, replaced by the
    certificate of a local pktd when that copy does not exist, the host of
    [rpcconnect] is localhost, 127.0.0.1 or ::1 and pktd's own certificate
    exists; otherwise it is the expansion of the merged [cafile]. *)
Theorem ca_file_choice w merged rest cfe cfg rest' :
  snd (mergeLayers w) = Continue (merged, rest, cfe) ->
  snd (loadConfig w) = Continue (cfg, rest') ->
  bools merged UseRPC = true ->
  exists host port,
    net_SplitHostPort w (strs cfg RPCConnect) = inl (host, port)
    /\ Value (expls cfg CAFile)
       = cleanAndExpandPath w
           (if bools merged ClientTLS && negb (ExplicitlySet (expls merged CAFile)) then
              let copy := filepath_Join w (Value (expls cfg AppDataDir))
                            defaultCAFilename in
              match cfgutil_FileExists w copy with
              | inl false =>
                  if bool_decide (host ∈ localhostListeners) then
                    match cfgutil_FileExists w (pktdDefaultCAFile w) with
                    | inl true => pktdDefaultCAFile w
                    | _ => copy
                    end
                  else copy
              | _ => copy
              end
            else Value (expls merged CAFile)).
Proof.
  intros Hm H Huse. apply loadConfig_continue in H
    as (merged' & cfe' & c1 & net & c2 & c3 & Hm' & Hp & _ & Hc & Hn & _ & ->).
  rewrite Hm in Hm'. injection Hm' as <- <- <-.
  apply prepare_continue in Hp as (_ & _ & _ & (Hb1 & _ & _ & He1 & Hx1 & _)).
  rewrite <- Hb1 in Huse.
  apply rpcClient_cafile in Hc as (host & port & c & Hsplit & Hag & Hca); [| done].
  destruct Hag as (Hb2 & _ & _ & He2 & Hx2 & _).
  pose proof (chooseCAFile_continue _ _ _ _ Hca) as (_ & _ & _ & Hec & _).
  apply chooseCAFile_value in Hca.
  apply normalizeListeners_continue in Hn as (_ & _ & Hs3 & He3 & _).
  destruct (expandPaths_values w c3) as (_ & _ & Hcav & Hother).
  pose proof (resolveCredentials_agree (expandPaths w c3)) as (_ & _ & Hs4 & He4 & _).
  exists host, port. split.
  - rewrite Hs4 by not_elem.
    change (strs (expandPaths w c3) RPCConnect) with (strs c3 RPCConnect).
    by rewrite Hs3 by apply not_elem_of_nil.
  - rewrite !He4 by apply not_elem_of_nil. rewrite Hcav, Hother.
    rewrite !He3 by apply not_elem_of_nil. rewrite Hca. f_equal.
    rewrite (Hec AppDataDir) by not_elem.
    rewrite Hb2, Hb1. unfold ExplicitlySet. rewrite Hx2, Hx1.
    rewrite (He2 CAFile) by apply not_elem_of_nil.
    rewrite (He1 CAFile) by not_elem. done.
Qed.

Lemma ca_file_choice_witness :
  Value (expls (resolved (Unix.world localPktdSetup)) CAFile) = "/home/user/.pktd/rpc.cert".
Proof.
  destruct (ca_file_choice (Unix.world localPktdSetup)
              (mergedAt306 (Unix.world localPktdSetup)) [] None
              (resolved (Unix.world localPktdSetup)) [])
    as (host & port & Hsplit & ->); [vm_compute; reflexivity .. |].
  assert (host = "localhost") as -> by (vm_compute in Hsplit; congruence).
  vm_compute. reflexivity.
Defined.

Lemma parse_error_is_returned_witness :
  loadConfig (Unix.world (withArgv (inl unknownFlag)))
  = ([Stderr "unknown flag `frobnicate'"; WriteHelp], ReturnErr (Some unknownFlag))
  /\ loadConfig (Unix.world (withArgv (inl helpRequested)))
     = ([Stdout "Usage: pktwallet [OPTIONS]"], ReturnErr (Some helpRequested)).
Proof.
  split.
  - apply (parse_error_is_returned (Unix.world (withArgv (inl unknownFlag))) unknownFlag).
    reflexivity.
  - apply (parse_error_is_returned (Unix.world (withArgv (inl helpRequested)))
             helpRequested).
    reflexivity.
Defined.

Lemma version_exits_first_witness :
  loadConfig (Unix.world (Unix.machine [SetBool ShowVersion true; SetBool Create true;
                                        SetBool TestNet3 true; SetBool SimNet true] []))
  = ([Stdout "pktwallet version 1.0.0"], OsExit 0).
Proof.
  apply (version_exits_first
           (Unix.world (Unix.machine [SetBool ShowVersion true; SetBool Create true;
                                      SetBool TestNet3 true; SetBool SimNet true] []))
           [SetBool ShowVersion true; SetBool Create true;
            SetBool TestNet3 true; SetBool SimNet true] []);
    reflexivity.
Defined.

(** ** [cleanAndExpandPath] *)

Lemma substring_whole s : String.substring 0 (String.length s) s = s.
Proof. induction s as [| c s IH]; [done |]. simpl. by rewrite IH. Qed.

Lemma from_0 s : GoString.from 0 s = s.
Proof. unfold GoString.from. rewrite Nat.sub_0_r. apply substring_whole. Qed.

Lemma from_S i c s : GoString.from (S i) (String c s) = GoString.from i s.
Proof. reflexivity. Qed.

Lemma upto_S i c s : GoString.upto (S i) (String c s) = String c (GoString.upto i s).
Proof. reflexivity. Qed.

Lemma upto_0 s : GoString.upto 0 s = "".
Proof. by destruct s. Qed.

(** [strings.IndexAny] splits a string before the first of the characters *)
Lemma IndexAny_split s chars i :
  GoString.IndexAny s chars = Some i ->
  s = (GoString.upto i s +:+ GoString.from i s)
  /\ GoString.IndexAny (GoString.upto i s) chars = None
  /\ GoString.IndexAny (GoString.from i s) chars = Some 0%nat.
Proof.
  revert i. induction s as [| c s IH]; intros i; [done |].
  cbn [GoString.IndexAny]. destruct (GoString.mem c chars) eqn:Hc.
  - intros [= <-]. rewrite upto_0, from_0. cbn [GoString.IndexAny].
    by rewrite Hc.
  - destruct (GoString.IndexAny s chars) as [j |]; [| done].
    intros [= <-]. destruct (IH j eq_refl) as (Hs & Hu & Hf).
    rewrite upto_S, from_S. cbn [GoString.IndexAny]. rewrite Hc, Hu, Hf.
    split; [| done].
    change (String c s = String c (GoString.upto j s +:+ GoString.from j s)).
    by rewrite <- Hs.
Qed.

Lemma HasPrefix_tilde s :
  GoString.HasPrefix s "~" = true -> s = String "~" (GoString.from 1 s).
Proof.
  unfold GoString.HasPrefix. destruct s as [| c s]; [discriminate |].
  cbn [String.prefix]. destruct (ascii_dec "~" c) as [<- |]; [| discriminate].
  intros _. by rewrite from_S, from_0.
Qed.

(** X17: [cleanAndExpandPath] on a path whose expansion begins with a tilde
    (lines 136-173).  The text after the tilde is a user name followed by a
    rest; the name has no path separator; the rest begins with a separator,
    or else has none and the name is empty; the result is the rest joined to
    the home directory of that user ([.] when unknown).  So [~name] without
    a separator is the file [name] in the home of the current user. *)
Theorem tilde_expansion w path :
  GoString.HasPrefix (os_ExpandEnv w path) "~" = true ->
  exists userName rest,
    os_ExpandEnv w path = ("~" +:+ userName +:+ rest)
    /\ GoString.IndexAny userName (pathSeparators w) = None
    /\ (GoString.IndexAny rest (pathSeparators w) = Some 0%nat
        \/ userName = "" /\ GoString.IndexAny rest (pathSeparators w) = None)
    /\ cleanAndExpandPath w path = filepath_Join w (homeDirOf w userName) rest.
Proof.
  intros Htilde. unfold cleanAndExpandPath. cbv zeta. rewrite Htilde. simpl negb. cbv iota.
  apply HasPrefix_tilde in Htilde.
  set (tail := GoString.from 1 (os_ExpandEnv w path)) in *.
  fold (pathSeparators w).
  destruct (GoString.IndexAny tail (pathSeparators w)) as [i |] eqn:Hi.
  - apply IndexAny_split in Hi as (Hs & Hu & Hf).
    exists (GoString.upto i tail), (GoString.from i tail).
    split; [by rewrite Htilde at 1; rewrite Hs at 1 |].
    split; [done |]. split; [by left |].
    unfold homeDirOf.
    destruct (if isEmpty (GoString.upto i tail) then user_Current w else user_Lookup w _)
      as [home |]; done.
  - exists "", tail. split; [done |]. split; [done |]. split; [by right |].
    unfold homeDirOf. change (isEmpty "") with true. cbv iota.
    destruct (user_Current w) as [home |]; done.
Qed.

Lemma tilde_expansion_witness :
  exists userName rest,
    "~bob" = ("~" +:+ userName +:+ rest)
    /\ GoString.IndexAny userName "/" = None
    /\ (GoString.IndexAny rest "/" = Some 0%nat
        \/ userName = "" /\ GoString.IndexAny rest "/" = None)
    /\ cleanAndExpandPath (Unix.world (Unix.plain [])) "~bob"
       = Unix.Join (homeDirOf (Unix.world (Unix.plain [])) userName) rest.
Proof.
  apply (tilde_expansion (Unix.world (Unix.plain [])) "~bob"). reflexivity.
Defined.

(** X18: when the command line gives both a user name and a password (lines
    267-270), pktd.conf is not consulted: whatever reading it would give,
    entries or an error, effects and result of [loadConfig] are the same. *)
Theorem cli_credentials_skip_pktd_conf w cli rest readUserPass :
  flags_Parse w = inr (cli, rest) ->
  let preCfg := applyLayer cli (defaultConfig w) in
  isEmpty (strs preCfg Username) = false ->
  isEmpty (strs preCfg Password) = false ->
  loadConfig (withReadUserPass readUserPass w) = loadConfig w.
Proof.
  intros Hparse preCfg Hu Hp.
  assert (mergeLayers (withReadUserPass readUserPass w) = mergeLayers w) as Hm.
  { unfold mergeLayers.
    change (flags_Parse (withReadUserPass readUserPass w)) with (flags_Parse w).
    rewrite Hparse. cbv zeta. rewrite !ret_bind.
    change (defaultConfig (withReadUserPass readUserPass w)) with (defaultConfig w).
    fold preCfg. unfold seedFromPktdConf. rewrite Hu, Hp. reflexivity. }
  unfold loadConfig. rewrite Hm. reflexivity.
Qed.

Lemma cli_credentials_skip_pktd_conf_witness :
  loadConfig (withReadUserPass (fun _ => inr ioError) (Unix.world credentialsSetup))
  = loadConfig (Unix.world credentialsSetup).
Proof.
  apply (cli_credentials_skip_pktd_conf (Unix.world credentialsSetup)
           [SetStr Username "alice"; SetStr Password "secret"] []);
    reflexivity.
Defined.

(** ** The settings of neutrino *)

Lemma tunings_bind {A B} (m : M A) (f : A -> M B) :
  tunings (m ≫= f)
  = tunings m ++ match snd m with Continue a => tunings (f a) | _ => [] end.
Proof.
  unfold tunings. rewrite fst_bind, List.filter_app. by destruct (snd m).
Qed.

Lemma untuned_bind {A B} (m : M A) (f : A -> M B) :
  tunings m = [] -> (forall a, tunings (f a) = []) -> tunings (m ≫= f) = [].
Proof.
  intros Hm Hf. rewrite tunings_bind, Hm. destruct (snd m); [apply Hf | done | done].
Qed.

Ltac untuned :=
  repeat first
    [ reflexivity
    | apply untuned_bind; [| intros ?]
    | match goal with
      | |- context [match ?x with _ => _ end] =>
          lazymatch x with
          | context [match _ with _ => _ end] => fail
          | _ => destruct x
          end
      end
    | progress cbv zeta ].

Lemma mergeLayers_untuned w : tunings (mergeLayers w) = [].
Proof.
  unfold mergeLayers, seedFromPktdConf, loadConfigFile, flags_printError,
    writeHelpUnlessHelp, orReturn, printErr.
  untuned.
Qed.

Lemma prepare_untuned w cfg : tunings (prepare w cfg) = [].
Proof.
  unfold prepare, resolveDataDir, selectNetwork, setupLogging, orReturn, printErr.
  untuned.
Qed.

Lemma bootstrapWallet_untuned w cfg net : tunings (bootstrapWallet w cfg net) = [].
Proof.
  unfold bootstrapWallet, bootstrapDecision, orReturn, printErr.
  untuned.
Qed.

Lemma rpcClient_tunings w cfg net :
  tunings (rpcClient w cfg net)
  = if bools cfg UseRPC then []
    else [TunedNeutrino (nums cfg MaxPeers) (nums cfg BanDuration)
            (nums cfg BanThreshold)].
Proof.
  unfold rpcClient, chooseCAFile, orReturn, printErr.
  destruct (bools cfg UseRPC); [| reflexivity]. cbn [negb].
  untuned.
Qed.

Lemma normalizeListeners_untuned w cfg net : tunings (normalizeListeners w cfg net) = [].
Proof.
  unfold normalizeListeners, orReturn.
  untuned.
Qed.

Lemma rejectSeen_untuned seen addrs : tunings (rejectSeen seen addrs) = [].
Proof.
  induction addrs as [| a l IH]; [done |].
  cbn [rejectSeen]. by destruct (bool_decide (a ∈ seen)).
Qed.

Lemma checkSharedListeners_untuned cfg : tunings (checkSharedListeners cfg) = [].
Proof.
  unfold checkSharedListeners. destruct (_ && _); [apply rejectSeen_untuned | done].
Qed.

(** X19: in a successful resolution the limits of neutrino are set exactly once,
    from the merged [maxpeers], [banduration] and [banthreshold], when
    [userpc] is off, and not at all when it is on (lines 479-483). *)
Theorem neutrino_is_tuned_without_userpc w merged rest cfe cfg rest' :
  snd (mergeLayers w) = Continue (merged, rest, cfe) ->
  snd (loadConfig w) = Continue (cfg, rest') ->
  tunings (loadConfig w)
  = if bools merged UseRPC then []
    else [TunedNeutrino (nums merged MaxPeers) (nums merged BanDuration)
            (nums merged BanThreshold)].
Proof.
  intros Hm H. apply loadConfig_continue in H
    as (merged' & cfe' & c1 & net & c2 & c3 & Hm' & Hp & Hb & Hc & Hn & Hs & ->).
  rewrite Hm in Hm'. injection Hm' as <- <- <-.
  unfold loadConfig. rewrite tunings_bind, mergeLayers_untuned, Hm. cbv beta iota.
  rewrite tunings_bind, prepare_untuned, Hp. cbv beta iota.
  rewrite tunings_bind, bootstrapWallet_untuned, Hb.
  unfold finishConfig.
  rewrite tunings_bind, rpcClient_tunings, Hc.
  rewrite tunings_bind, normalizeListeners_untuned, Hn.
  rewrite tunings_bind, checkSharedListeners_untuned, Hs.
  apply prepare_continue in Hp as (_ & _ & _ & (-> & -> & _)).
  cbn [app]. rewrite tunings_bind.
  destruct cfe; cbn; by rewrite app_nil_r.
Qed.

Lemma neutrino_is_tuned_without_userpc_witness :
  tunings (loadConfig (Unix.world (Unix.plain [SetNum MaxPeers 8])))
  = [TunedNeutrino 8 86400 100].
Proof.
  rewrite (neutrino_is_tuned_without_userpc (Unix.world (Unix.plain [SetNum MaxPeers 8]))
             (mergedAt306 (Unix.world (Unix.plain [SetNum MaxPeers 8]))) [] None
             (resolved (Unix.world (Unix.plain [SetNum MaxPeers 8]))) []);
    vm_compute; reflexivity.
Defined.

(** ** Returns without an error value *)

Lemma mergeLayers_nil w :
  snd (mergeLayers w) = ReturnErr None ->
  exists err, pktconfig_ReadUserPass w (pktdDefaultConf w) = inr err.
Proof.
  unfold mergeLayers, seedFromPktdConf, loadConfigFile, flags_printError,
    writeHelpUnlessHelp, orReturn, er_E.
  intros H. outcomes H; eauto.
Qed.

Lemma prepare_nil w cfg : snd (prepare w cfg) <> ReturnErr None.
Proof.
  unfold prepare, resolveDataDir, selectNetwork, setupLogging, orReturn.
  intros H. outcomes H.
Qed.

Lemma bootstrapWallet_nil w cfg net : snd (bootstrapWallet w cfg net) <> ReturnErr None.
Proof.
  unfold bootstrapWallet, bootstrapDecision, orReturn.
  intros H. outcomes H.
Qed.

Lemma rejectSeen_nil seen addrs : snd (rejectSeen seen addrs) <> ReturnErr None.
Proof.
  induction addrs as [| a l IH]; simpl; [done |].
  by destruct (bool_decide (a ∈ seen)).
Qed.

Lemma finishConfig_nil w cfg net rest cfe :
  snd (finishConfig w cfg net rest cfe) <> ReturnErr None.
Proof.
  unfold finishConfig. intros H. rewrite snd_bind in H.
  destruct (snd (rpcClient w cfg net)) as [c2 | e | c] eqn:Hc.
  - rewrite snd_bind in H.
    destruct (snd (normalizeListeners w c2 net)) as [c3 | e | c] eqn:Hn.
    + rewrite snd_bind in H.
      destruct (snd (checkSharedListeners c3)) as [[] | e | c] eqn:Hs.
      * rewrite snd_bind in H. by destruct cfe.
      * injection H as ->. revert Hs. unfold checkSharedListeners.
        destruct (_ && _); [apply rejectSeen_nil | done].
      * done.
    + injection H as ->. revert Hn. unfold normalizeListeners, orReturn, er_E.
      intros H. outcomes H.
    + done.
  - injection H as ->. revert Hc. unfold rpcClient, chooseCAFile, orReturn, er_E.
    intros H. outcomes H.
  - done.
Qed.

(** X20: [loadConfig] returns neither a configuration nor an error only when
    the reading of pktd.conf fails (line 275): every other failure carries
    its error. *)
Theorem failure_without_error_is_pktd_conf w :
  snd (loadConfig w) = ReturnErr None ->
  exists err, pktconfig_ReadUserPass w (pktdDefaultConf w) = inr err.
Proof.
  unfold loadConfig. rewrite snd_bind.
  destruct (snd (mergeLayers w)) as [[[merged rest] cfe] | e | c] eqn:Hm;
    [| intros [= ->]; by apply mergeLayers_nil | done].
  rewrite snd_bind.
  destruct (snd (prepare w merged)) as [[cfg net] | e | c] eqn:Hp;
    [| intros [= ->]; by apply prepare_nil in Hp | done].
  rewrite snd_bind.
  destruct (snd (bootstrapWallet w cfg net)) as [[] | e | c] eqn:Hb;
    [| intros [= ->]; by apply bootstrapWallet_nil in Hb | done].
  intros H. by apply finishConfig_nil in H.
Qed.

Lemma failure_without_error_is_pktd_conf_witness :
  exists err,
    pktconfig_ReadUserPass unreadablePktdConf (pktdDefaultConf unreadablePktdConf)
    = inr err.
Proof.
  apply (failure_without_error_is_pktd_conf unreadablePktdConf).
  vm_compute. reflexivity.
Defined.

(** X21: the arguments returned by a successful resolution are the ones
    go-flags left unparsed (lines 298-305 and 612). *)
Theorem remaining_args_are_passed_through w cfg rest :
  snd (loadConfig w) = Continue (cfg, rest) ->
  exists cli, flags_Parse w = inr (cli, rest).
Proof.
  intros H. apply loadConfig_continue in H as (merged & cfe & _ & _ & _ & _ & Hm & _).
  apply mergeLayers_merged in Hm as (cli & Hparse & _). by exists cli.
Qed.

Lemma remaining_args_are_passed_through_witness :
  exists cli,
    flags_Parse (Unix.world (withArgv (inr ([], ["wallet.dat"; "--"])))) 
    = inr (cli, ["wallet.dat"; "--"]).
Proof.
  apply (remaining_args_are_passed_through
           (Unix.world (withArgv (inr ([], ["wallet.dat"; "--"]))))
           (resolved (Unix.world (withArgv (inr ([], ["wallet.dat"; "--"])))))).
  vm_compute. reflexivity.
Defined.

(** ** Where the configuration file is looked for *)

Lemma supplied_expl l o v : supplied l (OExpl o) = Some v -> exists s, v = VStr s.
Proof.
  induction l as [| s l IH]; [done |]. simpl.
  destruct (supplied l (OExpl o)) as [v' |]; [intros [= <-]; by apply IH |].
  destruct s; simpl; try done. case_decide; [| done]. intros [= <-]. by eexists.
Qed.

Lemma expl_applyLayer w l o :
  let c := applyLayer l (defaultConfig w) in
  Value (expls c o) = default (Value (expls (defaultConfig w) o)) (explGiven l o)
  /\ ExplicitlySet (expls c o)
     = match explGiven l o with Some _ => true | None => false end.
Proof.
  intros c. unfold explGiven, ExplicitlySet.
  pose proof (readOpt_applyLayer l (defaultConfig w) (OExpl o)) as Hv.
  pose proof (explicit_applyLayer l (defaultConfig w) o) as Hx.
  fold c in Hv, Hx. rewrite Hx. unfold supplies. simpl in Hv.
  destruct (supplied l (OExpl o)) as [v |] eqn:Hs.
  - apply supplied_expl in Hs as [s ->]. simpl in Hv. by injection Hv as ->.
  - simpl in Hv. by injection Hv as ->.
Qed.

(** X22: the configuration file is looked for in a place that the command line
    alone decides (lines 251-265): the expansion of [--configfile]; else
    pktwallet.conf in the directory of [--appdata], taken as given and not
    expanded; else in the expansion of [--datadir]; the default file when
    none is given or the directory is the default one. *)
Theorem config_file_location w cli :
  configFilePathOf w (applyLayer cli (defaultConfig w))
  = match explGiven cli ConfigFile with
    | Some file => cleanAndExpandPath w file
    | None =>
        let appDataDir :=
          match explGiven cli AppDataDir, explGiven cli DataDir with
          | Some dir, _ => dir
          | None, Some dir => cleanAndExpandPath w dir
          | None, None => defaultAppDataDir w
          end in
        if String.eqb appDataDir (defaultAppDataDir w) then defaultConfigFile w
        else filepath_Join w appDataDir defaultConfigFilename
    end.
Proof.
  unfold configFilePathOf. cbv zeta.
  destruct (expl_applyLayer w cli ConfigFile) as [-> ->].
  destruct (expl_applyLayer w cli AppDataDir) as [-> ->].
  destruct (expl_applyLayer w cli DataDir) as [-> ->].
  destruct (explGiven cli ConfigFile) as [file |]; [done |].
  destruct (explGiven cli AppDataDir) as [dir |],
    (explGiven cli DataDir) as [old |]; simpl;
    match goal with |- context [String.eqb ?a ?b] => by destruct (String.eqb a b) end.
Qed.
